(** * Fluid-acoustic solver GUI: the form state and the input-file writer

    A shallow embedding of the PySide6 application under [src/]: the six
    tabs ([tabs/geometry_tab.py], [tabs/solver_tab.py],
    [tabs/physical_tab.py], [tabs/boundary_tab.py],
    [tabs/prescribed_tab.py], [tabs/output_tab.py]) and
    [SolverGUI.save_input_file] of [main.py].

    Layout of the development:
    - [Py]: the Python builtins the source calls (string methods,
      [os.path], exceptions, float formatting as an interface);
    - [Qt]: widgets, layouts and their accessors;
    - one module per tab class, then [SolverGUI];
    - the theorems, grouped by the property they establish. *)

From Stdlib Require Import ZArith String Ascii List Lia QArith Qabs.
From stdpp Require Import base tactics option list gmap strings pretty.

Local Open Scope string_scope.
Local Open Scope Z_scope.
Local Open Scope list_scope.

(* ===================================================================== *)
(** ** Python builtins *)
(* ===================================================================== *)

Module Py.

(** Exceptions the modelled code can meet. All of them derive from
    [Exception], so [except Exception] catches every one. *)
Inductive exn :=
| AttributeError
| KeyError
| IndexError
| TypeError
| ZeroDivisionError
| OSError.

(** What [str(e)] shows of an exception in a message. The text the
    interpreter attaches to an exception is not modelled: the class name
    stands for it. *)
Definition exn_name (e : exn) : string :=
  match e with
  | AttributeError => "AttributeError"
  | KeyError => "KeyError"
  | IndexError => "IndexError"
  | TypeError => "TypeError"
  | ZeroDivisionError => "ZeroDivisionError"
  | OSError => "OSError"
  end.

(** The outcome of evaluating an expression: a value or a raised exception. *)
Inductive Res (A : Type) :=
| Ok (a : A)
| Raise (e : exn).
Arguments Ok {A} a.
Arguments Raise {A} e.

Global Instance Res_ret : MRet Res := @Ok.
Global Instance Res_bind : MBind Res := λ A B f r,
  match r with
  | Ok a => f a
  | Raise e => Raise e
  end.

Definition is_ok {A} (r : Res A) : bool :=
  match r with Ok _ => true | Raise _ => false end.

(** A [for] loop over [xs] that threads the loop's variables [b] and stops
    at the first exception. *)
Fixpoint foldM {A B} (f : B → A → Res B) (b : B) (xs : list A) : Res B :=
  match xs with
  | [] => Ok b
  | x :: xs' => b' ← f b x; foldM f b' xs'
  end.

(** Statements that change a state [S] and may raise: the state reached
    when the exception is raised is kept, as in Python. *)
Definition M (S A : Type) : Type := S → Res A * S.

Global Instance M_ret {S} : MRet (M S) := λ A a s, (Ok a, s).
Global Instance M_bind {S} : MBind (M S) := λ A B f m s,
  match m s with
  | (Ok a, s') => f a s'
  | (Raise e, s') => (Raise e, s')
  end.

Definition get {S} : M S S := λ s, (Ok s, s).
Definition modify {S} (f : S → S) : M S unit := λ s, (Ok tt, f s).
Definition lift {S A} (r : Res A) : M S A := λ s, (r, s).

(** [try: body  except Exception as e: handler(e)] *)
Definition try_except {S A} (body : M S A) (handler : exn → M S A) : M S A :=
  λ s, match body s with
       | (Ok a, s') => (Ok a, s')
       | (Raise e, s') => handler e s'
       end.

(** [for x in xs: body(x)] *)
Fixpoint for_ {S A} (xs : list A) (body : A → M S unit) : M S unit :=
  match xs with
  | [] => mret tt
  | x :: xs' => body x;; for_ xs' body
  end.

(** *** Strings *)

(** [c.lower()] on one character (ASCII letters). *)
Definition lower_ascii (c : ascii) : ascii :=
  let n := nat_of_ascii c in
  if (65 <=? n)%nat && (n <=? 90)%nat then ascii_of_nat (n + 32) else c.

(** [s.lower()] *)
Fixpoint lower (s : string) : string :=
  match s with
  | EmptyString => EmptyString
  | String c s' => String (lower_ascii c) (lower s')
  end.

(** [s.replace(old, new)] for a one-character [old]. *)
Fixpoint replace (old : ascii) (new : string) (s : string) : string :=
  match s with
  | EmptyString => EmptyString
  | String c s' =>
      if Ascii.eqb c old then new +:+ replace old new s'
      else String c (replace old new s')
  end.

(** [sub in s] *)
Fixpoint contains (sub s : string) : bool :=
  String.prefix sub s ||
  match s with
  | EmptyString => false
  | String _ s' => contains sub s'
  end.

(** [s[n:]] *)
Fixpoint drop (n : nat) (s : string) : string :=
  match n, s with
  | O, _ => s
  | S n', String _ s' => drop n' s'
  | S _, EmptyString => EmptyString
  end.

(** [s[:n]] *)
Fixpoint take (n : nat) (s : string) : string :=
  match n, s with
  | O, _ => EmptyString
  | S n', String c s' => String c (take n' s')
  | S _, EmptyString => EmptyString
  end.

(** [s.rfind(c)] for a one-character [c]; [-1] when absent. *)
Fixpoint rfind_from (c : ascii) (s : string) (pos : Z) (last : Z) : Z :=
  match s with
  | EmptyString => last
  | String d s' => rfind_from c s' (pos + 1) (if Ascii.eqb d c then pos else last)
  end.
Definition rfind (c : ascii) (s : string) : Z := rfind_from c s 0 (-1).

(** [d.get(key, default)] on a dict literal, kept as an association list. *)
Fixpoint dict_get {V} (d : list (string * V)) (key : string) : option V :=
  match d with
  | [] => None
  | (k, v) :: d' => if String.eqb k key then Some v else dict_get d' key
  end.
Definition dict_get_default {V} (d : list (string * V)) (key : string) (dflt : V) : V :=
  default dflt (dict_get d key).

(** [d[key]] *)
Definition dict_getitem {V} (d : list (string * V)) (key : string) : Res V :=
  match dict_get d key with
  | Some v => Ok v
  | None => Raise KeyError
  end.

(** [str(n)] for an [int]. *)
Definition str_int (n : Z) : string := pretty n.

(** *** [os.path] (posixpath) *)

Module os_path.

(** [basename(p)]: [i = p.rfind('/') + 1; return p[i:]] *)
Definition basename (p : string) : string :=
  let i := rfind "/" p + 1 in
  drop (Z.to_nat i) p.

(** The inner loop of [genericpath._splitext]: skip the leading dots of the
    last path component; the first other character before [dotIndex] makes
    the split valid. *)
Fixpoint splitext_scan (p : string) (dotIndex : Z) (filenameIndex : Z)
    (fuel : nat) : bool :=
  match fuel with
  | O => false
  | S fuel' =>
      if filenameIndex <? dotIndex then
        match String.get (Z.to_nat filenameIndex) p with
        | Some c =>
            if Ascii.eqb c "." then splitext_scan p dotIndex (filenameIndex + 1) fuel'
            else true
        | None => false
        end
      else false
  end.

(** [splitext(p)] *)
Definition splitext (p : string) : string * string :=
  let sepIndex := rfind "/" p in
  let dotIndex := rfind "." p in
  if (sepIndex <? dotIndex) &&
     splitext_scan p dotIndex (sepIndex + 1) (S (String.length p))
  then (take (Z.to_nat dotIndex) p, drop (Z.to_nat dotIndex) p)
  else (p, "").

End os_path.

(** *** The [float] nearest to a number

    A [float] is an IEEE 754 binary64 number; a decimal literal and the
    exact result of an operation stand for the [float] nearest to them. *)

(** Rounding to the nearest integer, ties to even. *)
Definition round_half_even (q : Q) : Z :=
  let n := Qnum q in
  let d := Zpos (Qden q) in
  let fl := n / d in
  let r := n mod d in
  if 2 * r <? d then fl
  else if d <? 2 * r then fl + 1
  else if Z.even fl then fl else fl + 1.

(** [q * 2**-k] *)
Definition shift2 (k : Z) (q : Q) : Q :=
  if 0 <=? k then Qmake (Qnum q) (Qden q * Z.to_pos (2 ^ k))
  else Qmake (Qnum q * 2 ^ (- k)) (Qden q).

(** The binary exponent of [q > 0]: [2**e <= q < 2**(e+1)]. *)
Definition exponent2 (q : Q) : Z :=
  let e := Z.log2 (Qnum q) - Z.log2 (Zpos (Qden q)) in
  if Qle_bool 1 (shift2 e q) then e else e - 1.

(** The [float] nearest to the rational [q], ties to even: 53 bits from
    the leading one, and the multiples of [2**-1074] below [2**-1022]. The
    infinities are left out: the numbers of the form stay far below the
    largest [float]. *)
Definition nearest (q : Q) : Q :=
  if Qnum q =? 0 then 0%Q
  else
    let a := Qabs q in
    let p := Z.max (exponent2 a - 52) (-1074) in
    let m := round_half_even (shift2 p a) in
    let r := Qred (shift2 (- p) (inject_Z m)) in
    if Qnum q <? 0 then Qopp r else r.

(** *** Floating-point numbers

    The program never inspects the digits of a [float]: it multiplies and
    divides them, compares them with zero, truncates them with [int()] and
    formats them. The interface below lists exactly these operations; the
    model is stated for every implementation of it. *)
Class Float (F : Type) := {
  of_decimal : Z → nat → F;        (* the literal [m * 10**-d] *)
  fmul : F → F → F;                (* [x * y] *)
  fdiv_nonzero : F → F → F;        (* [x / y] for [y != 0] *)
  is_zero : F → bool;              (* [x == 0] *)
  is_positive : F → bool;          (* [x > 0] *)
  trunc : F → Z;                   (* [int(x)] *)
  repr : F → string;               (* [str(x)], the format of [f"{x}"] *)
  format_6e : F → string;          (* [f"{x:.6e}"] *)
  format_2f : F → string;          (* [f"{x:.2f}"] *)
  format_4f : F → string;          (* [f"{x:.4f}"] *)
}.

(** [x / y]: CPython's [float_div] raises when the divisor compares equal
    to zero and divides otherwise. *)
Definition truediv `{Float F} (x y : F) : Res F :=
  if is_zero y then Raise ZeroDivisionError else Ok (fdiv_nonzero x y).

(** A value read from a spin box: [QSpinBox.value()] is an [int],
    [QDoubleSpinBox.value()] a [float]. *)
Inductive num (F : Type) :=
| Int (n : Z)
| Flt (x : F).
Arguments Int {F} n.
Arguments Flt {F} x.

(** [f"{v}"] *)
Definition str_num `{Float F} (v : num F) : string :=
  match v with
  | Int n => str_int n
  | Flt x => repr x
  end.

(** [f"{v:.6e}"] ([int] is converted to [float] first) *)
Definition format_6e_num `{Float F} (v : num F) : string :=
  match v with
  | Int n => format_6e (of_decimal n 0)
  | Flt x => format_6e x
  end.

(** [int(v)] *)
Definition int `{Float F} (v : num F) : Z :=
  match v with
  | Int n => n
  | Flt x => trunc x
  end.

(** [v == 0] and [v > 0] *)
Definition num_is_zero `{Float F} (v : num F) : bool :=
  match v with
  | Int n => n =? 0
  | Flt x => is_zero x
  end.
Definition num_is_positive `{Float F} (v : num F) : bool :=
  match v with
  | Int n => 0 <? n
  | Flt x => is_positive x
  end.

End Py.


(* ===================================================================== *)
(** ** Qt widgets and layouts *)
(* ===================================================================== *)

Module Qt.

(** The identity of a widget object ([w1 == w2] on Qt wrappers). *)
Definition wid := nat.
Bind Scope nat_scope with wid.

Record QLineEdit := { text : string; placeholderText : string }.

Record QComboBox := { items : list string; currentIndex : nat }.

(** [combo.currentText()]: the selected item, the empty string when the
    index selects none. *)
Definition currentText (c : QComboBox) : string :=
  default "" (items c !! currentIndex c).

(** [c = QComboBox(); c.addItems(items)] selects the first item. *)
Definition combo (its : list string) : QComboBox :=
  {| items := its; currentIndex := 0 |}.

(** [combo.setCurrentText(t)]: selects the first item equal to [t], and
    leaves the selection alone when there is none. *)
Fixpoint index_of (t : string) (its : list string) (i : nat) : option nat :=
  match its with
  | [] => None
  | x :: its' => if String.eqb x t then Some i else index_of t its' (S i)
  end.
Definition setCurrentText (t : string) (c : QComboBox) : QComboBox :=
  match index_of t (items c) 0 with
  | Some i => {| items := items c; currentIndex := i |}
  | None => c
  end.

(** [QTabWidget]: the tab titles and the index of the open tab. *)
Record QTabWidget := { tab_titles : list string; tab_index : nat }.

(** [tabs.tabText(i)]: the empty string out of range. *)
Definition tabText (tw : QTabWidget) (i : nat) : string :=
  default "" (tab_titles tw !! i).

(** [tabs.setCurrentIndex(i)] (the user opens tab [i]): ignored out of range. *)
Definition setCurrentIndex (i : nat) (tw : QTabWidget) : QTabWidget :=
  if (i <? length (tab_titles tw))%nat
  then {| tab_titles := tab_titles tw; tab_index := i |}
  else tw.

Section Widgets.
Context {F : Type}.

(** A widget as the code meets it when it walks a layout by position. A
    [QWidget] carries its identity and its layout (row containers and
    group boxes); the other widgets are leaves. *)
Inductive Widget :=
| QLabel (label : string)
| LineEdit (e : QLineEdit)
| ComboBox (c : QComboBox)
| QDoubleSpinBox (value : F)
| QSpinBox (value : Z)
| QPushButton (caption : string)
| QWidget (id : wid) (lay : Layout)
with Layout :=
| QBoxLayout (box_items : list LayoutItem)
| QGridLayout (cells : list (nat * nat * Widget))
with LayoutItem :=
| QWidgetItem (w : Widget)
| QSpacerItem
| QLayoutItem (l : Layout).

(** Attribute access on a value that may be [None]. *)
Definition recv {A} (o : option A) : Py.Res A :=
  match o with
  | Some a => Py.Ok a
  | None => Py.Raise Py.AttributeError
  end.

(** [layout.count()] *)
Definition count (l : Layout) : nat :=
  match l with
  | QBoxLayout its => length its
  | QGridLayout cs => length cs
  end.

(** [layout.itemAt(i)]: [None] out of range. *)
Definition itemAt (l : Layout) (i : nat) : option LayoutItem :=
  match l with
  | QBoxLayout its => its !! i
  | QGridLayout cs => (λ c, QWidgetItem c.2) <$> cs !! i
  end.

(** [grid.itemAtPosition(r, c)] *)
Definition itemAtPosition (l : Layout) (r c : nat) : Py.Res (option LayoutItem) :=
  match l with
  | QGridLayout cs =>
      Py.Ok ((λ x, QWidgetItem x.2) <$>
             List.find (λ x, Nat.eqb x.1.1 r && Nat.eqb x.1.2 c) cs)
  | QBoxLayout _ => Py.Raise Py.AttributeError
  end.

(** [item.widget()]: the widget of a widget item, [None] for the others. *)
Definition item_widget (it : LayoutItem) : option Widget :=
  match it with
  | QWidgetItem w => Some w
  | _ => None
  end.

(** [item.layout()] *)
Definition item_layout (it : LayoutItem) : option Layout :=
  match it with
  | QLayoutItem l => Some l
  | _ => None
  end.

(** [widget.layout()]: [None] for a widget without a layout. *)
Definition layout (w : Widget) : option Layout :=
  match w with
  | QWidget _ l => Some l
  | _ => None
  end.

(** [widget.text()] *)
Definition widget_text (w : Widget) : Py.Res string :=
  match w with
  | QLabel s => Py.Ok s
  | LineEdit e => Py.Ok (text e)
  | QPushButton s => Py.Ok s
  | _ => Py.Raise Py.AttributeError
  end.

(** [widget.setText(s)] *)
Definition setText (s : string) (w : Widget) : Py.Res Widget :=
  match w with
  | QLabel _ => Py.Ok (QLabel s)
  | LineEdit e => Py.Ok (LineEdit {| text := s; placeholderText := placeholderText e |})
  | QPushButton _ => Py.Ok (QPushButton s)
  | _ => Py.Raise Py.AttributeError
  end.

(** [widget.currentText()] *)
Definition widget_currentText (w : Widget) : Py.Res string :=
  match w with
  | ComboBox c => Py.Ok (currentText c)
  | _ => Py.Raise Py.AttributeError
  end.

(** [widget.value()] *)
Definition widget_value (w : Widget) : Py.Res (Py.num F) :=
  match w with
  | QDoubleSpinBox x => Py.Ok (Py.Flt x)
  | QSpinBox n => Py.Ok (Py.Int n)
  | _ => Py.Raise Py.AttributeError
  end.

(** [isinstance(w, QLabel)] *)
Definition is_QLabel (w : option Widget) : bool :=
  match w with
  | Some (QLabel _) => true
  | _ => false
  end.

(** [w is widget] for the widget of a layout item. *)
Definition item_is (widget : wid) (it : LayoutItem) : bool :=
  match it with
  | QWidgetItem (QWidget id _) => Nat.eqb id widget
  | _ => false
  end.

(** Removes the first element that satisfies [p]. *)
Fixpoint remove_first {A} (p : A → bool) (l : list A) : list A :=
  match l with
  | [] => []
  | x :: l' => if p x then l' else x :: remove_first p l'
  end.

(** [layout.addWidget(w)] *)
Definition addWidget (w : Widget) (l : Layout) : Layout :=
  match l with
  | QBoxLayout its => QBoxLayout (its ++ [QWidgetItem w])
  | QGridLayout cs => QGridLayout (cs ++ [(0%nat, 0%nat, w)])
  end.

(** [layout.removeWidget(widget)]: takes the item of that widget out of
    the layout; nothing happens when the layout does not hold it. *)
Definition removeWidget (widget : wid) (l : Layout) : Layout :=
  match l with
  | QBoxLayout its => QBoxLayout (remove_first (item_is widget) its)
  | QGridLayout cs =>
      QGridLayout (remove_first (λ c, item_is widget (QWidgetItem c.2)) cs)
  end.

(** [layout.takeAt(0)]: removes and returns the first item. *)
Definition takeAt0 (l : Layout) : option LayoutItem * Layout :=
  match l with
  | QBoxLayout [] => (None, l)
  | QBoxLayout (it :: its) => (Some it, QBoxLayout its)
  | QGridLayout [] => (None, l)
  | QGridLayout (c :: cs) => (Some (QWidgetItem c.2), QGridLayout cs)
  end.

(** The widget at position [k] of the layout, after it was changed in
    place to [w]. *)
Definition put_item (k : nat) (w : Widget) (l : Layout) : Layout :=
  match l with
  | QBoxLayout its => QBoxLayout (<[k := QWidgetItem w]> its)
  | QGridLayout cs => QGridLayout (alter (λ c, (c.1, w)) k cs)
  end.

(** The same for child [k] of the container at position [i]. *)
Definition put_child (i k : nat) (w : Widget) (l : Layout) : Layout :=
  match itemAt l i with
  | Some (QWidgetItem (QWidget id lay)) => put_item i (QWidget id (put_item k w lay)) l
  | _ => l
  end.

(** What the user can do to a widget through the screen: type into a line
    edit, pick a combo entry, change a spin box. [w'] is the widget after
    the input; labels, buttons and containers do not take input. *)
Definition user_input (w' w : Widget) : Widget :=
  match w, w' with
  | LineEdit e, LineEdit e' =>
      LineEdit {| text := text e'; placeholderText := placeholderText e |}
  | ComboBox c, ComboBox c' =>
      ComboBox {| items := items c; currentIndex := currentIndex c' |}
  | QDoubleSpinBox _, QDoubleSpinBox x => QDoubleSpinBox x
  | QSpinBox _, QSpinBox n => QSpinBox n
  | _, _ => w
  end.

End Widgets.

Arguments Widget F : clear implicits.
Arguments Layout F : clear implicits.
Arguments LayoutItem F : clear implicits.

(** *** The constructors of the spin boxes

    [QSpinBox(key=v, ...)] and [QDoubleSpinBox(key=v, ...)] build a box
    with Qt's defaults (value 0 in the range 0 to 99, or 0.0 in the range
    0.0 to 99.99 with two decimals) and then set the properties the
    keyword arguments name, in the order they are written. Each setter
    works on the box as it is at that point: a value is rounded to the
    decimals and brought into the range the box has when it is set. *)
Inductive spin_arg :=
| Value (m : Z) (d : nat)        (* [value=m * 10**-d] *)
| Minimum (m : Z) (d : nat)      (* [minimum=m * 10**-d] *)
| Maximum (m : Z) (d : nat)      (* [maximum=m * 10**-d] *)
| Decimals (n : nat).            (* [decimals=n] *)

(** [QSpinBox]: the range and the value. *)
Record int_box := { i_minimum : Z; i_maximum : Z; i_value : Z }.

(** [QAbstractSpinBoxPrivate::bound] *)
Definition i_bound (s : int_box) (v : Z) : Z :=
  if v <? i_minimum s then i_minimum s
  else if i_maximum s <? v then i_maximum s
  else v.

(** [QAbstractSpinBoxPrivate::setRange] *)
Definition i_setRange (lo hi : Z) (s : int_box) : int_box :=
  let s' := {| i_minimum := lo; i_maximum := if lo <? hi then hi else lo;
               i_value := i_value s |} in
  {| i_minimum := i_minimum s'; i_maximum := i_maximum s';
     i_value := i_bound s' (i_value s') |}.

(** [setValue], [setMinimum] and [setMaximum] of [QSpinBox]. *)
Definition i_set (s : int_box) (a : spin_arg) : int_box :=
  match a with
  | Value m _ =>
      {| i_minimum := i_minimum s; i_maximum := i_maximum s; i_value := i_bound s m |}
  | Minimum m _ => i_setRange m (if m <? i_maximum s then i_maximum s else m) s
  | Maximum m _ => i_setRange (if i_minimum s <? m then i_minimum s else m) m s
  | Decimals _ => s
  end.

(** [QSpinBox(...).value()] *)
Definition spin_box (args : list spin_arg) : Z :=
  i_value (fold_left i_set args {| i_minimum := 0; i_maximum := 99; i_value := 0 |}).

(** A [float] of a double spin box, given by a decimal [m * 10**-d] it is
    the nearest [float] to. *)
Definition dec : Type := Z * nat.
Definition float_of (v : dec) : Q :=
  Py.nearest (Qmake v.1 (Z.to_pos (10 ^ Z.of_nat v.2))).

(** Rounding to the nearest integer, ties away from zero: Qt writes the
    exact value of a [float], and an exact tie, which no literal of the
    program gives, goes up in magnitude. *)
Definition round_half_up (q : Q) : Z :=
  Z.sgn (Qnum q) * ((2 * Z.abs (Qnum q) + Zpos (Qden q)) / (2 * Zpos (Qden q))).

(** [QDoubleSpinBoxPrivate::round]: the [float] is written with [n]
    decimals and read back. *)
Definition d_round (n : nat) (v : dec) : dec :=
  (round_half_up (float_of v * inject_Z (10 ^ Z.of_nat n)), n).

(** [QDoubleSpinBox]: the range as it was asked for, the range rounded to
    the decimals, the decimals and the value. *)
Record double_box := {
  actualMin : dec; actualMax : dec;
  d_minimum : dec; d_maximum : dec;
  d_decimals : nat;
  d_value : dec;
}.

Definition d_lt (a b : dec) : bool := negb (Qle_bool (float_of b) (float_of a)).

Definition d_bound (s : double_box) (v : dec) : dec :=
  if d_lt v (d_minimum s) then d_minimum s
  else if d_lt (d_maximum s) v then d_maximum s
  else v.

(** [QDoubleSpinBox::setValue] *)
Definition d_setValue (v : dec) (s : double_box) : double_box :=
  {| actualMin := actualMin s; actualMax := actualMax s;
     d_minimum := d_minimum s; d_maximum := d_maximum s; d_decimals := d_decimals s;
     d_value := d_bound s (d_round (d_decimals s) v) |}.

(** [QAbstractSpinBoxPrivate::setRange] *)
Definition d_setRange (lo hi : dec) (s : double_box) : double_box :=
  let s' := {| actualMin := actualMin s; actualMax := actualMax s;
               d_minimum := lo; d_maximum := if d_lt lo hi then hi else lo;
               d_decimals := d_decimals s; d_value := d_value s |} in
  {| actualMin := actualMin s'; actualMax := actualMax s';
     d_minimum := d_minimum s'; d_maximum := d_maximum s'; d_decimals := d_decimals s';
     d_value := d_bound s' (d_value s') |}.

Definition d_actual (lo hi : dec) (s : double_box) : double_box :=
  {| actualMin := lo; actualMax := hi;
     d_minimum := d_minimum s; d_maximum := d_maximum s; d_decimals := d_decimals s;
     d_value := d_value s |}.

(** [setValue], [setMinimum], [setMaximum] and [setDecimals] of
    [QDoubleSpinBox]. *)
Definition d_set (s : double_box) (a : spin_arg) : double_box :=
  match a with
  | Value m d => d_setValue (m, d) s
  | Minimum m d =>
      let r := d_round (d_decimals s) (m, d) in
      d_setRange r (if d_lt r (d_maximum s) then d_maximum s else r)
        (d_actual (m, d) (actualMax s) s)
  | Maximum m d =>
      let r := d_round (d_decimals s) (m, d) in
      d_setRange (if d_lt (d_minimum s) r then d_minimum s else r) r
        (d_actual (actualMin s) (m, d) s)
  | Decimals n =>
      let s := {| actualMin := actualMin s; actualMax := actualMax s;
                  d_minimum := d_minimum s; d_maximum := d_maximum s; d_decimals := n;
                  d_value := d_value s |} in
      let s := d_setRange (d_round n (actualMin s)) (d_round n (actualMax s)) s in
      d_setValue (d_value s) s
  end.

Definition double_box_value (args : list spin_arg) : dec :=
  d_value
    (fold_left d_set args
       {| actualMin := (0, 0%nat); actualMax := (9999, 2%nat);
          d_minimum := (0, 0%nat); d_maximum := (9999, 2%nat);
          d_decimals := 2; d_value := (0, 0%nat) |}).

(** [QDoubleSpinBox(...).value()] *)
Definition double_spin_box {F} `{Py.Float F} (args : list spin_arg) : F :=
  let v := double_box_value args in Py.of_decimal v.1 v.2.

Arguments spin_box : simpl never.
Arguments double_box_value : simpl never.

End Qt.

(* ===================================================================== *)
(** ** utils/helpers.py *)
(* ===================================================================== *)

Module Helpers.
Import Qt.

(** [create_combo_box(items)] *)
Definition create_combo_box (items : list string) : QComboBox := combo items.

(** [browse_file(parent, line_edit, ...)]; [path] is the answer of the
    open-file dialog, the empty string when the user cancels it. *)
Definition browse_file (path : string) (line_edit : QLineEdit) : QLineEdit :=
  if negb (String.eqb path "")
  then {| text := path; placeholderText := placeholderText line_edit |}
  else line_edit.

(** [save_file_dialog(parent, ...)]; [path] is the answer of the save
    dialog. *)
Definition save_file_dialog (path : string) : option string :=
  if negb (String.eqb path "") then Some path else None.

End Helpers.

(* ===================================================================== *)
(** ** tabs/geometry_tab.py *)
(* ===================================================================== *)

Module GeometryTab.
Import Qt.

Definition CONNECTIVITY_TYPES : list string :=
  ["4-Node Quadrilateral"; "3-Node Triangle"; "6-Node Triangle"].

(** One entry of [self.boundary_rows]: the dict
    [{"widget": row_widget, "label": lbl, "edit": edit, "btn_del": btn_del}].
    [widget] is the identity of the row container the layout shows;
    [label] is the text of the [QLabel], [btn_del] the visibility of the
    delete button. The code reaches the three children through this dict
    only, so the dict holds their state. *)
Record boundary_row := {
  widget : wid;
  label : string;
  edit : QLineEdit;
  btn_del : bool;
}.

Record t := {
  coord_edit : QLineEdit;
  conn_edit : QLineEdit;
  conn_type : QComboBox;
  scroll_layout : list wid;          (* the row containers, in display order *)
  boundary_rows : list boundary_row;
}.

(** [refresh_ui]: renumber the labels and placeholders, show the delete
    buttons only when more than one row is left. *)
Definition refresh_ui (self : t) : t :=
  let show_del := (1 <? length (boundary_rows self))%nat in
  {| coord_edit := coord_edit self;
     conn_edit := conn_edit self;
     conn_type := conn_type self;
     scroll_layout := scroll_layout self;
     boundary_rows :=
       imap (λ i row,
         let idx := Z.of_nat i + 1 in
         {| widget := widget row;
            label := "B-" +:+ Py.str_int idx;
            edit := {| text := text (edit row);
                       placeholderText :=
                         "Select file for Boundary " +:+ Py.str_int idx +:+ "..." |};
            btn_del := show_del |})
         (boundary_rows self) |}.

(** [add_boundary_row]; [row_widget] is the identity of the new container. *)
Definition add_boundary_row (row_widget : wid) (self : t) : t :=
  let row_idx := Z.of_nat (length (boundary_rows self)) + 1 in
  let lbl := "B-" +:+ Py.str_int row_idx in
  let edit :=
    {| text := "";
       placeholderText := "Select file for Boundary " +:+ Py.str_int row_idx +:+ "..." |} in
  refresh_ui
    {| coord_edit := coord_edit self;
       conn_edit := conn_edit self;
       conn_type := conn_type self;
       scroll_layout := scroll_layout self ++ [row_widget];
       boundary_rows :=
         boundary_rows self ++
         [{| widget := row_widget; label := lbl; edit := edit; btn_del := true |}] |}.

(** [remove_boundary_row(widget)]; [widget.deleteLater()] destroys the
    container the layout has given up, and the model keeps no widget
    outside the layout. *)
Definition remove_boundary_row (w : wid) (self : t) : t :=
  if (length (boundary_rows self) <=? 1)%nat then self
  else
    refresh_ui
      {| coord_edit := coord_edit self;
         conn_edit := conn_edit self;
         conn_type := conn_type self;
         scroll_layout := remove_first (Nat.eqb w) (scroll_layout self);
         boundary_rows :=
           remove_first (λ row, Nat.eqb (widget row) w) (boundary_rows self) |}.

(** [__init__] with [init_ui], [create_mesh_config] and
    [create_boundary_files], which adds the first row. *)
Definition init (first_row : wid) : t :=
  add_boundary_row first_row
    {| coord_edit := {| text := ""; placeholderText := "" |};
       conn_edit := {| text := ""; placeholderText := "" |};
       conn_type := combo CONNECTIVITY_TYPES;
       scroll_layout := [];
       boundary_rows := [] |}.

Definition get_boundary_rows (self : t) : list boundary_row := boundary_rows self.
Definition get_coord_file (self : t) : string := text (coord_edit self).
Definition get_conn_file (self : t) : string := text (conn_edit self).
Definition get_conn_type (self : t) : string := currentText (conn_type self).

(** The user types a path into the file field of row [i] (or picks one with
    the Browse button, [browse_file] of [utils/helpers.py]). *)
Definition set_boundary_file (i : nat) (path : string) (self : t) : t :=
  {| coord_edit := coord_edit self;
     conn_edit := conn_edit self;
     conn_type := conn_type self;
     scroll_layout := scroll_layout self;
     boundary_rows :=
       alter (λ row,
         {| widget := widget row; label := label row;
            edit := {| text := path; placeholderText := placeholderText (edit row) |};
            btn_del := btn_del row |}) i (boundary_rows self) |}.

(** The Browse buttons of the mesh configuration group:
    [browse_file(self, self.coord_edit)] and [browse_file(self, self.conn_edit)];
    [path] is the answer of the dialog. *)
Definition browse_coord (path : string) (self : t) : t :=
  {| coord_edit := Helpers.browse_file path (coord_edit self);
     conn_edit := conn_edit self;
     conn_type := conn_type self;
     scroll_layout := scroll_layout self;
     boundary_rows := boundary_rows self |}.
Definition browse_conn (path : string) (self : t) : t :=
  {| coord_edit := coord_edit self;
     conn_edit := Helpers.browse_file path (conn_edit self);
     conn_type := conn_type self;
     scroll_layout := scroll_layout self;
     boundary_rows := boundary_rows self |}.

(** The Browse button of row [i]: [browse_file(self, edit)] on the file
    field of the row; [path] is the answer of the dialog. *)
Definition click_browse (i : nat) (path : string) (self : t) : t :=
  {| coord_edit := coord_edit self;
     conn_edit := conn_edit self;
     conn_type := conn_type self;
     scroll_layout := scroll_layout self;
     boundary_rows :=
       alter (λ row,
         {| widget := widget row; label := label row;
            edit := Helpers.browse_file path (edit row);
            btn_del := btn_del row |}) i (boundary_rows self) |}.

(** The labels of the rows in the order the layout displays them: each
    container of [scroll_layout] with the label its dict entry holds. *)
Definition displayed_labels (self : t) : list (option string) :=
  map (λ w, label <$> List.find (λ row, Nat.eqb (widget row) w) (boundary_rows self))
      (scroll_layout self).

End GeometryTab.


(* ===================================================================== *)
(** ** tabs/boundary_tab.py *)
(* ===================================================================== *)

Module BoundaryTab.
Import Qt.

(** The sub-tabs, in the order [init_ui] creates them. *)
Definition TAB_NAMES : list string :=
  ["X-velocity"; "Y-velocity"; "Z-velocity"; "X-disp"; "Y-disp"; "Z-disp";
   "Acoustic-potential"].

(** What [self.geometry_boundary_rows] refers to: the list [__init__]
    creates, or the list object of the geometry tab that
    [set_geometry_boundary_rows] stores (the same object, not a copy). *)
Inductive rows_ref :=
| OwnRows (rows : list GeometryTab.boundary_row)
| GeometryRows.

Section S.
Context {F : Type} `{Py.Float F}.

(** [self.init_cond_widgets]: the values of the eight spin boxes, by key. *)
Record init_cond := {
  pres : F; xvel : F; yvel : F; zvel : F;
  xdisp : F; ydisp : F; zdisp : F; psi : F;
}.

Record t := {
  init_cond_widgets : init_cond;
  bc_tabs : QTabWidget;
  bc_layouts : list (string * Layout F);   (* a dict, in insertion order *)
  geometry_boundary_rows : rows_ref;
}.

(** [d[key] = v] for a key the dict holds (the position is kept). *)
Fixpoint dict_set {V} (d : list (string * V)) (key : string) (v : V) : list (string * V) :=
  match d with
  | [] => [(key, v)]
  | (k, x) :: d' =>
      if String.eqb k key then (k, v) :: d' else (k, x) :: dict_set d' key v
  end.

(** One turn of the loop of [_refresh_bc_labels]. *)
Definition refresh_bc_label (layout : Layout F) (i : nat) : Py.Res (Layout F) :=
  item ← recv (itemAt layout i);
  match item_widget item with
  | Some row_widget =>
      match Qt.layout row_widget with
      | Some row_h_layout =>
          item0 ← recv (itemAt row_h_layout 0);
          let label_widget := item_widget item0 in
          if is_QLabel label_widget then
            mret (put_child i 0 (QLabel ("B-" +:+ Py.str_int (Z.of_nat i + 1))) layout)
          else mret layout
      | None => mret layout
      end
  | None => mret layout
  end.

(** [_refresh_bc_labels(layout)] *)
Definition _refresh_bc_labels (layout : Layout F) : Py.Res (Layout F) :=
  Py.foldM refresh_bc_label layout (seq 0 (count layout)).

(** The entries of the type dropdown of a row of tab [tab_name]. *)
Definition bc_types (tab_name : string) : list string :=
  if Py.contains "velocity" tab_name then ["None"; "Dirichlet"; "matchMeshVel"]
  else if Py.contains "disp" tab_name then ["None"; "Dirichlet"; "prescribed"]
  else if Py.contains "Acoustic" tab_name then ["None"; "Dirichlet"]
  else ["None"; "Dirichlet"; "Neumann"; "Robin"].

(** [add_bc_row(layout, tab_name, label_text)]; [w] is the identity of the
    new row container. *)
Definition add_bc_row (layout : Layout F) (tab_name : string)
    (label_text : option string) (w : wid) : Py.Res (Layout F) :=
  let row_count := Z.of_nat (count layout) + 1 in
  let label_text := default ("B-" +:+ Py.str_int row_count) label_text in
  let lbl := QLabel label_text in
  let name_edit := LineEdit {| text := ""; placeholderText := "Boundary Name/ID" |} in
  let type_combo := ComboBox (combo (bc_types tab_name)) in
  let val_spin := QDoubleSpinBox (double_spin_box [Maximum 1000000 0]) in
  let h :=
    ([QWidgetItem lbl; QWidgetItem name_edit; QWidgetItem (QLabel "Type");
      QWidgetItem type_combo; QWidgetItem (QLabel "Value"); QWidgetItem val_spin]
     ++ (if Py.contains "disp" tab_name
         then [QWidgetItem (QLabel "Tag"); QWidgetItem (QSpinBox (spin_box [Value 0 0]))]
         else [])
     ++ [QWidgetItem (QPushButton "x")])%list in
  _refresh_bc_labels (addWidget (QWidget w (QBoxLayout h)) layout).

(** [while target_layout.count(): target_layout.takeAt(0)]; the loop runs
    once per item, so the count bounds it. *)
Fixpoint take_all (fuel : nat) (layout : Layout F) : Layout F :=
  match fuel with
  | O => layout
  | S fuel' =>
      if (0 <? count layout)%nat then take_all fuel' (takeAt0 layout).2
      else layout
  end.

(** One turn of the [for i in range(count)] loop of
    [refresh_active_boundary_tab]; [rows] is the list
    [self.geometry_boundary_rows] refers to and [w0 + i] the identity of
    the row the turn creates. *)
Definition refresh_row (initial : bool) (rows : list GeometryTab.boundary_row)
    (name : string) (w0 : wid) (target_layout : Layout F) (i : nat)
    : Py.Res (Layout F) :=
  let lbl := "B-" +:+ Py.str_int (Z.of_nat i + 1) in
  target_layout ← add_bc_row target_layout name (Some lbl) (w0 + i)%nat;
  if negb initial && (i <? length rows)%nat then
    boundary_file ← (match rows !! i with
                     | Some row => mret (text (GeometryTab.edit row))
                     | None => Py.Raise Py.IndexError
                     end);
    if negb (String.eqb boundary_file "") then
      let filename := (Py.os_path.splitext (Py.os_path.basename boundary_file)).1 in
      item ← recv (itemAt target_layout i);
      match item_widget item with
      | Some row_widget =>
          row_h_layout ← recv (Qt.layout row_widget);
          item1 ← recv (itemAt row_h_layout 1);
          match item_widget item1 with
          | Some name_edit =>
              name_edit ← setText filename name_edit;
              mret (put_child i 1 name_edit target_layout)
          | None => mret target_layout
          end
      | None => mret target_layout
      end
    else mret target_layout
  else mret target_layout.

(** [refresh_active_boundary_tab(initial)] *)
Definition refresh_active_boundary_tab (initial : bool)
    (rows : list GeometryTab.boundary_row) (w0 : wid) (self : t) : Py.Res t :=
  let count := if initial then 1%nat else length rows in
  let idx := tab_index (bc_tabs self) in
  let name := tabText (bc_tabs self) idx in
  target_layout ← Py.dict_getitem (bc_layouts self) name;
  let target_layout := take_all (Qt.count target_layout) target_layout in
  target_layout ← Py.foldM (refresh_row initial rows name w0) target_layout (seq 0 count);
  mret {| init_cond_widgets := init_cond_widgets self;
          bc_tabs := bc_tabs self;
          bc_layouts := dict_set (bc_layouts self) name target_layout;
          geometry_boundary_rows := geometry_boundary_rows self |}.

(** [remove_generic_row(layout, widget)]. The handler of a delete button
    passes the container of its own row, which [layout] holds;
    [widget.deleteLater()] then destroys the container the layout has
    given up, and the model keeps no widget outside the layouts. *)
Definition remove_generic_row (layout : Layout F) (widget : wid) : Py.Res (Layout F) :=
  _refresh_bc_labels (removeWidget widget layout).

(** [set_geometry_boundary_rows(rows)] stores the reference it is given. *)
Definition set_geometry_boundary_rows (rows : rows_ref) (self : t) : t :=
  {| init_cond_widgets := init_cond_widgets self;
     bc_tabs := bc_tabs self;
     bc_layouts := bc_layouts self;
     geometry_boundary_rows := rows |}.

(** [__init__] and [init_ui]: the eight initial-condition spin boxes
    (X-velocity starts at 1), one empty layout per sub-tab, and one row in
    the open sub-tab. *)
Definition init (w0 : wid) : Py.Res t :=
  let zero := double_spin_box [] in
  refresh_active_boundary_tab true [] w0
    {| init_cond_widgets :=
         {| pres := zero; xvel := double_spin_box [Value 1 0]; yvel := zero; zvel := zero;
            xdisp := zero; ydisp := zero; zdisp := zero; psi := zero |};
       bc_tabs := {| tab_titles := TAB_NAMES; tab_index := 0 |};
       bc_layouts := map (λ name, (name, QBoxLayout [])) TAB_NAMES;
       geometry_boundary_rows := OwnRows [] |}.

Definition get_initial_conditions (self : t) : init_cond := init_cond_widgets self.
Definition get_boundary_conditions (self : t) : list (string * Layout F) := bc_layouts self.

(** The button [+ Add Boundary Condition] of sub-tab [tab]: its handler
    holds the layout and the name of that tab. *)
Definition click_add (tab : string) (w : wid) (self : t) : Py.Res t :=
  layout ← Py.dict_getitem (bc_layouts self) tab;
  layout ← add_bc_row layout tab None w;
  mret {| init_cond_widgets := init_cond_widgets self;
          bc_tabs := bc_tabs self;
          bc_layouts := dict_set (bc_layouts self) tab layout;
          geometry_boundary_rows := geometry_boundary_rows self |}.

(** The delete button of the row [widget] of sub-tab [tab]. *)
Definition click_delete (tab : string) (widget : wid) (self : t) : Py.Res t :=
  layout ← Py.dict_getitem (bc_layouts self) tab;
  layout ← remove_generic_row layout widget;
  mret {| init_cond_widgets := init_cond_widgets self;
          bc_tabs := bc_tabs self;
          bc_layouts := dict_set (bc_layouts self) tab layout;
          geometry_boundary_rows := geometry_boundary_rows self |}.

(** The user changes the field at position [k] of row [i] of sub-tab
    [tab] (name, type, value or tag). *)
Definition edit_field (tab : string) (i k : nat) (w' : Widget F) (self : t) : t :=
  match Py.dict_get (bc_layouts self) tab with
  | Some layout =>
      match itemAt layout i with
      | Some (QWidgetItem (QWidget _ lay)) =>
          match itemAt lay k with
          | Some (QWidgetItem w) =>
              {| init_cond_widgets := init_cond_widgets self;
                 bc_tabs := bc_tabs self;
                 bc_layouts :=
                   dict_set (bc_layouts self) tab (put_child i k (user_input w' w) layout);
                 geometry_boundary_rows := geometry_boundary_rows self |}
          | _ => self
          end
      | _ => self
      end
  | None => self
  end.

(** The labels of the rows of a layout, in display order. *)
Definition row_labels (layout : Layout F) : list (option string) :=
  match layout with
  | QBoxLayout its =>
      map (λ it,
             match it with
             | QWidgetItem (QWidget _ (QBoxLayout (QWidgetItem (QLabel s) :: _))) => Some s
             | _ => None
             end) its
  | QGridLayout _ => []
  end.

End S.

Arguments t F : clear implicits.
Arguments init_cond F : clear implicits.

End BoundaryTab.

(* ===================================================================== *)
(** ** tabs/solver_tab.py *)
(* ===================================================================== *)

Module SolverTab.
Import Qt.
Section S.
Context {F : Type} `{Py.Float F}.

(** [self.solver_widgets]: the dict's keys are fixed by [init_ui]; each
    field holds the state of the widget stored under that key (a combo box,
    the [int] of a [QSpinBox], the [float] of a [QDoubleSpinBox], the
    check mark of a [QCheckBox]). *)
Record solver_widgets := {
  sim_type : QComboBox;
  fluid_eqn : QComboBox;
  mesh_eqn : QComboBox;
  acoustic_eqn : QComboBox;
  dims : QComboBox;
  nl_min : Z;
  nl_max : Z;
  nl_tol : F;
  lin_solver : QComboBox;
  lin_tol : F;
  lin_max : Z;
  lin_rst : Z;
  time_step : F;
  max_steps : Z;
  rho_inf : F;
  restart_flag : bool;
  restart_id : Z;
  out_type : QComboBox;
  out_start : Z;
  out_freq : Z;
  int_freq : Z;
  rst_freq : Z;
  acoustic_nrbc_x : F;
  acoustic_nrbc_y : F;
  acoustic_nrbc_z : F;
  acoustic_nrbc_inner : F;
  acoustic_nrbc_outer : F;
}.

Definition _combo (its : list string) : QComboBox := combo its.

(** [__init__] and [init_ui] *)
Definition init : solver_widgets :=
  {| sim_type := _combo ["Transient"; "Steady"];
     fluid_eqn := _combo ["Incompressible Navier-Stokes"; "Compressible NS"; "Euler"; "Stokes"];
     mesh_eqn := _combo ["None"; "ALE"; "Prescribed"; "Linear Elasticity"];
     acoustic_eqn := _combo ["None"; "Linear Acoustics"; "LPCE"; "Helmholtz"; "Wave Equation"];
     dims := _combo ["2D"; "3D"];
     nl_min := spin_box [Value 1 0];
     nl_max := spin_box [Value 10 0];
     nl_tol := double_spin_box [Value 5 4; Decimals 4];
     lin_solver := _combo ["GMRES"; "BiCGSTAB"; "Direct"];
     lin_tol := double_spin_box [Value 5 4; Decimals 4];
     lin_max := spin_box [Value 30 0];
     lin_rst := spin_box [Value 30 0];
     time_step := double_spin_box [Value 1 2; Decimals 4; Maximum 10000 0];
     max_steps := spin_box [Value 10 0; Maximum 99999 0];
     rho_inf := double_spin_box [Value 0 0; Maximum 1 0; Decimals 4];
     restart_flag := false;
     restart_id := spin_box [Value 20 0];
     out_type := setCurrentText "vtk" (_combo ["plt"; "vtk"; "csv"]);
     out_start := spin_box [Value 5 0; Maximum 99999 0];
     out_freq := spin_box [Value 1 0; Maximum 99999 0];
     int_freq := spin_box [Value 1 0; Maximum 99999 0];
     rst_freq := spin_box [Value 100 0; Maximum 99999 0];
     acoustic_nrbc_x :=
       double_spin_box [Value 0 1; Minimum (-1000000) 0; Maximum 1000000 0; Decimals 2];
     acoustic_nrbc_y :=
       double_spin_box [Value 0 1; Minimum (-1000000) 0; Maximum 1000000 0; Decimals 2];
     acoustic_nrbc_z :=
       double_spin_box [Value 0 1; Minimum (-1000000) 0; Maximum 1000000 0; Decimals 2];
     acoustic_nrbc_inner :=
       double_spin_box [Value 10 0; Minimum 0 0; Maximum 1000000 0; Decimals 2];
     acoustic_nrbc_outer :=
       double_spin_box [Value 15 0; Minimum 0 0; Maximum 1000000 0; Decimals 2] |}.

Definition get_solver_data (self : solver_widgets) : solver_widgets := self.

End S.
Arguments solver_widgets F : clear implicits.
End SolverTab.

(* ===================================================================== *)
(** ** tabs/physical_tab.py *)
(* ===================================================================== *)

Module PhysicalTab.
Section S.
Context {F : Type} `{Py.Float F}.

(** [self.phys_inputs]: the values of the six spin boxes [add_param]
    stores, by key. *)
Record phys_inputs := {
  rho : F; U : F; mu : F; L : F; gamma : F; a : F;
}.

Record t := {
  inputs : phys_inputs;
  lbl_reynolds : string;   (* the text of the read-only field *)
  lbl_mach : string;
}.

(** The spin box [add_param(label, key, val, row, col)] creates:
    [QDoubleSpinBox(value=val, maximum=1000000, decimals=4)]. The value is
    set first, on a box whose range still ends at 99.99 and that still
    has two decimals. *)
Definition add_param (m : Z) (d : nat) : F :=
  Qt.double_spin_box [Qt.Value m d; Qt.Maximum 1000000 0; Qt.Decimals 4].

(** [__init__] and [init_ui] *)
Definition init : t :=
  {| inputs :=
       {| rho := add_param 1000 0; U := add_param 1 0;
          mu := add_param 9091 4; L := add_param 1 0;
          gamma := add_param 14 1; a := add_param 340 0 |};
     lbl_reynolds := "0";
     lbl_mach := "0" |}.

Definition set_reynolds (s : string) (self : t) : t :=
  {| inputs := inputs self; lbl_reynolds := s; lbl_mach := lbl_mach self |}.
Definition set_mach (s : string) (self : t) : t :=
  {| inputs := inputs self; lbl_reynolds := lbl_reynolds self; lbl_mach := s |}.

(** The state of [calculate_nondim]: the tab and what was printed. *)
Definition st : Type := t * list string.

Definition on_self (f : t → t) : Py.M st unit := Py.modify (λ s, (f s.1, s.2)).
Definition print (line : string) : Py.M st unit := Py.modify (λ s, (s.1, s.2 ++ [line])).

(** The [try] block of [calculate_nondim]. *)
Definition calculate_nondim_try : Py.M st unit :=
  s ← Py.get;
  let self := s.1 in
  let rho := rho (inputs self) in
  let mu := mu (inputs self) in
  let U := U (inputs self) in
  let L := L (inputs self) in
  let a := a (inputs self) in
  (if negb (Py.is_zero mu) then
     re ← Py.lift (Py.truediv (Py.fmul (Py.fmul rho U) L) mu);
     on_self (set_reynolds (Py.format_2f re))
   else on_self (set_reynolds "Inf"));;
  (if negb (Py.is_zero a) then
     ma ← Py.lift (Py.truediv U a);
     on_self (set_mach (Py.format_4f ma))
   else on_self (set_mach "Inf")).

(** [calculate_nondim] *)
Definition calculate_nondim : Py.M st unit :=
  Py.try_except calculate_nondim_try
    (λ e, print ("Error calculating: " +:+ Py.exn_name e)).

Definition get_physical_data (self : t) : phys_inputs := inputs self.

End S.
Arguments t F : clear implicits.
Arguments phys_inputs F : clear implicits.
Arguments st F : clear implicits.
End PhysicalTab.

(* ===================================================================== *)
(** ** tabs/prescribed_tab.py *)
(* ===================================================================== *)

Module PrescribedTab.
Import Qt.
Section S.
Context {F : Type} `{Py.Float F}.

(** [self.prescribed_tag_rows]: the group boxes, which the tab's layout
    shows in the same order ([add_prescribed_tag] appends to both). *)
Record t := {
  prescribed_tag_rows : list (Widget F);
  prescribed_layout : list wid;
}.

(** [add_row_data(row, name, v1, v2, v3)] of [add_prescribed_tag]; the
    three values are decimal literals. *)
Definition add_row_data (row : nat) (name : string) (v1 v2 v3 : dec)
    : list (nat * nat * Widget F) :=
  [(row, 0%nat, QLabel (name +:+ " amplitude"));
   (row, 1%nat, QDoubleSpinBox (double_spin_box [Value v1.1 v1.2; Maximum 10000 0]));
   (row, 2%nat, QLabel (name +:+ " frequency"));
   (row, 3%nat, QDoubleSpinBox (double_spin_box [Value v2.1 v2.2; Maximum 10000 0]));
   (row, 4%nat, QLabel (name +:+ " phase"));
   (row, 5%nat, QDoubleSpinBox (double_spin_box [Value v3.1 v3.2; Maximum 10000 0]))].

(** [add_prescribed_tag]; [w] is the identity of the new group box. *)
Definition add_prescribed_tag (w : wid) (self : t) : t :=
  let grid :=
    QGridLayout
      (add_row_data 0 "Heave" (100, 2%nat) (20, 2%nat) (9000, 2%nat)
       ++ add_row_data 1 "Pitch" (3000, 2%nat) (20, 2%nat) (0, 2%nat)
       ++ add_row_data 2 "Morph" (2000, 2%nat) (20, 2%nat) (0, 2%nat)) in
  let extra_grid :=
    QGridLayout
      [(0%nat, 0%nat, QLabel "Morph divisions"); (0%nat, 1%nat, QSpinBox (spin_box [Value 99 0]));
       (0%nat, 2%nat, QLabel "Morph position");
       (0%nat, 3%nat, QDoubleSpinBox (double_spin_box [Value 0 2]));
       (1%nat, 0%nat, QLabel "Leading edge X");
       (1%nat, 1%nat, QDoubleSpinBox (double_spin_box [Value 0 2]));
       (1%nat, 2%nat, QLabel "Leading edge Y");
       (1%nat, 3%nat, QDoubleSpinBox (double_spin_box [Value 0 2]))] in
  let group := QWidget w (QBoxLayout [QLayoutItem grid; QSpacerItem; QLayoutItem extra_grid]) in
  {| prescribed_tag_rows := prescribed_tag_rows self ++ [group];
     prescribed_layout := prescribed_layout self ++ [w] |}.

Definition init (w : wid) : t :=
  add_prescribed_tag w {| prescribed_tag_rows := []; prescribed_layout := [] |}.

Definition get_prescribed_tags (self : t) : list (Widget F) := prescribed_tag_rows self.

(** The user changes the spin box at cell [n] (in insertion order) of grid
    [g] (0: the amplitude grid, 2: the extra grid) of group [i]. *)
Definition edit_cell (i g n : nat) (w' : Widget F) (self : t) : t :=
  {| prescribed_tag_rows :=
       alter (λ group,
         match group with
         | QWidget id (QBoxLayout its) =>
             QWidget id (QBoxLayout
               (alter (λ it,
                  match it with
                  | QLayoutItem (QGridLayout cs) =>
                      QLayoutItem (QGridLayout (alter (λ c, (c.1, user_input w' c.2)) n cs))
                  | _ => it
                  end) g its))
         | _ => group
         end) i (prescribed_tag_rows self);
     prescribed_layout := prescribed_layout self |}.

End S.
Arguments t F : clear implicits.
End PrescribedTab.

(* ===================================================================== *)
(** ** tabs/output_tab.py *)
(* ===================================================================== *)

Module OutputTab.
Import Qt.
Section S.
Context {F : Type} `{Py.Float F}.

Record t := {
  probe_layout : Layout F;
  surf_layout : Layout F;
}.

(** [add_output_row(layout, placeholder)]; [w] is the identity of the new
    row container. *)
Definition add_output_row (layout : Layout F) (placeholder : string) (w : wid) : Layout F :=
  let edit := LineEdit {| text := ""; placeholderText := placeholder |} in
  let h := [QWidgetItem edit; QWidgetItem (QPushButton "Browse");
            QWidgetItem (QPushButton "x")] in
  addWidget (QWidget w (QBoxLayout h)) layout.

(** [remove_generic_row(layout, widget)]; as in the boundary tab, the
    handler passes the container of its own row. *)
Definition remove_generic_row (layout : Layout F) (widget : wid) : Layout F :=
  removeWidget widget layout.

(** [__init__] and [init_ui]: one row in each list. *)
Definition init (w0 : wid) : t :=
  {| probe_layout := add_output_row (QBoxLayout []) "Probe file" w0;
     surf_layout := add_output_row (QBoxLayout []) "Surface file" (w0 + 1)%nat |}.

Definition get_probe_layout (self : t) : Layout F := probe_layout self.
Definition get_surf_layout (self : t) : Layout F := surf_layout self.

(** The user types into the file field of row [i] (or [_browse_file] sets it). *)
Definition edit_row (i : nat) (txt : string) (layout : Layout F) : Layout F :=
  match itemAt layout i with
  | Some (QWidgetItem (QWidget _ lay)) =>
      match itemAt lay 0 with
      | Some (QWidgetItem w) =>
          put_child i 0 (user_input (LineEdit {| text := txt; placeholderText := "" |}) w) layout
      | _ => layout
      end
  | _ => layout
  end.

(** [_browse_file(edit)]; [path] is the answer of the open-file dialog. *)
Definition _browse_file (path : string) (edit : QLineEdit) : QLineEdit :=
  if negb (String.eqb path "")
  then {| text := path; placeholderText := placeholderText edit |}
  else edit.

(** The Browse button of row [i] of an output list. *)
Definition click_browse (i : nat) (path : string) (layout : Layout F) : Layout F :=
  match itemAt layout i with
  | Some (QWidgetItem (QWidget _ lay)) =>
      match itemAt lay 0 with
      | Some (QWidgetItem (LineEdit e)) => put_child i 0 (LineEdit (_browse_file path e)) layout
      | _ => layout
      end
  | _ => layout
  end.

End S.
Arguments t F : clear implicits.
End OutputTab.

(* ===================================================================== *)
(** ** The file system and the console *)
(* ===================================================================== *)

Module OS.

(** What a program can ask of the file system; the record of a run lists
    the requests in order. *)
Inductive file_op :=
| Open (path mode : string)
| Read (path : string)
| Write (path data : string)
| Close (path : string).

(** The world outside the form: the files (path to contents), the two
    console streams, the record of file operations, and [faults]: whether
    each coming file operation fails ([true]: it raises [OSError]); an
    exhausted list means no further failure. *)
Record World := {
  files : gmap string string;
  stdout : list string;
  stderr : list string;
  syscalls : list file_op;
  faults : list bool;
}.

Definition set_files (f : gmap string string → gmap string string) (w : World) : World :=
  {| files := f (files w); stdout := stdout w; stderr := stderr w;
     syscalls := syscalls w; faults := faults w |}.
Definition log (op : file_op) (w : World) : World :=
  {| files := files w; stdout := stdout w; stderr := stderr w;
     syscalls := syscalls w ++ [op]; faults := faults w |}.
Definition next_fault (w : World) : bool * World :=
  (default false (head (faults w)),
   {| files := files w; stdout := stdout w; stderr := stderr w;
      syscalls := syscalls w; faults := tail (faults w) |}).
Definition print (line : string) (w : World) : World :=
  {| files := files w; stdout := stdout w ++ [line]; stderr := stderr w;
     syscalls := syscalls w; faults := faults w |}.
Definition print_err (line : string) (w : World) : World :=
  {| files := files w; stdout := stdout w; stderr := stderr w ++ [line];
     syscalls := syscalls w; faults := faults w |}.

(** [open(path, 'w')]: creates the file or empties it. *)
Definition open_w (path : string) (w : World) : Py.Res string * World :=
  let (fault, w) := next_fault w in
  let w := log (Open path "w") w in
  if fault then (Py.Raise Py.OSError, w)
  else (Py.Ok path, set_files (insert path "") w).

(** [f.write(data)]: appends to the file. *)
Definition write (f : string) (data : string) (w : World) : Py.Res unit * World :=
  let (fault, w) := next_fault w in
  let w := log (Write f data) w in
  if fault then (Py.Raise Py.OSError, w)
  else (Py.Ok tt, set_files (λ fs, <[f := default "" (fs !! f) +:+ data]> fs) w).

(** [f.close()] *)
Definition close (f : string) (w : World) : Py.Res unit * World :=
  let (fault, w) := next_fault w in
  let w := log (Close f) w in
  if fault then (Py.Raise Py.OSError, w) else (Py.Ok tt, w).

End OS.

(* ===================================================================== *)
(** ** main.py *)
(* ===================================================================== *)

Module SolverGUI.
Import Qt.

(** The line feed of ["\n"]. *)
Definition nl : string := String "010"%char "".

Section S.
Context {F : Type} `{Py.Float F}.

(** The main window: its six tabs, and [next_id], the identity the next
    widget object the program creates will have. *)
Record t := {
  geometry_tab : GeometryTab.t;
  solver_tab : SolverTab.solver_widgets F;
  physical_tab : PhysicalTab.t F;
  boundary_tab : BoundaryTab.t F;
  prescribed_tab : PrescribedTab.t F;
  output_tab : OutputTab.t F;
  next_id : wid;
}.

(** The list [self.boundary_tab.geometry_boundary_rows] refers to. *)
Definition deref (self : t) (r : BoundaryTab.rows_ref) : list GeometryTab.boundary_row :=
  match r with
  | BoundaryTab.OwnRows rows => rows
  | BoundaryTab.GeometryRows => GeometryTab.boundary_rows (geometry_tab self)
  end.

(** [__init__]: the tabs in the order the constructor creates them (each
    creates its first rows), then the boundary tab is given the geometry
    tab's row list. *)
Definition init : Py.Res t :=
  let geometry_tab := GeometryTab.init 0 in
  let solver_tab := SolverTab.init in
  let physical_tab := PhysicalTab.init in
  boundary_tab ← BoundaryTab.init 1;
  let prescribed_tab := PrescribedTab.init 2 in
  let output_tab := OutputTab.init 3 in
  mret {| geometry_tab := geometry_tab;
          solver_tab := solver_tab;
          physical_tab := physical_tab;
          boundary_tab :=
            BoundaryTab.set_geometry_boundary_rows BoundaryTab.GeometryRows boundary_tab;
          prescribed_tab := prescribed_tab;
          output_tab := output_tab;
          next_id := 5 |}.

(** The state [save_input_file] runs in: the window and the world. *)
Definition state : Type := t * OS.World.

Definition os_do {A} (op : OS.World → Py.Res A * OS.World) : Py.M state A :=
  λ s, let (r, w) := op s.2 in (r, (s.1, w)).
Definition os_act (op : OS.World → OS.World) : Py.M state unit :=
  λ s, (Py.Ok tt, (s.1, op s.2)).

Definition f_write (f : string) (data : string) : Py.M state unit :=
  os_do (OS.write f data).

(** [with open(path, 'w') as f: body]: the file is closed when the body
    ends, normally or by an exception; an exception of [close] replaces
    the outcome of the body. *)
Definition closing {A} (f : string) (body : Py.M state A) : Py.M state A :=
  λ s, let (r, s') := body s in
       match os_do (OS.close f) s' with
       | (Py.Ok _, s'') => (r, s'')
       | (Py.Raise e, s'') => (Py.Raise e, s'')
       end.
Definition with_open {A} (path : string) (body : string → Py.M state A) : Py.M state A :=
  f ← os_do (OS.open_w path);
  closing f (body f).

Definition elem_map : list (string * string) :=
  [("4-Node Quadrilateral", "4NodeQuad"); ("3-Node Triangle", "3NodeTri");
   ("6-Node Triangle", "6NodeTri")].
Definition fluid_eqn_map : list (string * string) :=
  [("Incompressible Navier-Stokes", "navierStokes"); ("Compressible NS", "compressibleNS");
   ("Euler", "euler"); ("Stokes", "stokes")].
Definition mesh_eqn_map : list (string * string) :=
  [("None", "none"); ("ALE", "ale"); ("Prescribed", "linearElasticPrescribed");
   ("Linear Elasticity", "linearElastic")].
Definition acoustic_eqn_map : list (string * string) :=
  [("None", "none"); ("Linear Acoustics", "linearAcoustics"); ("LPCE", "lpce");
   ("Helmholtz", "helmholtz"); ("Wave Equation", "waveEquation")].
Definition var_map : list (string * string) :=
  [("X-velocity", "xVelocity"); ("Y-velocity", "yVelocity"); ("Z-velocity", "zVelocity");
   ("X-disp", "xDisp"); ("Y-disp", "yDisp"); ("Z-disp", "zDisp");
   ("Acoustic-potential", "acousticPotential")].

(** [# Geometry] *)
Definition write_geometry (self : t) (f : string) : Py.M state unit :=
  f_write f ("// Geometry details" +:+ nl);;
  f_write f ("crdFile = " +:+ GeometryTab.get_coord_file (geometry_tab self) +:+ nl);;
  f_write f ("cnnFile = " +:+ GeometryTab.get_conn_file (geometry_tab self) +:+ nl);;
  f_write f ("elemType = " +:+
             Py.dict_get_default elem_map (GeometryTab.get_conn_type (geometry_tab self))
               "4NodeQuad" +:+ nl +:+ nl).

(** [# Solver] *)
Definition write_solver (self : t) (f : string) : Py.M state unit :=
  let solver_widgets := SolverTab.get_solver_data (solver_tab self) in
  f_write f ("// Solver details" +:+ nl);;
  f_write f ("solverType = " +:+ Py.lower (currentText (SolverTab.sim_type solver_widgets)) +:+ nl);;
  f_write f ("fluidEqn = " +:+
             Py.dict_get_default fluid_eqn_map
               (currentText (SolverTab.fluid_eqn solver_widgets)) "navierStokes" +:+ nl);;
  f_write f ("meshEqn = " +:+
             Py.dict_get_default mesh_eqn_map
               (currentText (SolverTab.mesh_eqn solver_widgets)) "linearElasticPrescribed" +:+ nl);;
  f_write f ("acousticEqn = " +:+
             Py.dict_get_default acoustic_eqn_map
               (currentText (SolverTab.acoustic_eqn solver_widgets)) "none" +:+ nl);;
  f_write f ("nDims = " +:+ Py.replace "D" "" (currentText (SolverTab.dims solver_widgets)) +:+ nl);;
  f_write f ("nonLinearIterMin = " +:+ Py.str_int (SolverTab.nl_min solver_widgets) +:+ nl);;
  f_write f ("nonLinearIterMax = " +:+ Py.str_int (SolverTab.nl_max solver_widgets) +:+ nl);;
  f_write f ("nonLinearTolerance = " +:+ Py.format_6e (SolverTab.nl_tol solver_widgets) +:+ nl);;
  f_write f ("timeStepSize = " +:+ Py.format_6e (SolverTab.time_step solver_widgets) +:+ nl);;
  f_write f ("maxTimeSteps = " +:+ Py.str_int (SolverTab.max_steps solver_widgets) +:+ nl);;
  f_write f ("rhoInfinity = " +:+ Py.format_6e (SolverTab.rho_inf solver_widgets) +:+ nl);;
  f_write f ("linearSolver = " +:+ Py.lower (currentText (SolverTab.lin_solver solver_widgets)) +:+ nl);;
  f_write f ("linearSolverTol = " +:+ Py.format_6e (SolverTab.lin_tol solver_widgets) +:+ nl);;
  f_write f ("linearSolverIterMax = " +:+ Py.str_int (SolverTab.lin_max solver_widgets) +:+ nl);;
  f_write f ("linearSolverRstIter = " +:+ Py.str_int (SolverTab.lin_rst solver_widgets) +:+ nl);;
  f_write f ("restartFlag = " +:+
             Py.str_int (if SolverTab.restart_flag solver_widgets then 1 else 0) +:+ nl);;
  f_write f ("restartTsId = " +:+ Py.str_int (SolverTab.restart_id solver_widgets) +:+ nl);;
  f_write f ("restartOutFreq = " +:+ Py.str_int (SolverTab.rst_freq solver_widgets) +:+ nl);;
  f_write f ("outputFileType = " +:+ currentText (SolverTab.out_type solver_widgets) +:+ nl);;
  f_write f ("outputStartTimeStep = " +:+ Py.str_int (SolverTab.out_start solver_widgets) +:+ nl);;
  f_write f ("outFreq = " +:+ Py.str_int (SolverTab.out_freq solver_widgets) +:+ nl);;
  f_write f ("intOutFreq = " +:+ Py.str_int (SolverTab.int_freq solver_widgets) +:+ nl);;
  f_write f ("acousticNRBCCentreX = " +:+ Py.repr (SolverTab.acoustic_nrbc_x solver_widgets) +:+ nl);;
  f_write f ("acousticNRBCCentreY = " +:+ Py.repr (SolverTab.acoustic_nrbc_y solver_widgets) +:+ nl);;
  f_write f ("acousticNRBCCentreZ = " +:+ Py.repr (SolverTab.acoustic_nrbc_z solver_widgets) +:+ nl);;
  f_write f ("acousticNRBCInnerRadius = " +:+
             Py.str_int (Py.trunc (SolverTab.acoustic_nrbc_inner solver_widgets)) +:+ nl);;
  f_write f ("acousticNRBCOuterRadius = " +:+
             Py.str_int (Py.trunc (SolverTab.acoustic_nrbc_outer solver_widgets)) +:+ nl +:+ nl).

(** [# Fluid properties] *)
Definition write_fluid (self : t) (f : string) : Py.M state unit :=
  let phys_inputs := PhysicalTab.get_physical_data (physical_tab self) in
  f_write f ("// Fluid properties" +:+ nl);;
  f_write f ("fluidDens = " +:+ Py.format_6e (PhysicalTab.rho phys_inputs) +:+ nl);;
  f_write f ("fluidVisc = " +:+ Py.format_6e (PhysicalTab.mu phys_inputs) +:+ nl);;
  f_write f ("fluidGamma = " +:+ Py.repr (PhysicalTab.gamma phys_inputs) +:+ nl);;
  f_write f ("fluidSpeedOfSound = " +:+
             Py.str_int (Py.trunc (PhysicalTab.a phys_inputs)) +:+ nl +:+ nl).

(** [# Initial conditions] *)
Definition write_initial (self : t) (f : string) : Py.M state unit :=
  let init_cond_widgets := BoundaryTab.get_initial_conditions (boundary_tab self) in
  f_write f ("// Initial conditions" +:+ nl);;
  f_write f ("initPres = " +:+ Py.format_6e (BoundaryTab.pres init_cond_widgets) +:+ nl);;
  f_write f ("initXVel = " +:+ Py.format_6e (BoundaryTab.xvel init_cond_widgets) +:+ nl);;
  f_write f ("initYVel = " +:+ Py.format_6e (BoundaryTab.yvel init_cond_widgets) +:+ nl);;
  f_write f ("initZVel = " +:+ Py.format_6e (BoundaryTab.zvel init_cond_widgets) +:+ nl);;
  f_write f ("initXDisp = " +:+ Py.format_6e (BoundaryTab.xdisp init_cond_widgets) +:+ nl);;
  f_write f ("initYDisp = " +:+ Py.format_6e (BoundaryTab.ydisp init_cond_widgets) +:+ nl);;
  f_write f ("initZDisp = " +:+ Py.format_6e (BoundaryTab.zdisp init_cond_widgets) +:+ nl);;
  f_write f ("initPsi = " +:+ Py.format_6e (BoundaryTab.psi init_cond_widgets) +:+ nl +:+ nl).

(** The dict [bc_data] of one boundary condition; ['tag'] is set for the
    displacement tabs only. *)
Record bc_data := {
  var : string;
  nodes : string;
  type_ : string;
  val : Py.num F;
  tag : option (Py.num F);
}.

(** The three lists the collection loop fills. *)
Record bc_lists := {
  flow_bcs : list bc_data;
  mesh_bcs : list bc_data;
  acoustic_bcs : list bc_data;
}.

(** [row_h_layout.itemAt(k).widget()], for a use that needs the widget. *)
Definition child (row_h_layout : option (Layout F)) (k : nat) : Py.Res (Widget F) :=
  l ← recv row_h_layout;
  item ← recv (itemAt l k);
  recv (item_widget item).

(** One turn of [for i in range(layout.count())]. *)
Definition collect_row (var_name : string) (is_disp is_acoustic : bool)
    (layout : Layout F) (acc : bc_lists) (i : nat) : Py.Res bc_lists :=
  item ← recv (itemAt layout i);
  match item_widget item with
  | None => mret acc
  | Some row_widget =>
      let row_h_layout := Qt.layout row_widget in
      name ← child row_h_layout 1;
      nodes ← widget_text name;
      type_combo ← child row_h_layout 3;
      current ← widget_currentText type_combo;
      let type_text := Py.lower current in
      if String.eqb type_text "none" then mret acc
      else
        val_spin ← child row_h_layout 5;
        val ← widget_value val_spin;
        if is_disp then
          tag_spin ← child row_h_layout 7;
          tag ← widget_value tag_spin;
          mret {| flow_bcs := flow_bcs acc;
                  mesh_bcs := mesh_bcs acc ++
                    [{| var := var_name; nodes := nodes; type_ := type_text;
                        val := val; tag := Some tag |}];
                  acoustic_bcs := acoustic_bcs acc |}
        else if is_acoustic then
          mret {| flow_bcs := flow_bcs acc;
                  mesh_bcs := mesh_bcs acc;
                  acoustic_bcs := acoustic_bcs acc ++
                    [{| var := var_name; nodes := nodes; type_ := type_text;
                        val := val; tag := None |}] |}
        else
          mret {| flow_bcs := flow_bcs acc ++
                    [{| var := var_name; nodes := nodes; type_ := type_text;
                        val := val; tag := None |}];
                  mesh_bcs := mesh_bcs acc;
                  acoustic_bcs := acoustic_bcs acc |}
  end.

(** One turn of [for tab_name, layout in bc_layouts.items()]. *)
Definition collect_tab (acc : bc_lists) (entry : string * Layout F) : Py.Res bc_lists :=
  let (tab_name, layout) := entry in
  var_name ← recv (Py.dict_get var_map tab_name);
  let is_disp := Py.contains "disp" (Py.lower var_name) in
  let is_acoustic := Py.contains "Acoustic" tab_name in
  Py.foldM (collect_row var_name is_disp is_acoustic layout) acc (seq 0 (count layout)).

(** [# Boundary conditions]: the collection loops. *)
Definition collect_bcs (self : t) : Py.Res bc_lists :=
  let bc_layouts := BoundaryTab.get_boundary_conditions (boundary_tab self) in
  Py.foldM collect_tab {| flow_bcs := []; mesh_bcs := []; acoustic_bcs := [] |} bc_layouts.

(** [enumerate(xs)] *)
Definition enumerate {A} (xs : list A) : list (nat * A) := imap (λ i x, (i, x)) xs.

(** [# Write Flow BCs] *)
Definition write_flow_bcs (flow_bcs : list bc_data) (f : string) : Py.M state unit :=
  f_write f ("// Flow boundary conditions" +:+ nl);;
  f_write f ("numberBC = " +:+ Py.str_int (Z.of_nat (length flow_bcs)) +:+ nl);;
  Py.for_ (enumerate flow_bcs) (λ '(i, bc),
    f_write f ("index = " +:+ Py.str_int (Z.of_nat i) +:+ nl);;
    f_write f ("type = " +:+ type_ bc +:+ nl);;
    f_write f ("var = " +:+ var bc +:+ nl);;
    f_write f ("nodes = " +:+ nodes bc +:+ nl);;
    if negb (String.eqb (type_ bc) "matchmeshvel")
    then f_write f ("val = " +:+ Py.str_num (val bc) +:+ nl)
    else mret tt);;
  f_write f nl.

(** [bc.get('tag', 0)] *)
Definition get_tag (bc : bc_data) : Py.num F := default (Py.Int 0) (tag bc).

(** The condition of the list comprehension [mesh_bcs_filtered]. *)
Definition mesh_keep (bc : bc_data) : bool :=
  negb (Py.num_is_zero (get_tag bc)) || negb (String.eqb (type_ bc) "prescribed").

(** [# Write Mesh BCs (skip tag 0)] *)
Definition write_mesh_bcs (mesh_bcs : list bc_data) (f : string) : Py.M state unit :=
  let mesh_bcs_filtered := List.filter mesh_keep mesh_bcs in
  f_write f ("// Mesh boundary conditions" +:+ nl);;
  f_write f ("numberBC = " +:+ Py.str_int (Z.of_nat (length mesh_bcs_filtered)) +:+ nl);;
  Py.for_ (enumerate mesh_bcs_filtered) (λ '(i, bc),
    f_write f ("index = " +:+ Py.str_int (Z.of_nat i) +:+ nl);;
    let final_type :=
      if Py.num_is_positive (get_tag bc) then "prescribed" else type_ bc in
    f_write f ("type = " +:+ final_type +:+ nl);;
    f_write f ("var = " +:+ var bc +:+ nl);;
    f_write f ("nodes = " +:+ nodes bc +:+ nl);;
    if String.eqb final_type "prescribed" then
      t ← Py.lift (match tag bc with
                   | Some t => Py.Ok t
                   | None => Py.Raise Py.KeyError
                   end);
      f_write f ("tag = " +:+ Py.str_num t +:+ nl)
    else f_write f ("val = " +:+ Py.str_num (val bc) +:+ nl));;
  f_write f nl.

(** [# Write Acoustic BCs] *)
Definition write_acoustic_bcs (acoustic_bcs : list bc_data) (f : string) : Py.M state unit :=
  f_write f ("// Acoustic boundary conditions" +:+ nl);;
  f_write f ("numberBC = " +:+ Py.str_int (Z.of_nat (length acoustic_bcs)) +:+ nl);;
  Py.for_ (enumerate acoustic_bcs) (λ '(i, bc),
    f_write f ("index = " +:+ Py.str_int (Z.of_nat i) +:+ nl);;
    f_write f ("type = " +:+ type_ bc +:+ nl);;
    f_write f ("var = " +:+ var bc +:+ nl);;
    f_write f ("nodes = " +:+ nodes bc +:+ nl);;
    f_write f ("val = " +:+ Py.str_num (val bc) +:+ nl));;
  f_write f nl.

(** [get_val(gl, r, c)] of the prescribed-motion loop; [gl] is [None] when
    the item it was taken from holds no layout. *)
Definition get_val (gl : option (Layout F)) (r c : nat) : Py.Res (Py.num F) :=
  gl ← recv gl;
  item ← itemAtPosition gl r c;
  item ← recv item;
  w ← recv (item_widget item);
  widget_value w.

(** [vbox.itemAt(k).layout()] *)
Definition sub_layout (vbox : option (Layout F)) (k : nat) : Py.Res (option (Layout F)) :=
  vbox ← recv vbox;
  item ← recv (itemAt vbox k);
  mret (item_layout item).

(** [# Prescribed motion] *)
Definition write_prescribed (self : t) (f : string) : Py.M state unit :=
  let prescribed_tag_rows := PrescribedTab.get_prescribed_tags (prescribed_tab self) in
  f_write f ("// Prescribed motion details" +:+ nl);;
  f_write f ("numberBC = " +:+ Py.str_int (Z.of_nat (length prescribed_tag_rows)) +:+ nl);;
  Py.for_ (enumerate prescribed_tag_rows) (λ '(i, group),
    let vbox := Qt.layout group in
    grid ← Py.lift (sub_layout vbox 0);
    extra_grid ← Py.lift (sub_layout vbox 2);
    f_write f ("tag = " +:+ Py.str_int (Z.of_nat i + 1) +:+ nl);;
    v ← Py.lift (get_val grid 0 1);
    f_write f ("heaveAmp = " +:+ Py.str_num v +:+ nl);;
    v ← Py.lift (get_val grid 0 3);
    f_write f ("heaveFreq = " +:+ Py.str_num v +:+ nl);;
    v ← Py.lift (get_val grid 0 5);
    f_write f ("heavePhase = " +:+ Py.str_int (Py.int v) +:+ nl);;
    v ← Py.lift (get_val grid 1 1);
    f_write f ("pitchAmp = " +:+ Py.str_int (Py.int v) +:+ nl);;
    v ← Py.lift (get_val grid 1 3);
    f_write f ("pitchFreq = " +:+ Py.str_num v +:+ nl);;
    v ← Py.lift (get_val grid 1 5);
    f_write f ("pitchPhase = " +:+ Py.str_int (Py.int v) +:+ nl);;
    f_write f ("pitchAxisX = 0" +:+ nl);;
    f_write f ("pitchAxisY = 0" +:+ nl);;
    v ← Py.lift (get_val grid 2 1);
    f_write f ("morphAmp = " +:+ Py.str_int (Py.int v) +:+ nl);;
    v ← Py.lift (get_val grid 2 3);
    f_write f ("morphFreq = " +:+ Py.str_num v +:+ nl);;
    v ← Py.lift (get_val grid 2 5);
    f_write f ("morphPhase = " +:+ Py.str_int (Py.int v) +:+ nl);;
    v ← Py.lift (get_val extra_grid 0 3);
    f_write f ("morphPos = " +:+ Py.str_int (Py.int v) +:+ nl);;
    v ← Py.lift (get_val extra_grid 0 1);
    f_write f ("morphDiv = " +:+ Py.str_int (Py.int v) +:+ nl);;
    v ← Py.lift (get_val extra_grid 1 1);
    f_write f ("LEPosX = " +:+ Py.str_int (Py.int v) +:+ nl);;
    v ← Py.lift (get_val extra_grid 1 3);
    f_write f ("LEPosY = " +:+ Py.str_int (Py.int v) +:+ nl);;
    f_write f ("chordLength = 1" +:+ nl));;
  f_write f nl.

(** One turn of the loop that gathers the file names of an output list. *)
Definition collect_output_row (layout : Layout F) (rows : list string) (i : nat)
    : Py.Res (list string) :=
  item ← recv (itemAt layout i);
  match item_widget item with
  | Some w =>
      edit ← child (Qt.layout w) 0;
      txt ← widget_text edit;
      if negb (String.eqb txt "") then mret (rows ++ [txt]) else mret rows
  | None => mret rows
  end.

Definition collect_output_rows (layout : Layout F) : Py.Res (list string) :=
  Py.foldM (collect_output_row layout) [] (seq 0 (count layout)).

Definition write_output_rows (rows : list string) (f : string) : Py.M state unit :=
  f_write f ("numberFiles = " +:+ Py.str_int (Z.of_nat (length rows)) +:+ nl);;
  Py.for_ (enumerate rows) (λ '(i, txt),
    f_write f ("tag = " +:+ Py.str_int (Z.of_nat i + 1) +:+ nl);;
    f_write f ("nodes = " +:+ txt +:+ nl)).

(** [# Output time history] *)
Definition write_probes (self : t) (f : string) : Py.M state unit :=
  let probe_layout := OutputTab.get_probe_layout (output_tab self) in
  f_write f ("// Output time history details" +:+ nl);;
  probe_rows ← Py.lift (collect_output_rows probe_layout);
  write_output_rows probe_rows f;;
  f_write f nl.

(** [# Output integrated surface] *)
Definition write_surfs (self : t) (f : string) : Py.M state unit :=
  let surf_layout := OutputTab.get_surf_layout (output_tab self) in
  f_write f ("// Output integrated surface details" +:+ nl);;
  surf_rows ← Py.lift (collect_output_rows surf_layout);
  write_output_rows surf_rows f.

(** The body of the [with] statement. *)
Definition save_body (f : string) : Py.M state unit :=
  s ← Py.get;
  let self := s.1 in
  f_write f ("// Input file for solver" +:+ nl +:+ nl);;
  write_geometry self f;;
  write_solver self f;;
  write_fluid self f;;
  write_initial self f;;
  bcs ← Py.lift (collect_bcs self);
  write_flow_bcs (flow_bcs bcs) f;;
  write_mesh_bcs (mesh_bcs bcs) f;;
  write_acoustic_bcs (acoustic_bcs bcs) f;;
  write_prescribed self f;;
  write_probes self f;;
  write_surfs self f;;
  f_write f (nl +:+ "// End of input file" +:+ nl).

(** [save_input_file]; [path] is the answer of the save dialog, the empty
    string when the user cancels it. *)
Definition save_input_file (path : string) : Py.M state unit :=
  if String.eqb path "" then mret tt
  else
    Py.try_except (with_open path save_body)
      (λ e,
         os_act (OS.print ("Error saving file: " +:+ Py.exn_name e));;
         os_act (OS.print_err "Traceback (most recent call last):")).

End S.
Arguments t F : clear implicits.
Arguments state F : clear implicits.
Arguments bc_data F : clear implicits.
Arguments bc_lists F : clear implicits.
End SolverGUI.

(* ===================================================================== *)
(** ** The floats of CPython *)
(* ===================================================================== *)

(** The float interface on the rationals that are binary64 numbers: every
    operation gives the [float] nearest to the exact result, and the
    formats print the exact value of the [float], correctly rounded, as
    CPython does. The infinities, the NaNs and the negative zero have no
    counterpart. It serves to run the model on concrete forms. *)
Module Double.

Definition pow10 (n : nat) : Z := 10 ^ Z.of_nat n.

Definition of_decimal (m : Z) (d : nat) : Q := Py.nearest (Qmake m (Z.to_pos (pow10 d))).

Definition pad_left (width : nat) (s : string) : string :=
  String.concat "" (repeat "0" (width - String.length s)) +:+ s.

Definition sign (q : Q) : string := if Qnum q <? 0 then "-" else "".

(** [n / 10^d] written with [d] decimal places, for [0 <= n]. *)
Definition places (d : nat) (n : Z) : string :=
  pretty (n / pow10 d) +:+
  (if (d =? 0)%nat then "" else "." +:+ pad_left d (pretty (n mod pow10 d))).

(** [f"{q:.{d}f}"] *)
Definition fixed (d : nat) (q : Q) : string :=
  sign q +:+ places d (Py.round_half_even (Qabs q * inject_Z (pow10 d))).

(** The decimal exponent of [q > 0], searched from the estimate [e]:
    [10^e <= q < 10^(e+1)]. *)
Fixpoint find_exp (fuel : nat) (q : Q) (e : Z) : Z :=
  match fuel with
  | O => e
  | S fuel' =>
      if Qle_bool (Qpower (10 # 1) (e + 1)) q then find_exp fuel' q (e + 1)
      else if Qle_bool (Qpower (10 # 1) e) q then e
      else find_exp fuel' q (e - 1)
  end.

(** The [k] leading digits of [q > 0], rounded, and the decimal exponent:
    [(m, e)] stands for [m * 10^(e - k + 1)]. *)
Definition digits (k : nat) (q : Q) : Z * Z :=
  let e := find_exp 400 q (Py.exponent2 q * 30103 / 100000) in
  let m := Py.round_half_even (q / Qpower (10 # 1) (e - (Z.of_nat k - 1))) in
  if m =? pow10 k then (pow10 (k - 1), e + 1) else (m, e).

Definition exp_text (e : Z) : string :=
  "e" +:+ (if e <? 0 then "-" else "+") +:+ pad_left 2 (pretty (Z.abs e)).

(** [f"{q:.6e}"] *)
Definition format_6e (q : Q) : string :=
  if Qnum q =? 0 then "0.000000e+00"
  else
    let '(m, e) := digits 7 (Qabs q) in
    sign q +:+ places 6 m +:+ exp_text e.

(** The least number of digits, from [k] on, that read back as [q > 0];
    17 digits always do. *)
Fixpoint shortest (fuel k : nat) (q : Q) : nat * (Z * Z) :=
  let me := digits k q in
  if Qeq_bool (Py.nearest (inject_Z me.1 * Qpower (10 # 1) (me.2 - (Z.of_nat k - 1)))) q
  then (k, me)
  else match fuel with
       | O => (k, me)
       | S fuel' => shortest fuel' (S k) q
       end.

(** [repr(q)], which is [str(q)]: the shortest digits that read back as
    [q], written positionally when the decimal point falls in
    [-4 < decpt <= 16] and with an exponent otherwise. *)
Definition repr (q : Q) : string :=
  if Qnum q =? 0 then "0.0"
  else
    let '(k, (m, e)) := shortest 16 1 (Qabs q) in
    let ds := pretty m in
    let decpt := e + 1 in
    sign q +:+
    (if (decpt <=? -4) || (16 <? decpt) then
       String.substring 0 1 ds +:+
       (if (1 <? k)%nat then "." +:+ String.substring 1 (k - 1) ds else "") +:+
       exp_text e
     else if decpt <=? 0 then
       "0." +:+ String.concat "" (repeat "0" (Z.to_nat (- decpt))) +:+ ds
     else if Z.of_nat k <=? decpt then
       ds +:+ String.concat "" (repeat "0" (Z.to_nat decpt - k)) +:+ ".0"
     else
       String.substring 0 (Z.to_nat decpt) ds +:+ "." +:+
       String.substring (Z.to_nat decpt) (k - Z.to_nat decpt) ds).

Global Instance float : Py.Float Q := {|
  Py.of_decimal := of_decimal;
  Py.fmul := λ x y, Py.nearest (x * y);
  Py.fdiv_nonzero := λ x y, Py.nearest (x / y);
  Py.is_zero := λ x, Qnum x =? 0;
  Py.is_positive := λ x, 0 <? Qnum x;
  Py.trunc := λ x, Z.quot (Qnum x) (Zpos (Qden x));
  Py.repr := repr;
  Py.format_6e := format_6e;
  Py.format_2f := fixed 2;
  Py.format_4f := fixed 4;
|}.

End Double.



(* ===================================================================== *)
(** ** The user at the form *)
(* ===================================================================== *)

(** The event handlers of the window, one per thing the user can do, and
    the states of the form a session can reach. *)
Module Session.
Import Qt.
Section S.
Context {F : Type} `{Py.Float F}.

Local Abbreviation gui := (SolverGUI.t F).

Definition with_geometry (f : GeometryTab.t → GeometryTab.t) (g : gui) : gui :=
  {| SolverGUI.geometry_tab := f (SolverGUI.geometry_tab g);
     SolverGUI.solver_tab := SolverGUI.solver_tab g;
     SolverGUI.physical_tab := SolverGUI.physical_tab g;
     SolverGUI.boundary_tab := SolverGUI.boundary_tab g;
     SolverGUI.prescribed_tab := SolverGUI.prescribed_tab g;
     SolverGUI.output_tab := SolverGUI.output_tab g;
     SolverGUI.next_id := SolverGUI.next_id g |}.
Definition with_solver (sw : SolverTab.solver_widgets F) (g : gui) : gui :=
  {| SolverGUI.geometry_tab := SolverGUI.geometry_tab g;
     SolverGUI.solver_tab := sw;
     SolverGUI.physical_tab := SolverGUI.physical_tab g;
     SolverGUI.boundary_tab := SolverGUI.boundary_tab g;
     SolverGUI.prescribed_tab := SolverGUI.prescribed_tab g;
     SolverGUI.output_tab := SolverGUI.output_tab g;
     SolverGUI.next_id := SolverGUI.next_id g |}.
Definition with_physical (pt : PhysicalTab.t F) (g : gui) : gui :=
  {| SolverGUI.geometry_tab := SolverGUI.geometry_tab g;
     SolverGUI.solver_tab := SolverGUI.solver_tab g;
     SolverGUI.physical_tab := pt;
     SolverGUI.boundary_tab := SolverGUI.boundary_tab g;
     SolverGUI.prescribed_tab := SolverGUI.prescribed_tab g;
     SolverGUI.output_tab := SolverGUI.output_tab g;
     SolverGUI.next_id := SolverGUI.next_id g |}.
Definition with_boundary (bt : BoundaryTab.t F) (g : gui) : gui :=
  {| SolverGUI.geometry_tab := SolverGUI.geometry_tab g;
     SolverGUI.solver_tab := SolverGUI.solver_tab g;
     SolverGUI.physical_tab := SolverGUI.physical_tab g;
     SolverGUI.boundary_tab := bt;
     SolverGUI.prescribed_tab := SolverGUI.prescribed_tab g;
     SolverGUI.output_tab := SolverGUI.output_tab g;
     SolverGUI.next_id := SolverGUI.next_id g |}.
Definition with_prescribed (pt : PrescribedTab.t F) (g : gui) : gui :=
  {| SolverGUI.geometry_tab := SolverGUI.geometry_tab g;
     SolverGUI.solver_tab := SolverGUI.solver_tab g;
     SolverGUI.physical_tab := SolverGUI.physical_tab g;
     SolverGUI.boundary_tab := SolverGUI.boundary_tab g;
     SolverGUI.prescribed_tab := pt;
     SolverGUI.output_tab := SolverGUI.output_tab g;
     SolverGUI.next_id := SolverGUI.next_id g |}.
Definition with_output (ot : OutputTab.t F) (g : gui) : gui :=
  {| SolverGUI.geometry_tab := SolverGUI.geometry_tab g;
     SolverGUI.solver_tab := SolverGUI.solver_tab g;
     SolverGUI.physical_tab := SolverGUI.physical_tab g;
     SolverGUI.boundary_tab := SolverGUI.boundary_tab g;
     SolverGUI.prescribed_tab := SolverGUI.prescribed_tab g;
     SolverGUI.output_tab := ot;
     SolverGUI.next_id := SolverGUI.next_id g |}.
(** [n] new widget objects were created. *)
Definition created (n : nat) (g : gui) : gui :=
  {| SolverGUI.geometry_tab := SolverGUI.geometry_tab g;
     SolverGUI.solver_tab := SolverGUI.solver_tab g;
     SolverGUI.physical_tab := SolverGUI.physical_tab g;
     SolverGUI.boundary_tab := SolverGUI.boundary_tab g;
     SolverGUI.prescribed_tab := SolverGUI.prescribed_tab g;
     SolverGUI.output_tab := SolverGUI.output_tab g;
     SolverGUI.next_id := (SolverGUI.next_id g + n)%nat |}.

(** *** Geometry tab *)

(** The three fields of the mesh configuration group. *)
Definition edit_mesh_config (coord conn : string) (conn_idx : nat) (g : gui) : gui :=
  with_geometry (λ gt,
    {| GeometryTab.coord_edit :=
         {| text := coord; placeholderText := placeholderText (GeometryTab.coord_edit gt) |};
       GeometryTab.conn_edit :=
         {| text := conn; placeholderText := placeholderText (GeometryTab.conn_edit gt) |};
       GeometryTab.conn_type :=
         {| items := items (GeometryTab.conn_type gt); currentIndex := conn_idx |};
       GeometryTab.scroll_layout := GeometryTab.scroll_layout gt;
       GeometryTab.boundary_rows := GeometryTab.boundary_rows gt |}) g.

(** [+ Add Boundary File] *)
Definition add_boundary_row (g : gui) : gui :=
  created 1 (with_geometry (GeometryTab.add_boundary_row (SolverGUI.next_id g)) g).

(** The delete button of the row container [w]. *)
Definition remove_boundary_row (w : wid) (g : gui) : gui :=
  with_geometry (GeometryTab.remove_boundary_row w) g.

Definition set_boundary_file (i : nat) (path : string) (g : gui) : gui :=
  with_geometry (GeometryTab.set_boundary_file i path) g.

(** *** Physical tab *)

Definition edit_physical (inputs : PhysicalTab.phys_inputs F) (g : gui) : gui :=
  with_physical
    {| PhysicalTab.inputs := inputs;
       PhysicalTab.lbl_reynolds := PhysicalTab.lbl_reynolds (SolverGUI.physical_tab g);
       PhysicalTab.lbl_mach := PhysicalTab.lbl_mach (SolverGUI.physical_tab g) |} g.

(** [Check non-dimensional numbers] *)
Definition calculate_nondim (g : gui) : gui :=
  with_physical (PhysicalTab.calculate_nondim (SolverGUI.physical_tab g, [])).2.1 g.

(** *** Boundary tab *)

Definition edit_initial_conditions (ic : BoundaryTab.init_cond F) (g : gui) : gui :=
  with_boundary
    {| BoundaryTab.init_cond_widgets := ic;
       BoundaryTab.bc_tabs := BoundaryTab.bc_tabs (SolverGUI.boundary_tab g);
       BoundaryTab.bc_layouts := BoundaryTab.bc_layouts (SolverGUI.boundary_tab g);
       BoundaryTab.geometry_boundary_rows :=
         BoundaryTab.geometry_boundary_rows (SolverGUI.boundary_tab g) |} g.

(** The user opens sub-tab [idx]. *)
Definition open_bc_tab (idx : nat) (g : gui) : gui :=
  with_boundary
    {| BoundaryTab.init_cond_widgets := BoundaryTab.init_cond_widgets (SolverGUI.boundary_tab g);
       BoundaryTab.bc_tabs := setCurrentIndex idx (BoundaryTab.bc_tabs (SolverGUI.boundary_tab g));
       BoundaryTab.bc_layouts := BoundaryTab.bc_layouts (SolverGUI.boundary_tab g);
       BoundaryTab.geometry_boundary_rows :=
         BoundaryTab.geometry_boundary_rows (SolverGUI.boundary_tab g) |} g.

Definition add_bc_row (tab : string) (g : gui) : Py.Res gui :=
  bt ← BoundaryTab.click_add tab (SolverGUI.next_id g) (SolverGUI.boundary_tab g);
  mret (created 1 (with_boundary bt g)).

Definition remove_bc_row (tab : string) (w : wid) (g : gui) : Py.Res gui :=
  bt ← BoundaryTab.click_delete tab w (SolverGUI.boundary_tab g);
  mret (with_boundary bt g).

Definition edit_bc_field (tab : string) (i k : nat) (w' : Widget F) (g : gui) : gui :=
  with_boundary (BoundaryTab.edit_field tab i k w' (SolverGUI.boundary_tab g)) g.

(** [self.boundary_tab.refresh_active_boundary_tab()]: the tab reads the
    row list its reference denotes at the time of the call. *)
Definition refresh_active_boundary_tab (g : gui) : Py.Res gui :=
  let rows := SolverGUI.deref g (BoundaryTab.geometry_boundary_rows (SolverGUI.boundary_tab g)) in
  bt ← BoundaryTab.refresh_active_boundary_tab false rows (SolverGUI.next_id g)
         (SolverGUI.boundary_tab g);
  mret (created (length rows) (with_boundary bt g)).

(** *** Prescribed tab *)

Definition add_prescribed_tag (g : gui) : gui :=
  created 1 (with_prescribed
    (PrescribedTab.add_prescribed_tag (SolverGUI.next_id g) (SolverGUI.prescribed_tab g)) g).

Definition edit_prescribed (i gr n : nat) (w' : Widget F) (g : gui) : gui :=
  with_prescribed (PrescribedTab.edit_cell i gr n w' (SolverGUI.prescribed_tab g)) g.

(** *** Output tab *)

Definition with_probe (f : Layout F → Layout F) (g : gui) : gui :=
  with_output
    {| OutputTab.probe_layout := f (OutputTab.probe_layout (SolverGUI.output_tab g));
       OutputTab.surf_layout := OutputTab.surf_layout (SolverGUI.output_tab g) |} g.
Definition with_surf (f : Layout F → Layout F) (g : gui) : gui :=
  with_output
    {| OutputTab.probe_layout := OutputTab.probe_layout (SolverGUI.output_tab g);
       OutputTab.surf_layout := f (OutputTab.surf_layout (SolverGUI.output_tab g)) |} g.

Definition add_probe_row (g : gui) : gui :=
  created 1 (with_probe (λ l, OutputTab.add_output_row l "Probe file" (SolverGUI.next_id g)) g).
Definition add_surf_row (g : gui) : gui :=
  created 1 (with_surf (λ l, OutputTab.add_output_row l "Surface file" (SolverGUI.next_id g)) g).
Definition remove_probe_row (w : wid) (g : gui) : gui :=
  with_probe (λ l, OutputTab.remove_generic_row l w) g.
Definition remove_surf_row (w : wid) (g : gui) : gui :=
  with_surf (λ l, OutputTab.remove_generic_row l w) g.
Definition edit_probe_row (i : nat) (txt : string) (g : gui) : gui :=
  with_probe (OutputTab.edit_row i txt) g.
Definition edit_surf_row (i : nat) (txt : string) (g : gui) : gui :=
  with_surf (OutputTab.edit_row i txt) g.

(** One event. The sub-tab buttons exist for the seven sub-tabs only. *)
Inductive step : gui → gui → Prop :=
| step_edit_mesh_config g coord conn idx :
    step g (edit_mesh_config coord conn idx g)
| step_add_boundary_row g :
    step g (add_boundary_row g)
| step_remove_boundary_row g w :
    step g (remove_boundary_row w g)
| step_set_boundary_file g i path :
    step g (set_boundary_file i path g)
| step_edit_solver g sw :
    step g (with_solver sw g)
| step_edit_physical g inputs :
    step g (edit_physical inputs g)
| step_calculate_nondim g :
    step g (calculate_nondim g)
| step_edit_initial_conditions g ic :
    step g (edit_initial_conditions ic g)
| step_open_bc_tab g idx :
    step g (open_bc_tab idx g)
| step_add_bc_row g g' tab :
    In tab BoundaryTab.TAB_NAMES →
    add_bc_row tab g = Py.Ok g' →
    step g g'
| step_remove_bc_row g g' tab w :
    In tab BoundaryTab.TAB_NAMES →
    remove_bc_row tab w g = Py.Ok g' →
    step g g'
| step_edit_bc_field g tab i k w' :
    step g (edit_bc_field tab i k w' g)
| step_refresh_active_boundary_tab g g' :
    refresh_active_boundary_tab g = Py.Ok g' →
    step g g'
| step_add_prescribed_tag g :
    step g (add_prescribed_tag g)
| step_edit_prescribed g i gr n w' :
    step g (edit_prescribed i gr n w' g)
| step_add_probe_row g : step g (add_probe_row g)
| step_add_surf_row g : step g (add_surf_row g)
| step_remove_probe_row g w : step g (remove_probe_row w g)
| step_remove_surf_row g w : step g (remove_surf_row w g)
| step_edit_probe_row g i txt : step g (edit_probe_row i txt g)
| step_edit_surf_row g i txt : step g (edit_surf_row i txt g).

(** The forms a session can show: the window as [__init__] builds it, and
    whatever events lead to. *)
Inductive reachable : gui → Prop :=
| reachable_init g : SolverGUI.init = Py.Ok g → reachable g
| reachable_step g g' : reachable g → step g g' → reachable g'.

(** The Browse buttons; [path] is the answer of the open-file dialog. *)
Definition browse_coord (path : string) (g : gui) : gui :=
  with_geometry (GeometryTab.browse_coord path) g.
Definition browse_conn (path : string) (g : gui) : gui :=
  with_geometry (GeometryTab.browse_conn path) g.
Definition browse_boundary_file (i : nat) (path : string) (g : gui) : gui :=
  with_geometry (GeometryTab.click_browse i path) g.
Definition browse_probe_file (i : nat) (path : string) (g : gui) : gui :=
  with_probe (OutputTab.click_browse i path) g.
Definition browse_surf_file (i : nat) (path : string) (g : gui) : gui :=
  with_surf (OutputTab.click_browse i path) g.

End S.
End Session.

(* ===================================================================== *)
(** ** Vocabulary of the statements *)
(* ===================================================================== *)

(** The labels [B-1] ... [B-n]. *)
Definition numbered (n : nat) : list string :=
  map (λ i, "B-" +:+ Py.str_int (Z.of_nat i + 1)) (seq 0 n).

(** [line] is a line of the text [content]: it starts the text or follows
    a line feed, and a line feed ends it. *)
Definition has_line (content line : string) : Prop :=
  ∃ pre suf, content = pre +:+ line +:+ SolverGUI.nl +:+ suf ∧
             (pre = "" ∨ ∃ p, pre = p +:+ SolverGUI.nl).

(** Several lines in a row. *)
Definition lines (ls : list string) : string := String.concat SolverGUI.nl ls.

(** [s] occurs in the text [content]. *)
Definition occurs_in (s content : string) : Prop :=
  ∃ pre suf, content = pre +:+ s +:+ suf.

(** The file operation [op] works on [path] and does not read: it opens
    the file for writing, writes to it or closes it. *)
Definition write_only (path : string) (op : OS.file_op) : Prop :=
  op = OS.Open path "w" ∨ (∃ data, op = OS.Write path data) ∨ op = OS.Close path.

(** Two worlds that a run on file [f] cannot tell apart: the same file
    operations are going to fail, and [f] holds the same contents. *)
Definition same_at (f : string) (w1 w2 : OS.World) : Prop :=
  OS.faults w1 = OS.faults w2 ∧ OS.files w1 !! f = OS.files w2 !! f.

(** The text [a] is the beginning of the text [b]. *)
Definition starts (a b : string) : Prop := ∃ rest, b = a +:+ rest.

(** The text [s] is made of dots. *)
Definition dots_only (s : string) : Prop :=
  ∀ k c, String.get k s = Some c → c = "."%char.

(** The path [p] is the directory part [dir], the file name [name] and the
    extension [ext]: the directory part is empty or ends with [/], and
    name and extension hold no [/]; the extension is a dot and what follows
    the last dot of the file name, when the name before that dot is not
    made of dots only; otherwise the extension is empty, and the name has
    no dot but leading ones. *)
Definition path_parts (p dir name ext : string) : Prop :=
  p = dir +:+ name +:+ ext ∧
  (dir = "" ∨ ∃ d, dir = d +:+ "/") ∧
  Py.contains "/" (name +:+ ext) = false ∧
  ((ext = "" ∧
    ∃ dots rest, name = dots +:+ rest ∧ dots_only dots ∧ Py.contains "." rest = false) ∨
   (∃ e, ext = String "." e ∧ Py.contains "." e = false ∧ ¬ dots_only name)).

(** A world with no file, nothing printed, and no failure to come. *)
Definition quiet_world : OS.World :=
  {| OS.files := ∅; OS.stdout := []; OS.stderr := []; OS.syscalls := []; OS.faults := [] |}.

(** *** The rows as the program builds them

    A row of a boundary-condition sub-tab, of the prescribed-motion tab and
    of an output list is a container with a fixed sequence of children.
    The records below name the state of the children; [bc_item],
    [group_widget] and [output_item] are the containers that hold it. *)
Module Shape.
Import Qt.
Section S.
Context {F : Type}.

(** A boundary-condition row; [r_tag] is the tag spin box, present in the
    displacement sub-tabs. *)
Record bc_row := {
  r_id : wid;
  r_label : string;
  r_name : QLineEdit;
  r_type : QComboBox;
  r_val : F;
  r_tag : option Z;
}.

Definition bc_layout (r : bc_row) : Layout F :=
  QBoxLayout
    ([QWidgetItem (QLabel (r_label r)); QWidgetItem (LineEdit (r_name r));
      QWidgetItem (QLabel "Type"); QWidgetItem (ComboBox (r_type r));
      QWidgetItem (QLabel "Value"); QWidgetItem (QDoubleSpinBox (r_val r))]
     ++ match r_tag r with
        | Some n => [QWidgetItem (QLabel "Tag"); QWidgetItem (QSpinBox n)]
        | None => []
        end
     ++ [QWidgetItem (QPushButton "x")]).

Definition bc_item (r : bc_row) : LayoutItem F :=
  QWidgetItem (QWidget (r_id r) (bc_layout r)).

Definition has_tag (r : bc_row) : bool :=
  match r_tag r with Some _ => true | None => false end.

Definition relabel (i : nat) (r : bc_row) : bc_row :=
  {| r_id := r_id r; r_label := "B-" +:+ Py.str_int (Z.of_nat i + 1);
     r_name := r_name r; r_type := r_type r; r_val := r_val r; r_tag := r_tag r |}.

Definition set_name (s : string) (r : bc_row) : bc_row :=
  {| r_id := r_id r; r_label := r_label r;
     r_name := {| text := s; placeholderText := placeholderText (r_name r) |};
     r_type := r_type r; r_val := r_val r; r_tag := r_tag r |}.

(** The layout of sub-tab [name] holds rows of the program's making,
    numbered in order. *)
Definition good_layout (name : string) (l : Layout F) : Prop :=
  ∃ rows, l = QBoxLayout (map bc_item rows) ∧
          Forall (λ r, has_tag r = Py.contains "disp" name) rows ∧
          map r_label rows = numbered (length rows).

(** The row [add_bc_row] creates in sub-tab [name]. *)
Definition fresh_row `{Py.Float F} (name : string) (w : wid) (lbl : string) : bc_row :=
  {| r_id := w; r_label := lbl;
     r_name := {| text := ""; placeholderText := "Boundary Name/ID" |};
     r_type := combo (BoundaryTab.bc_types name);
     r_val := Py.of_decimal 0 0;
     r_tag := if Py.contains "disp" name then Some 0 else None |}.

(** Row [i] of a sub-tab after [refresh_active_boundary_tab]: a new row,
    named after the file of geometry row [i] when there is one. *)
Definition refreshed_row `{Py.Float F} (initial : bool)
    (grows : list GeometryTab.boundary_row) (name : string) (w0 : wid) (i : nat) : bc_row :=
  let r := fresh_row name (w0 + i) ("B-" +:+ Py.str_int (Z.of_nat i + 1)) in
  if negb initial && (i <? length grows)%nat then
    match grows !! i with
    | Some row =>
        let boundary_file := text (GeometryTab.edit row) in
        if negb (String.eqb boundary_file "")
        then set_name (Py.os_path.splitext (Py.os_path.basename boundary_file)).1 r
        else r
    | None => r
    end
  else r.

(** A prescribed-motion group. *)
Record group := {
  g_id : wid;
  heave_amp : F; heave_freq : F; heave_phase : F;
  pitch_amp : F; pitch_freq : F; pitch_phase : F;
  morph_amp : F; morph_freq : F; morph_phase : F;
  morph_div : Z; morph_pos : F; le_x : F; le_y : F;
}.

Definition group_widget (g : group) : Widget F :=
  QWidget (g_id g) (QBoxLayout
    [QLayoutItem (QGridLayout
       [(0%nat, 0%nat, QLabel "Heave amplitude"); (0%nat, 1%nat, QDoubleSpinBox (heave_amp g));
        (0%nat, 2%nat, QLabel "Heave frequency"); (0%nat, 3%nat, QDoubleSpinBox (heave_freq g));
        (0%nat, 4%nat, QLabel "Heave phase"); (0%nat, 5%nat, QDoubleSpinBox (heave_phase g));
        (1%nat, 0%nat, QLabel "Pitch amplitude"); (1%nat, 1%nat, QDoubleSpinBox (pitch_amp g));
        (1%nat, 2%nat, QLabel "Pitch frequency"); (1%nat, 3%nat, QDoubleSpinBox (pitch_freq g));
        (1%nat, 4%nat, QLabel "Pitch phase"); (1%nat, 5%nat, QDoubleSpinBox (pitch_phase g));
        (2%nat, 0%nat, QLabel "Morph amplitude"); (2%nat, 1%nat, QDoubleSpinBox (morph_amp g));
        (2%nat, 2%nat, QLabel "Morph frequency"); (2%nat, 3%nat, QDoubleSpinBox (morph_freq g));
        (2%nat, 4%nat, QLabel "Morph phase"); (2%nat, 5%nat, QDoubleSpinBox (morph_phase g))]);
     QSpacerItem;
     QLayoutItem (QGridLayout
       [(0%nat, 0%nat, QLabel "Morph divisions"); (0%nat, 1%nat, QSpinBox (morph_div g));
        (0%nat, 2%nat, QLabel "Morph position"); (0%nat, 3%nat, QDoubleSpinBox (morph_pos g));
        (1%nat, 0%nat, QLabel "Leading edge X"); (1%nat, 1%nat, QDoubleSpinBox (le_x g));
        (1%nat, 2%nat, QLabel "Leading edge Y"); (1%nat, 3%nat, QDoubleSpinBox (le_y g))])]).

(** A row of an output list. *)
Record output_row := {
  o_id : wid;
  o_edit : QLineEdit;
}.

Definition output_item (r : output_row) : LayoutItem F :=
  QWidgetItem (QWidget (o_id r) (QBoxLayout
    [QWidgetItem (LineEdit (o_edit r)); QWidgetItem (QPushButton "Browse");
     QWidgetItem (QPushButton "x")])).

(** Reading the records back from the containers. *)
Definition bc_row_of (it : LayoutItem F) : option bc_row :=
  match it with
  | QWidgetItem (QWidget id (QBoxLayout
      (QWidgetItem (QLabel l) :: QWidgetItem (LineEdit e) :: QWidgetItem (QLabel _) ::
       QWidgetItem (ComboBox c) :: QWidgetItem (QLabel _) ::
       QWidgetItem (QDoubleSpinBox v) :: rest))) =>
      match rest with
      | [QWidgetItem (QPushButton _)] =>
          Some {| r_id := id; r_label := l; r_name := e; r_type := c; r_val := v;
                  r_tag := None |}
      | [QWidgetItem (QLabel _); QWidgetItem (QSpinBox n); QWidgetItem (QPushButton _)] =>
          Some {| r_id := id; r_label := l; r_name := e; r_type := c; r_val := v;
                  r_tag := Some n |}
      | _ => None
      end
  | _ => None
  end.

Definition rows_of (l : Layout F) : list bc_row :=
  match l with
  | QBoxLayout its => omap bc_row_of its
  | QGridLayout _ => []
  end.

Definition group_of (w : Widget F) : option group :=
  match w with
  | QWidget id (QBoxLayout
      [QLayoutItem (QGridLayout
         [(_, _, _); (_, _, QDoubleSpinBox a1); (_, _, _); (_, _, QDoubleSpinBox a2);
          (_, _, _); (_, _, QDoubleSpinBox a3);
          (_, _, _); (_, _, QDoubleSpinBox b1); (_, _, _); (_, _, QDoubleSpinBox b2);
          (_, _, _); (_, _, QDoubleSpinBox b3);
          (_, _, _); (_, _, QDoubleSpinBox c1); (_, _, _); (_, _, QDoubleSpinBox c2);
          (_, _, _); (_, _, QDoubleSpinBox c3)]);
       QSpacerItem;
       QLayoutItem (QGridLayout
         [(_, _, _); (_, _, QSpinBox d); (_, _, _); (_, _, QDoubleSpinBox p);
          (_, _, _); (_, _, QDoubleSpinBox x); (_, _, _); (_, _, QDoubleSpinBox y)])]) =>
      Some {| g_id := id;
              heave_amp := a1; heave_freq := a2; heave_phase := a3;
              pitch_amp := b1; pitch_freq := b2; pitch_phase := b3;
              morph_amp := c1; morph_freq := c2; morph_phase := c3;
              morph_div := d; morph_pos := p; le_x := x; le_y := y |}
  | _ => None
  end.

Definition output_row_of (it : LayoutItem F) : option output_row :=
  match it with
  | QWidgetItem (QWidget id (QBoxLayout (QWidgetItem (LineEdit e) :: _))) =>
      Some {| o_id := id; o_edit := e |}
  | _ => None
  end.

Definition output_rows_of (l : Layout F) : list output_row :=
  match l with
  | QBoxLayout its => omap output_row_of its
  | QGridLayout _ => []
  end.

End S.
Arguments bc_row F : clear implicits.
Arguments group F : clear implicits.
End Shape.

(** *** What the event handlers keep true *)
Module Inv.
Import Qt Shape.

(** The geometry tab: the layout shows the containers of the entries of
    [boundary_rows], in their order; the labels are numbered; a row is left. *)
Record geometry (self : GeometryTab.t) : Prop := {
  geo_sync : GeometryTab.scroll_layout self
             = map GeometryTab.widget (GeometryTab.boundary_rows self);
  geo_labels : map GeometryTab.label (GeometryTab.boundary_rows self)
               = numbered (length (GeometryTab.boundary_rows self));
  geo_nonempty : (1 ≤ length (GeometryTab.boundary_rows self))%nat;
}.

Section S.
Context {F : Type} `{Py.Float F}.

(** The boundary tab: seven sub-tabs, one of them open, each with a layout
    of numbered rows. *)
Record boundary (bt : BoundaryTab.t F) : Prop := {
  bt_titles : tab_titles (BoundaryTab.bc_tabs bt) = BoundaryTab.TAB_NAMES;
  bt_index : (tab_index (BoundaryTab.bc_tabs bt) < 7)%nat;
  bt_keys : map fst (BoundaryTab.bc_layouts bt) = BoundaryTab.TAB_NAMES;
  bt_good : Forall (λ e, good_layout e.1 e.2) (BoundaryTab.bc_layouts bt);
}.

(** The prescribed tab holds groups of the program's making. *)
Definition prescribed (pt : PrescribedTab.t F) : Prop :=
  ∃ groups, PrescribedTab.prescribed_tag_rows pt = map group_widget groups.

(** An output list holds rows of the program's making. *)
Definition output_list (l : Layout F) : Prop :=
  ∃ rows, l = QBoxLayout (map output_item rows).

(** The window: every tab is in order, the boundary tab refers to the
    geometry tab's list, and the row containers of the geometry tab are
    distinct objects created earlier. *)
Record gui (g : SolverGUI.t F) : Prop := {
  gui_geometry : geometry (SolverGUI.geometry_tab g);
  gui_boundary : boundary (SolverGUI.boundary_tab g);
  gui_ref : BoundaryTab.geometry_boundary_rows (SolverGUI.boundary_tab g)
            = BoundaryTab.GeometryRows;
  gui_prescribed : prescribed (SolverGUI.prescribed_tab g);
  gui_probe : output_list (OutputTab.probe_layout (SolverGUI.output_tab g));
  gui_surf : output_list (OutputTab.surf_layout (SolverGUI.output_tab g));
  gui_distinct : NoDup (GeometryTab.scroll_layout (SolverGUI.geometry_tab g));
  gui_created : Forall (λ w, (w < SolverGUI.next_id g)%nat)
                  (GeometryTab.scroll_layout (SolverGUI.geometry_tab g));
}.

End S.
End Inv.

(** *** The format of the input file

    The file is a sequence of sections; a section is a comment line, its
    [key = value] lines, and an empty line. *)
Module Text.
Import Qt Shape.

Definition kv : Type := string * string.

Definition sconcat (ls : list string) : string := fold_right String.append "" ls.

(** The line [key = value]. *)
Definition kv_text (p : kv) : string := p.1 +:+ " = " +:+ p.2.

Definition kv_line (p : kv) : string := p.1 +:+ " = " +:+ p.2 +:+ SolverGUI.nl.

Definition section_text (s : string * list kv) : string :=
  "// " +:+ s.1 +:+ SolverGUI.nl +:+ sconcat (map kv_line s.2) +:+ SolverGUI.nl.

Definition file_text (sections : list (string * list kv)) : string :=
  "// Input file for solver" +:+ SolverGUI.nl +:+ SolverGUI.nl +:+
  sconcat (map section_text sections) +:+
  "// End of input file" +:+ SolverGUI.nl.

Section S.
Context {F : Type} `{Py.Float F}.

Definition geometry_kvs (gt : GeometryTab.t) : list kv :=
  [("crdFile", text (GeometryTab.coord_edit gt));
   ("cnnFile", text (GeometryTab.conn_edit gt));
   ("elemType", Py.dict_get_default SolverGUI.elem_map
                  (currentText (GeometryTab.conn_type gt)) "4NodeQuad")].

Definition solver_kvs (sw : SolverTab.solver_widgets F) : list kv :=
  [("solverType", Py.lower (currentText (SolverTab.sim_type sw)));
   ("fluidEqn", Py.dict_get_default SolverGUI.fluid_eqn_map
                  (currentText (SolverTab.fluid_eqn sw)) "navierStokes");
   ("meshEqn", Py.dict_get_default SolverGUI.mesh_eqn_map
                 (currentText (SolverTab.mesh_eqn sw)) "linearElasticPrescribed");
   ("acousticEqn", Py.dict_get_default SolverGUI.acoustic_eqn_map
                     (currentText (SolverTab.acoustic_eqn sw)) "none");
   ("nDims", Py.replace "D" "" (currentText (SolverTab.dims sw)));
   ("nonLinearIterMin", Py.str_int (SolverTab.nl_min sw));
   ("nonLinearIterMax", Py.str_int (SolverTab.nl_max sw));
   ("nonLinearTolerance", Py.format_6e (SolverTab.nl_tol sw));
   ("timeStepSize", Py.format_6e (SolverTab.time_step sw));
   ("maxTimeSteps", Py.str_int (SolverTab.max_steps sw));
   ("rhoInfinity", Py.format_6e (SolverTab.rho_inf sw));
   ("linearSolver", Py.lower (currentText (SolverTab.lin_solver sw)));
   ("linearSolverTol", Py.format_6e (SolverTab.lin_tol sw));
   ("linearSolverIterMax", Py.str_int (SolverTab.lin_max sw));
   ("linearSolverRstIter", Py.str_int (SolverTab.lin_rst sw));
   ("restartFlag", if SolverTab.restart_flag sw then "1" else "0");
   ("restartTsId", Py.str_int (SolverTab.restart_id sw));
   ("restartOutFreq", Py.str_int (SolverTab.rst_freq sw));
   ("outputFileType", currentText (SolverTab.out_type sw));
   ("outputStartTimeStep", Py.str_int (SolverTab.out_start sw));
   ("outFreq", Py.str_int (SolverTab.out_freq sw));
   ("intOutFreq", Py.str_int (SolverTab.int_freq sw));
   ("acousticNRBCCentreX", Py.repr (SolverTab.acoustic_nrbc_x sw));
   ("acousticNRBCCentreY", Py.repr (SolverTab.acoustic_nrbc_y sw));
   ("acousticNRBCCentreZ", Py.repr (SolverTab.acoustic_nrbc_z sw));
   ("acousticNRBCInnerRadius", Py.str_int (Py.trunc (SolverTab.acoustic_nrbc_inner sw)));
   ("acousticNRBCOuterRadius", Py.str_int (Py.trunc (SolverTab.acoustic_nrbc_outer sw)))].

(** Of the six physical inputs, four are written; [U] and [L] serve the
    non-dimensional check only. *)
Definition fluid_kvs (p : PhysicalTab.phys_inputs F) : list kv :=
  [("fluidDens", Py.format_6e (PhysicalTab.rho p));
   ("fluidVisc", Py.format_6e (PhysicalTab.mu p));
   ("fluidGamma", Py.repr (PhysicalTab.gamma p));
   ("fluidSpeedOfSound", Py.str_int (Py.trunc (PhysicalTab.a p)))].

Definition initial_kvs (ic : BoundaryTab.init_cond F) : list kv :=
  [("initPres", Py.format_6e (BoundaryTab.pres ic));
   ("initXVel", Py.format_6e (BoundaryTab.xvel ic));
   ("initYVel", Py.format_6e (BoundaryTab.yvel ic));
   ("initZVel", Py.format_6e (BoundaryTab.zvel ic));
   ("initXDisp", Py.format_6e (BoundaryTab.xdisp ic));
   ("initYDisp", Py.format_6e (BoundaryTab.ydisp ic));
   ("initZDisp", Py.format_6e (BoundaryTab.zdisp ic));
   ("initPsi", Py.format_6e (BoundaryTab.psi ic))].

(** The rows of sub-tab [name], each with the variable name of its tab. *)
Definition tab_rows (bt : BoundaryTab.t F) (name var : string) : list (string * bc_row F) :=
  map (pair var)
    (rows_of (default (QBoxLayout []) (Py.dict_get (BoundaryTab.bc_layouts bt) name))).

(** The type of a row as the file spells it: the selected entry in lower
    case. *)
Definition type_text (r : bc_row F) : string := Py.lower (currentText (r_type r)).

(** A row takes part in the file unless its type is [None]. *)
Definition selected (p : string * bc_row F) : bool :=
  negb (String.eqb (type_text p.2) "none").

Definition tag_of (r : bc_row F) : Z := default 0 (r_tag r).

(** The rows of the velocity, displacement and acoustic sub-tabs, in the
    order of the sub-tabs. *)
Definition velocity_rows (bt : BoundaryTab.t F) : list (string * bc_row F) :=
  tab_rows bt "X-velocity" "xVelocity" ++ tab_rows bt "Y-velocity" "yVelocity" ++
  tab_rows bt "Z-velocity" "zVelocity".

Definition disp_rows (bt : BoundaryTab.t F) : list (string * bc_row F) :=
  tab_rows bt "X-disp" "xDisp" ++ tab_rows bt "Y-disp" "yDisp" ++
  tab_rows bt "Z-disp" "zDisp".

Definition potential_rows (bt : BoundaryTab.t F) : list (string * bc_row F) :=
  tab_rows bt "Acoustic-potential" "acousticPotential".

(** The rows of each section of the file, in file order. *)
Definition flow_rows (bt : BoundaryTab.t F) : list (string * bc_row F) :=
  List.filter selected (velocity_rows bt).

Definition mesh_kept (p : string * bc_row F) : bool :=
  negb (tag_of p.2 =? 0) || negb (String.eqb (type_text p.2) "prescribed").

Definition mesh_rows (bt : BoundaryTab.t F) : list (string * bc_row F) :=
  List.filter mesh_kept (List.filter selected (disp_rows bt)).

Definition acoustic_rows (bt : BoundaryTab.t F) : list (string * bc_row F) :=
  List.filter selected (potential_rows bt).

Definition flow_block (i : nat) (p : string * bc_row F) : list kv :=
  [("index", Py.str_int (Z.of_nat i)); ("type", type_text p.2); ("var", p.1);
   ("nodes", text (r_name p.2))]
  ++ (if String.eqb (type_text p.2) "matchmeshvel" then []
      else [("val", Py.repr (r_val p.2))]).

Definition mesh_block (i : nat) (p : string * bc_row F) : list kv :=
  if 0 <? tag_of p.2 then
    [("index", Py.str_int (Z.of_nat i)); ("type", "prescribed"); ("var", p.1);
     ("nodes", text (r_name p.2)); ("tag", Py.str_int (tag_of p.2))]
  else if String.eqb (type_text p.2) "prescribed" then
    [("index", Py.str_int (Z.of_nat i)); ("type", "prescribed"); ("var", p.1);
     ("nodes", text (r_name p.2)); ("tag", Py.str_int (tag_of p.2))]
  else
    [("index", Py.str_int (Z.of_nat i)); ("type", type_text p.2); ("var", p.1);
     ("nodes", text (r_name p.2)); ("val", Py.repr (r_val p.2))].

Definition acoustic_block (i : nat) (p : string * bc_row F) : list kv :=
  [("index", Py.str_int (Z.of_nat i)); ("type", type_text p.2); ("var", p.1);
   ("nodes", text (r_name p.2)); ("val", Py.repr (r_val p.2))].

Definition bc_kvs (block : nat → string * bc_row F → list kv)
    (rows : list (string * bc_row F)) : list kv :=
  ("numberBC", Py.str_int (Z.of_nat (length rows))) :: concat (imap block rows).

Definition group_block (i : nat) (g : group F) : list kv :=
  [("tag", Py.str_int (Z.of_nat i + 1));
   ("heaveAmp", Py.repr (heave_amp g));
   ("heaveFreq", Py.repr (heave_freq g));
   ("heavePhase", Py.str_int (Py.trunc (heave_phase g)));
   ("pitchAmp", Py.str_int (Py.trunc (pitch_amp g)));
   ("pitchFreq", Py.repr (pitch_freq g));
   ("pitchPhase", Py.str_int (Py.trunc (pitch_phase g)));
   ("pitchAxisX", "0");
   ("pitchAxisY", "0");
   ("morphAmp", Py.str_int (Py.trunc (morph_amp g)));
   ("morphFreq", Py.repr (morph_freq g));
   ("morphPhase", Py.str_int (Py.trunc (morph_phase g)));
   ("morphPos", Py.str_int (Py.trunc (morph_pos g)));
   ("morphDiv", Py.str_int (morph_div g));
   ("LEPosX", Py.str_int (Py.trunc (le_x g)));
   ("LEPosY", Py.str_int (Py.trunc (le_y g)));
   ("chordLength", "1")].

Definition groups_of (pt : PrescribedTab.t F) : list (group F) :=
  omap group_of (PrescribedTab.prescribed_tag_rows pt).

Definition prescribed_kvs (pt : PrescribedTab.t F) : list kv :=
  ("numberBC", Py.str_int (Z.of_nat (length (groups_of pt))))
  :: concat (imap group_block (groups_of pt)).

(** The file names of an output list: the rows with an empty field are
    left out. *)
Definition file_names (l : Layout F) : list string :=
  List.filter (λ txt, negb (String.eqb txt "")) (map (λ r, text (o_edit r)) (output_rows_of l)).

Definition output_block (i : nat) (txt : string) : list kv :=
  [("tag", Py.str_int (Z.of_nat i + 1)); ("nodes", txt)].

Definition output_kvs (l : Layout F) : list kv :=
  ("numberFiles", Py.str_int (Z.of_nat (length (file_names l))))
  :: concat (imap output_block (file_names l)).

(** The sections of the file of form [g]. *)
Definition sections (g : SolverGUI.t F) : list (string * list kv) :=
  [("Geometry details", geometry_kvs (SolverGUI.geometry_tab g));
   ("Solver details", solver_kvs (SolverGUI.solver_tab g));
   ("Fluid properties", fluid_kvs (PhysicalTab.inputs (SolverGUI.physical_tab g)));
   ("Initial conditions",
    initial_kvs (BoundaryTab.init_cond_widgets (SolverGUI.boundary_tab g)));
   ("Flow boundary conditions", bc_kvs flow_block (flow_rows (SolverGUI.boundary_tab g)));
   ("Mesh boundary conditions", bc_kvs mesh_block (mesh_rows (SolverGUI.boundary_tab g)));
   ("Acoustic boundary conditions",
    bc_kvs acoustic_block (acoustic_rows (SolverGUI.boundary_tab g)));
   ("Prescribed motion details", prescribed_kvs (SolverGUI.prescribed_tab g));
   ("Output time history details",
    output_kvs (OutputTab.probe_layout (SolverGUI.output_tab g)));
   ("Output integrated surface details",
    output_kvs (OutputTab.surf_layout (SolverGUI.output_tab g)))].

(** The dict the collection loop builds for a row. *)
Definition bc_data_of (p : string * bc_row F) : SolverGUI.bc_data F :=
  {| SolverGUI.var := p.1;
     SolverGUI.nodes := text (r_name p.2);
     SolverGUI.type_ := type_text p.2;
     SolverGUI.val := Py.Flt (r_val p.2);
     SolverGUI.tag := Py.Int <$> r_tag p.2 |}.

(** Where the collection loop puts the rows of a tab. *)
Definition gathered (is_disp is_acoustic : bool) (acc : SolverGUI.bc_lists F)
    (new : list (SolverGUI.bc_data F)) : SolverGUI.bc_lists F :=
  if is_disp then
    {| SolverGUI.flow_bcs := SolverGUI.flow_bcs acc; SolverGUI.mesh_bcs := SolverGUI.mesh_bcs acc ++ new;
       SolverGUI.acoustic_bcs := SolverGUI.acoustic_bcs acc |}
  else if is_acoustic then
    {| SolverGUI.flow_bcs := SolverGUI.flow_bcs acc; SolverGUI.mesh_bcs := SolverGUI.mesh_bcs acc;
       SolverGUI.acoustic_bcs := SolverGUI.acoustic_bcs acc ++ new |}
  else
    {| SolverGUI.flow_bcs := SolverGUI.flow_bcs acc ++ new; SolverGUI.mesh_bcs := SolverGUI.mesh_bcs acc;
       SolverGUI.acoustic_bcs := SolverGUI.acoustic_bcs acc |}.

(** [for c in cs: f.write(c)] *)
Definition write_all (f : string) (cs : list string) : Py.M (SolverGUI.state F) unit :=
  Py.for_ cs (SolverGUI.f_write f).

(** The statement [m] does nothing but write the chunks [cs], in order. *)
Definition writes (f : string) (m : Py.M (SolverGUI.state F) unit) (cs : list string) : Prop :=
  ∀ s, m s = write_all f cs s.

(** The statement [m] does nothing but write the text [t], in some number
    of pieces. *)
Definition emits (f : string) (m : Py.M (SolverGUI.state F) unit) (t : string) : Prop :=
  ∃ cs, writes f m cs ∧ sconcat cs = t.

(** The text [save_input_file] writes for form [g]. *)
Definition text_of (g : SolverGUI.t F) : string := file_text (sections g).

(** The run of [save_input_file] on form [g] in world [w], with [path]
    the answer of the dialog. *)
Definition save (path : string) (g : SolverGUI.t F) (w : OS.World)
    : Py.Res unit * (SolverGUI.t F * OS.World) :=
  SolverGUI.save_input_file path (g, w).

End S.
End Text.

(** The number of file operations of a save of form [g] on which none
    fails: the file is opened, written to once for each [f.write], and
    closed. *)
Definition save_ops {F} `{Py.Float F} (path : string) (g : SolverGUI.t F) : nat :=
  length (OS.syscalls (Text.save path g quiet_world).2.2).

(** *** The non-dimensional check *)

(** What the Reynolds and the Mach field show after the check for the
    inputs [i]. *)
Definition nondim_labels {F} `{Py.Float F} (i : PhysicalTab.phys_inputs F) : string * string :=
  (if Py.is_zero (PhysicalTab.mu i) then "Inf"
   else Py.format_2f
          (Py.fdiv_nonzero
             (Py.fmul (Py.fmul (PhysicalTab.rho i) (PhysicalTab.U i)) (PhysicalTab.L i))
             (PhysicalTab.mu i)),
   if Py.is_zero (PhysicalTab.a i) then "Inf"
   else Py.format_4f (Py.fdiv_nonzero (PhysicalTab.U i) (PhysicalTab.a i))).

(* ===================================================================== *)
(** ** Sessions to evaluate the statements on *)
(* ===================================================================== *)

(** Forms with the floats of CPython. A session is a script of events
    played on the window as it opens. *)
Module Demo.

Local Abbreviation gui := (SolverGUI.t Q).

(** The value of a computation that ends without an exception. *)
Definition value {A} (r : Py.Res A) : Py.is_ok r = true → A :=
  match r with
  | Py.Ok a => λ _, a
  | Py.Raise _ => λ H, match Bool.diff_false_true H with end
  end.

(** An event that cannot raise. *)
Definition does (f : gui → gui) : gui → Py.Res gui := λ g, Py.Ok (f g).

Definition run (script : list (gui → Py.Res gui)) : Py.Res gui :=
  g ← SolverGUI.init; Py.foldM (λ g event, event g) g script.

(** The user picks entry [i] of a dropdown. *)
Definition pick (i : nat) : Qt.Widget Q :=
  Qt.ComboBox {| Qt.items := []; Qt.currentIndex := i |}.

(** The window as it opens. *)
Definition opened : gui := value (run []) eq_refl.


(** One displacement row: its tag is set to 3, its type left at [None]. *)
Definition tagged_script : list (gui → Py.Res gui) :=
  [ Session.add_bc_row "X-disp";
    does (Session.edit_bc_field "X-disp" 0 7 (Qt.QSpinBox 3)) ].
Definition tagged : gui := value (run tagged_script) eq_refl.

(** A longer session: two boundary files; the velocity rows refreshed from
    them and typed [matchMeshVel] and [Dirichlet]; three displacement rows,
    [Dirichlet] with tag 2, [prescribed] with tag 0, [None] with tag 3; a
    second prescribed-motion group; a probe file. *)
Definition worked_script : list (gui → Py.Res gui) :=
  [ does Session.add_boundary_row;
    does (Session.set_boundary_file 0 "mesh/wall.dat");
    does (Session.set_boundary_file 1 "inlet.txt");
    Session.refresh_active_boundary_tab;
    does (Session.edit_bc_field "X-velocity" 0 3 (pick 2));
    does (Session.edit_bc_field "X-velocity" 1 3 (pick 1));
    Session.add_bc_row "X-disp";
    does (Session.edit_bc_field "X-disp" 0 3 (pick 1));
    does (Session.edit_bc_field "X-disp" 0 7 (Qt.QSpinBox 2));
    Session.add_bc_row "X-disp";
    does (Session.edit_bc_field "X-disp" 1 3 (pick 2));
    Session.add_bc_row "X-disp";
    does (Session.edit_bc_field "X-disp" 2 7 (Qt.QSpinBox 3));
    does Session.add_prescribed_tag;
    does (Session.edit_probe_row 0 "probe.dat") ].
Definition worked : gui := value (run worked_script) eq_refl.

(** A world that holds an earlier version of the file and other output. *)
Definition used_world : OS.World :=
  {| OS.files := {[ "inputFile.txt" := "// old" ]}; OS.stdout := ["ready"]; OS.stderr := [];
     OS.syscalls := []; OS.faults := [] |}.

(** A world in which the file opens and the first write fails. *)
Definition failing_world : OS.World :=
  {| OS.files := ∅; OS.stdout := []; OS.stderr := []; OS.syscalls := [];
     OS.faults := [false; true] |}.

(** A world that holds an earlier version of the file, which cannot be
    opened for writing. *)
Definition locked_world : OS.World :=
  {| OS.files := {[ "inputFile.txt" := "// old" ]}; OS.stdout := []; OS.stderr := [];
     OS.syscalls := []; OS.faults := [true] |}.

(** A world that holds an earlier version of the file; the file opens,
    two writes succeed and the third fails. *)
Definition full_world : OS.World :=
  {| OS.files := {[ "inputFile.txt" := "// old" ]}; OS.stdout := []; OS.stderr := [];
     OS.syscalls := []; OS.faults := [false; false; false; true] |}.

(** The two boundary-file rows of the longer session. *)
Definition wall_row : GeometryTab.boundary_row :=
  {| GeometryTab.widget := 0; GeometryTab.label := "B-1";
     GeometryTab.edit :=
       {| Qt.text := "mesh/wall.dat";
          Qt.placeholderText := "Select file for Boundary 1..." |};
     GeometryTab.btn_del := true |}.
Definition inlet_row : GeometryTab.boundary_row :=
  {| GeometryTab.widget := 5; GeometryTab.label := "B-2";
     GeometryTab.edit :=
       {| Qt.text := "inlet.txt";
          Qt.placeholderText := "Select file for Boundary 2..." |};
     GeometryTab.btn_del := true |}.

(** The displacement rows of the longer session. *)
Definition disp_row (id : Qt.wid) (label : string) (type : nat) (tag : Z) : Shape.bc_row Q :=
  {| Shape.r_id := id; Shape.r_label := label;
     Shape.r_name := {| Qt.text := ""; Qt.placeholderText := "Boundary Name/ID" |};
     Shape.r_type :=
       {| Qt.items := ["None"; "Dirichlet"; "prescribed"]; Qt.currentIndex := type |};
     Shape.r_val := Py.of_decimal 0 0;
     Shape.r_tag := Some tag |}.

End Demo.
Example lower_matchMeshVel : Py.lower "matchMeshVel" = "matchmeshvel".
Proof. reflexivity. Qed.
Example replace_2D : Py.replace "D" "" "2D" = "2".
Proof. reflexivity. Qed.
Example contains_disp : Py.contains "disp" (Py.lower "xDisp") = true.
Proof. reflexivity. Qed.
Example basename_ex : Py.os_path.basename "/home/u/mesh/wall.inlet.dat" = "wall.inlet.dat".
Proof. reflexivity. Qed.
Example splitext_ex : Py.os_path.splitext "wall.inlet.dat" = ("wall.inlet", ".dat").
Proof. reflexivity. Qed.
Example splitext_hidden : Py.os_path.splitext ".bashrc" = (".bashrc", "").
Proof. reflexivity. Qed.
Example str_int_ex : Py.str_int (-12) = "-12".
Proof. reflexivity. Qed.
Example geometry_three_rows :
  GeometryTab.displayed_labels
    (GeometryTab.remove_boundary_row 11%nat
      (GeometryTab.add_boundary_row 12%nat
        (GeometryTab.add_boundary_row 11%nat (GeometryTab.init 10%nat))))
  = [Some "B-1"; Some "B-2"].
Proof. reflexivity. Qed.
Example format_6e_ex : Py.format_6e (Py.of_decimal 5 4 : Q) = "5.000000e-04".
Proof. vm_compute. reflexivity. Qed.
Example format_6e_ex2 : Py.format_6e (Py.of_decimal 1000 0 : Q) = "1.000000e+03".
Proof. vm_compute. reflexivity. Qed.
Example format_6e_ex3 : Py.format_6e (Py.of_decimal 9091 4 : Q) = "9.091000e-01".
Proof. vm_compute. reflexivity. Qed.
Example repr_ex : Py.repr (Py.of_decimal 14 1 : Q) = "1.4".
Proof. vm_compute. reflexivity. Qed.
Example repr_ex2 : Py.repr (Py.of_decimal 0 1 : Q) = "0.0".
Proof. vm_compute. reflexivity. Qed.
Example format_2f_ex :
  Py.format_2f (Py.fdiv_nonzero (Py.of_decimal 1000 0) (Py.of_decimal 9091 4) : Q) = "1099.99".
Proof. vm_compute. reflexivity. Qed.
Example format_2f_tie : Py.format_2f (Py.of_decimal 1015 3 : Q) = "1.01".
Proof. vm_compute. reflexivity. Qed.
Example format_6e_tie : Py.format_6e (Py.of_decimal 10000005 2 : Q) = "1.000001e+05".
Proof. vm_compute. reflexivity. Qed.
Example repr_product :
  Py.repr (Py.fmul (Py.of_decimal 1 1) (Py.of_decimal 3 0) : Q) = "0.30000000000000004".
Proof. vm_compute. reflexivity. Qed.
Example repr_small : Py.repr (Py.of_decimal 1 5 : Q) = "1e-05".
Proof. vm_compute. reflexivity. Qed.
Example spin_box_clamped : Qt.spin_box [Qt.Value 100 0; Qt.Maximum 99999 0] = 99.
Proof. vm_compute. reflexivity. Qed.
Example double_spin_box_clamped :
  Qt.double_box_value [Qt.Value 1000 0; Qt.Maximum 1000000 0; Qt.Decimals 4] = (999900, 4%nat).
Proof. vm_compute. reflexivity. Qed.
Example double_spin_box_rounded :
  Qt.double_box_value [Qt.Value 9091 4; Qt.Maximum 1000000 0; Qt.Decimals 4] = (9100, 4%nat).
Proof. vm_compute. reflexivity. Qed.
Example double_spin_box_in_range :
  Qt.double_box_value [Qt.Value 9000 2; Qt.Maximum 10000 0] = (9000, 2%nat).
Proof. vm_compute. reflexivity. Qed.
Example default_file :
  (OS.files
     (match SolverGUI.init (F := Q) with
      | Py.Ok g => (Text.save "inputFile.txt" g quiet_world).2.2
      | Py.Raise _ => quiet_world
      end) !! "inputFile.txt")
  = (match SolverGUI.init (F := Q) with
     | Py.Ok g => Some (Text.text_of g)
     | Py.Raise _ => None
     end).
Proof. vm_compute. reflexivity. Qed.

(* ===================================================================== *)
(** ** Lists and strings *)
(* ===================================================================== *)

Lemma sapp_assoc (a b c : string) : (a +:+ b) +:+ c = a +:+ (b +:+ c).
Proof. induction a as [|x a IH]; [reflexivity | exact (f_equal (String x) IH)]. Qed.

Lemma sapp_nil_r (a : string) : a +:+ "" = a.
Proof. induction a as [|x a IH]; [reflexivity | exact (f_equal (String x) IH)]. Qed.

Lemma numbered_length n : length (numbered n) = n.
Proof. unfold numbered. by rewrite length_map, length_seq. Qed.

Lemma numbered_lookup n i :
  (i < n)%nat → numbered n !! i = Some ("B-" +:+ Py.str_int (Z.of_nat i + 1)).
Proof.
  intros Hi. unfold numbered.
  change (map ?f ?l) with (f <$> l).
  rewrite list_lookup_fmap, lookup_seq_lt by done. reflexivity.
Qed.

Lemma remove_first_map {A B} (f : A → B) (p : B → bool) (l : list A) :
  map f (Qt.remove_first (λ x, p (f x)) l) = Qt.remove_first p (map f l).
Proof.
  induction l as [|x l IH]; simpl; [reflexivity|].
  destruct (p (f x)); simpl; [reflexivity | by rewrite IH].
Qed.

Lemma remove_first_length_le {A} (p : A → bool) (l : list A) :
  (length (Qt.remove_first p l) ≤ length l)%nat.
Proof. induction l as [|x l IH]; simpl; [lia|]. destruct (p x); simpl; lia. Qed.

Lemma remove_first_length_ge {A} (p : A → bool) (l : list A) :
  (length l ≤ S (length (Qt.remove_first p l)))%nat.
Proof. induction l as [|x l IH]; simpl; [lia|]. destruct (p x); simpl; lia. Qed.

Lemma remove_first_In {A} (p : A → bool) (l : list A) x :
  In x (Qt.remove_first p l) → In x l.
Proof.
  induction l as [|y l IH]; simpl; [done|].
  destruct (p y); simpl; intuition.
Qed.

Lemma remove_first_NoDup {A} (p : A → bool) (l : list A) :
  NoDup l → NoDup (Qt.remove_first p l).
Proof.
  induction 1 as [|y l Hy Hl IH]; simpl; [constructor|].
  destruct (p y); [done|]. constructor; [|done].
  intros Hin. apply Hy. apply list_elem_of_In.
  eapply remove_first_In. by apply list_elem_of_In.
Qed.

(* ===================================================================== *)
(** ** Geometry tab: the boundary-file list *)
(* ===================================================================== *)

Module GeometryFacts.
Import GeometryTab.
Import Inv(geometry, geo_sync, geo_labels, geo_nonempty).
Local Abbreviation inv := geometry.

Lemma refresh_ui_rows self :
  map widget (boundary_rows (refresh_ui self)) = map widget (boundary_rows self).
Proof.
  unfold refresh_ui; simpl.
  apply list_eq; intros i.
  change (map ?f ?l) with (f <$> l).
  rewrite !list_lookup_fmap, list_lookup_imap.
  by destruct (boundary_rows self !! i).
Qed.

Lemma refresh_ui_length self :
  length (boundary_rows (refresh_ui self)) = length (boundary_rows self).
Proof. unfold refresh_ui; simpl. apply length_imap. Qed.

Lemma refresh_ui_labels self :
  map label (boundary_rows (refresh_ui self)) = numbered (length (boundary_rows self)).
Proof.
  unfold refresh_ui; simpl.
  apply list_eq; intros i.
  change (map ?f ?l) with (f <$> l).
  rewrite list_lookup_fmap, list_lookup_imap.
  destruct (boundary_rows self !! i) as [row|] eqn:Hi; simpl.
  - apply lookup_lt_Some in Hi. by rewrite numbered_lookup.
  - apply lookup_ge_None in Hi. symmetry. apply lookup_ge_None.
    by rewrite numbered_length.
Qed.

Lemma refresh_ui_texts self :
  map (λ row, Qt.text (edit row)) (boundary_rows (refresh_ui self))
  = map (λ row, Qt.text (edit row)) (boundary_rows self).
Proof.
  unfold refresh_ui; simpl.
  apply list_eq; intros i.
  change (map ?f ?l) with (f <$> l).
  rewrite !list_lookup_fmap, list_lookup_imap.
  by destruct (boundary_rows self !! i).
Qed.

Lemma refresh_ui_inv self :
  scroll_layout self = map widget (boundary_rows self) →
  (1 ≤ length (boundary_rows self))%nat →
  inv (refresh_ui self).
Proof.
  intros Hs Hn. split.
  - rewrite refresh_ui_rows. exact Hs.
  - rewrite refresh_ui_labels, refresh_ui_length. reflexivity.
  - by rewrite refresh_ui_length.
Qed.

Lemma geometry_init_inv w : inv (init w).
Proof. unfold init, add_boundary_row. apply refresh_ui_inv; simpl; [reflexivity | lia]. Qed.

Lemma add_boundary_row_inv w self : inv self → inv (add_boundary_row w self).
Proof.
  intros [Hs _ _]. unfold add_boundary_row. apply refresh_ui_inv; simpl.
  - by rewrite map_app, Hs.
  - rewrite length_app; simpl; lia.
Qed.

Lemma remove_boundary_row_inv w self : inv self → inv (remove_boundary_row w self).
Proof.
  intros Hinv. unfold remove_boundary_row.
  destruct (length (boundary_rows self) <=? 1)%nat eqn:Hlen; [done|].
  apply Nat.leb_gt in Hlen.
  apply refresh_ui_inv; simpl.
  - rewrite (geo_sync _ Hinv).
    rewrite <- (remove_first_map widget (Nat.eqb w)).
    f_equal. clear. induction (boundary_rows self) as [|r l IH]; simpl; [done|].
    rewrite (Nat.eqb_sym w). destruct (widget r =? w)%nat; [done | by rewrite IH].
  - pose proof (remove_first_length_ge (λ row, (widget row =? w)%nat) (boundary_rows self)).
    lia.
Qed.

Lemma set_boundary_file_inv i path self : inv self → inv (set_boundary_file i path self).
Proof.
  intros [Hs Hl Hn]. split; unfold set_boundary_file; simpl.
  - rewrite Hs. apply list_eq; intros j.
    change (map ?f ?l) with (f <$> l).
    rewrite !list_lookup_fmap, list_lookup_alter.
    case_decide; [subst|done]. by destruct (boundary_rows self !! _).
  - rewrite length_alter, <- Hl. apply list_eq; intros j.
    change (map ?f ?l) with (f <$> l).
    rewrite !list_lookup_fmap, list_lookup_alter.
    case_decide; [subst|done]. by destruct (boundary_rows self !! _).
  - by rewrite length_alter.
Qed.

(** With distinct containers, the layout shows each row under the label
    of its own entry. *)
Lemma displayed_labels_sync self :
  scroll_layout self = map widget (boundary_rows self) →
  NoDup (scroll_layout self) →
  displayed_labels self = map Some (map label (boundary_rows self)).
Proof.
  unfold displayed_labels. intros -> Hnd.
  induction (boundary_rows self) as [|r l IH]; simpl in *; [done|].
  apply NoDup_cons in Hnd as [Hr Hl].
  rewrite Nat.eqb_refl; simpl. f_equal.
  rewrite <- IH by done.
  apply map_ext_in. intros w Hw.
  destruct (widget r =? w)%nat eqn:E; [|done].
  apply Nat.eqb_eq in E. subst. by apply list_elem_of_In in Hw.
Qed.

End GeometryFacts.

(* ===================================================================== *)
(** ** Boundary tab: the rows of a sub-tab *)
(* ===================================================================== *)

Module BoundaryFacts.
Import Qt Shape BoundaryTab.
Section S.
Context {F : Type} `{Py.Float F}.

Lemma foldM_app {A B} (f : B → A → Py.Res B) b xs ys :
  Py.foldM f b (xs ++ ys) = (b' ← Py.foldM f b xs; Py.foldM f b' ys).
Proof.
  revert b. induction xs as [|x xs IH]; intros b; simpl; [reflexivity|].
  destruct (f b x); simpl; [apply IH | reflexivity].
Qed.

Lemma bc_item_lookup (rows : list (bc_row F)) i :
  map bc_item rows !! i = bc_item <$> rows !! i.
Proof. change (map ?f ?l) with (f <$> l). apply list_lookup_fmap. Qed.

(** One turn of the relabelling loop rewrites the label of row [i]. *)
Lemma refresh_bc_label_row (rows : list (bc_row F)) i r :
  rows !! i = Some r →
  refresh_bc_label (QBoxLayout (map bc_item rows)) i
  = Py.Ok (QBoxLayout (map bc_item (<[i := relabel i r]> rows))).
Proof.
  intros Hi. unfold refresh_bc_label. simpl.
  rewrite bc_item_lookup, Hi. simpl.
  unfold put_child. simpl. rewrite bc_item_lookup, Hi. simpl.
  do 2 f_equal.
  change (map ?f ?l) with (f <$> l). rewrite list_fmap_insert. reflexivity.
Qed.

Lemma refresh_loop (done todo : list (bc_row F)) :
  Py.foldM refresh_bc_label (QBoxLayout (map bc_item (done ++ todo)))
    (seq (length done) (length todo))
  = Py.Ok (QBoxLayout (map bc_item
      (done ++ imap (λ j, relabel (length done + j)) todo))).
Proof.
  revert done. induction todo as [|r todo IH]; intros done; simpl; [reflexivity|].
  rewrite (refresh_bc_label_row _ _ r) by (by apply list_lookup_middle).
  simpl.
  replace (<[length done := relabel (length done) r]> (done ++ r :: todo))
    with ((done ++ [relabel (length done) r]) ++ todo).
  2:{ rewrite <- app_assoc. simpl.
      rewrite insert_app_r_alt by lia. by rewrite Nat.sub_diag. }
  specialize (IH (done ++ [relabel (length done) r])).
  rewrite length_app in IH; simpl in IH.
  replace (length done + 1)%nat with (S (length done)) in IH by lia.
  rewrite IH. do 3 f_equal. rewrite <- app_assoc. simpl.
  rewrite Nat.add_0_r. do 2 f_equal.
  apply imap_ext. intros j x _. simpl. f_equal. lia.
Qed.

(** [_refresh_bc_labels] numbers every row and raises nothing. *)
Lemma refresh_bc_labels_rows (rows : list (bc_row F)) :
  _refresh_bc_labels (QBoxLayout (map bc_item rows))
  = Py.Ok (QBoxLayout (map bc_item (imap relabel rows))).
Proof.
  unfold _refresh_bc_labels. simpl. rewrite length_map.
  apply (refresh_loop [] rows).
Qed.

Lemma imap_relabel_labels (rows : list (bc_row F)) :
  map r_label (imap relabel rows) = numbered (length rows).
Proof.
  apply list_eq; intros i.
  change (map ?f ?l) with (f <$> l).
  rewrite list_lookup_fmap, list_lookup_imap.
  destruct (rows !! i) as [r|] eqn:Hi; simpl.
  - apply lookup_lt_Some in Hi. by rewrite numbered_lookup.
  - apply lookup_ge_None in Hi. symmetry. apply lookup_ge_None.
    by rewrite numbered_length.
Qed.

Lemma imap_relabel_tags (P : bool) (rows : list (bc_row F)) :
  Forall (λ r, has_tag r = P) rows → Forall (λ r, has_tag r = P) (imap relabel rows).
Proof.
  rewrite !Forall_lookup. intros Hall i r.
  rewrite list_lookup_imap. destruct (rows !! i) as [r0|] eqn:Hi; [|done].
  simpl. intros [= <-]. exact (Hall i r0 Hi).
Qed.

(** Rows that are numbered already are left as they are. *)
Lemma imap_relabel_id (rows : list (bc_row F)) :
  map r_label rows = numbered (length rows) → imap relabel rows = rows.
Proof.
  intros Hl. apply list_eq; intros i. rewrite list_lookup_imap.
  destruct (rows !! i) as [r|] eqn:Hi; [|done]. simpl. f_equal.
  assert (r_label r = "B-" +:+ Py.str_int (Z.of_nat i + 1)) as Hr.
  { pose proof (lookup_lt_Some _ _ _ Hi) as Hlt.
    pose proof (numbered_lookup _ _ Hlt) as Hn. rewrite <- Hl in Hn.
    change (map ?f ?l) with (f <$> l) in Hn.
    rewrite list_lookup_fmap, Hi in Hn. by injection Hn. }
  destruct r; unfold relabel; simpl in *. by rewrite Hr.
Qed.

Lemma relabelled_good name (rows : list (bc_row F)) :
  Forall (λ r, has_tag r = Py.contains "disp" name) rows →
  good_layout name (QBoxLayout (map bc_item (imap relabel rows))).
Proof.
  intros Ht. exists (imap relabel rows). split; [done|]. split.
  - by apply imap_relabel_tags.
  - by rewrite imap_relabel_labels, length_imap.
Qed.

Lemma add_bc_row_rows (rows : list (bc_row F)) name lbl w :
  add_bc_row (QBoxLayout (map bc_item rows)) name lbl w
  = Py.Ok (QBoxLayout (map bc_item (imap relabel (rows ++
      [fresh_row name w
         (default ("B-" +:+ Py.str_int (Z.of_nat (length rows) + 1)) lbl)])))).
Proof.
  unfold add_bc_row. rewrite <- refresh_bc_labels_rows.
  f_equal. simpl. rewrite map_app, length_map. simpl. do 3 f_equal.
  unfold bc_item, bc_layout, fresh_row; simpl.
  by destruct (Py.contains "disp" name).
Qed.

Lemma fresh_row_tag name w lbl : has_tag (fresh_row name w lbl) = Py.contains "disp" name.
Proof. unfold has_tag, fresh_row; simpl. by destruct (Py.contains "disp" name). Qed.

Lemma add_bc_row_good name (l : Layout F) lbl w :
  good_layout name l → ∃ l', add_bc_row l name lbl w = Py.Ok l' ∧ good_layout name l'.
Proof.
  intros (rows & -> & Ht & _). rewrite add_bc_row_rows. eexists; split; [reflexivity|].
  apply relabelled_good. apply Forall_app; split; [done|].
  constructor; [apply fresh_row_tag | constructor].
Qed.

Lemma remove_first_bc_item (w : wid) (rows : list (bc_row F)) :
  remove_first (item_is w) (map bc_item rows)
  = map bc_item (remove_first (λ r, Nat.eqb (r_id r) w) rows).
Proof.
  induction rows as [|r rows IH]; simpl; [done|].
  destruct (r_id r =? w)%nat; simpl; [done | by rewrite IH].
Qed.

Lemma remove_first_Forall {A} (P : A → Prop) p (l : list A) :
  Forall P l → Forall P (remove_first p l).
Proof.
  induction 1 as [|x l Hx Hl IH]; simpl; [constructor|].
  destruct (p x); [done | by constructor].
Qed.

Lemma remove_generic_row_good name (l : Layout F) w :
  good_layout name l → ∃ l', remove_generic_row l w = Py.Ok l' ∧ good_layout name l'.
Proof.
  intros (rows & -> & Ht & _). unfold remove_generic_row, removeWidget.
  rewrite remove_first_bc_item, refresh_bc_labels_rows.
  eexists; split; [reflexivity|]. apply relabelled_good.
  by apply remove_first_Forall.
Qed.

(** *** The dict of layouts *)

Lemma dict_get_In {V} (d : list (string * V)) k v :
  Py.dict_get d k = Some v → In (k, v) d.
Proof.
  induction d as [|[k' v'] d IH]; simpl; [done|].
  destruct (String.eqb_spec k' k) as [->|]; [intros [= ->]; by left | right; auto].
Qed.

Lemma dict_get_keys {V} (d : list (string * V)) k :
  In k (map fst d) → ∃ v, Py.dict_get d k = Some v.
Proof.
  induction d as [|[k' v'] d IH]; simpl; [done|].
  destruct (String.eqb_spec k' k) as [->|Hne]; [eauto|].
  intros [?|?]; [done | auto].
Qed.

Lemma dict_set_keys {V} (d : list (string * V)) k v :
  In k (map fst d) → map fst (dict_set d k v) = map fst d.
Proof.
  induction d as [|[k' v'] d IH]; simpl; [done|].
  destruct (String.eqb_spec k' k) as [->|Hne]; simpl; [done|].
  intros [?|?]; [done | by rewrite IH].
Qed.

Lemma dict_set_Forall {V} (P : string * V → Prop) d k v :
  Forall P d → P (k, v) → Forall P (dict_set d k v).
Proof.
  intros Hd Hv. induction Hd as [|[k' v'] d Hx Hd IH]; simpl.
  - by constructor.
  - destruct (String.eqb_spec k' k) as [->|Hne]; by constructor.
Qed.

Lemma dict_get_set {V} (d : list (string * V)) k v :
  In k (map fst d) → Py.dict_get (dict_set d k v) k = Some v.
Proof.
  induction d as [|[k' v'] d IH]; simpl; [done|].
  destruct (String.eqb_spec k' k) as [->|Hne]; simpl.
  - by rewrite String.eqb_refl.
  - intros [?|?]; [done|]. destruct (String.eqb_spec k' k); [done | auto].
Qed.

Local Abbreviation inv := (@Inv.boundary F).

Lemma inv_lookup bt name :
  inv bt → In name TAB_NAMES →
  ∃ l, Py.dict_get (bc_layouts bt) name = Some l ∧ good_layout name l.
Proof.
  intros Hinv Hname.
  destruct (dict_get_keys (bc_layouts bt) name) as [l Hl].
  { by rewrite (Inv.bt_keys _ Hinv). }
  exists l; split; [done|].
  apply dict_get_In in Hl.
  pose proof (Inv.bt_good _ Hinv) as Hg. rewrite Forall_forall in Hg.
  apply (Hg (name, l)). by apply list_elem_of_In.
Qed.

Lemma inv_set bt name l ic tabs ref :
  inv bt → In name TAB_NAMES → good_layout name l →
  tab_titles tabs = TAB_NAMES → (tab_index tabs < 7)%nat →
  inv {| init_cond_widgets := ic; bc_tabs := tabs;
         bc_layouts := dict_set (bc_layouts bt) name l;
         geometry_boundary_rows := ref |}.
Proof.
  intros Hinv Hname Hl Ht Hi. split; simpl; [done | done | |].
  - rewrite dict_set_keys; [apply Hinv | by rewrite (Inv.bt_keys _ Hinv)].
  - apply dict_set_Forall; [apply Hinv | done].
Qed.

Lemma click_add_inv tab w bt :
  inv bt → In tab TAB_NAMES → ∃ bt', click_add tab w bt = Py.Ok bt' ∧ inv bt'.
Proof.
  intros Hinv Htab. destruct (inv_lookup _ _ Hinv Htab) as (l & Hl & Hg).
  unfold click_add, Py.dict_getitem. rewrite Hl. simpl.
  destruct (add_bc_row_good tab l None w Hg) as (l' & -> & Hg'). simpl.
  eexists; split; [reflexivity|]. apply inv_set; try done; apply Hinv.
Qed.

Lemma click_delete_inv tab w bt :
  inv bt → In tab TAB_NAMES → ∃ bt', click_delete tab w bt = Py.Ok bt' ∧ inv bt'.
Proof.
  intros Hinv Htab. destruct (inv_lookup _ _ Hinv Htab) as (l & Hl & Hg).
  unfold click_delete, Py.dict_getitem. rewrite Hl. simpl.
  destruct (remove_generic_row_good tab l w Hg) as (l' & -> & Hg'). simpl.
  eexists; split; [reflexivity|]. apply inv_set; try done; apply Hinv.
Qed.

(** User input into one child of a row: the row keeps its composition,
    its identity and its label. *)
Lemma user_input_row (r : bc_row F) k w w' :
  itemAt (bc_layout r) k = Some (QWidgetItem w) →
  ∃ r', put_item k (user_input w' w) (bc_layout r) = bc_layout r' ∧
        r_id r' = r_id r ∧ r_label r' = r_label r ∧ has_tag r' = has_tag r.
Proof.
  destruct r as [id lbl nm ty v tg]. unfold bc_layout, has_tag; simpl.
  destruct tg as [n|]; simpl;
    do 9 (destruct k as [|k]; simpl; [intros [= <-]; destruct w'; simpl;
      first [ by (eexists (Build_bc_row _ _ _ _ _ (Some _)); simpl; repeat split)
            | by (eexists (Build_bc_row _ _ _ _ _ None); simpl; repeat split) ] |]);
    try done.
Qed.

Lemma edit_field_inv tab i k w' bt : inv bt → inv (edit_field tab i k w' bt).
Proof.
  intros Hinv. unfold edit_field.
  destruct (Py.dict_get (bc_layouts bt) tab) as [l|] eqn:Hl; [|done].
  pose proof (dict_get_In _ _ _ Hl) as Hin.
  assert (good_layout tab l) as (rows & -> & Ht & Hlab).
  { pose proof (Inv.bt_good _ Hinv) as Hg. rewrite Forall_forall in Hg.
    apply (Hg (tab, l)). by apply list_elem_of_In. }
  cbn [itemAt]. rewrite bc_item_lookup.
  destruct (rows !! i) as [r|] eqn:Hi; [|done].
  cbn [fmap option_fmap option_map bc_item].
  destruct (itemAt (bc_layout r) k) as [[w| |]|] eqn:Hk; try done.
  destruct (user_input_row r k w w' Hk) as (r' & Hr' & Hid & Hlbl & Htag).
  destruct Hinv as [H1 H2 H3 H4].
  split; simpl; [done | done | |].
  - rewrite dict_set_keys; [done|]. apply (in_map fst) in Hin. done.
  - apply dict_set_Forall; [done|]. simpl.
    exists (<[i := r']> rows). split; [|split].
    + unfold put_child. cbn [itemAt]. rewrite bc_item_lookup, Hi.
      cbn [fmap option_fmap option_map bc_item put_item].
      rewrite Hr'. f_equal.
      change (map ?f ?l) with (f <$> l). rewrite list_fmap_insert.
      unfold bc_item. by rewrite Hid.
    + apply Forall_insert; [done|]. rewrite Htag.
      rewrite Forall_lookup in Ht. exact (Ht i r Hi).
    + rewrite length_insert, <- Hlab.
      change (map ?f ?l) with (f <$> l). rewrite list_fmap_insert, Hlbl.
      apply list_insert_id. by rewrite list_lookup_fmap, Hi.
Qed.

End S.
End BoundaryFacts.

(* ===================================================================== *)
(** ** Boundary tab: [refresh_active_boundary_tab] *)
(* ===================================================================== *)

Module RefreshFacts.
Import Qt Shape BoundaryTab BoundaryFacts.
Section S.
Context {F : Type} `{Py.Float F}.

Lemma take_all_empty (its : list (LayoutItem F)) :
  take_all (length its) (QBoxLayout its) = QBoxLayout [].
Proof. induction its as [|it its IH]; simpl; [reflexivity | exact IH]. Qed.

Lemma numbered_S n :
  numbered (S n) = numbered n ++ ["B-" +:+ Py.str_int (Z.of_nat n + 1)].
Proof. unfold numbered. by rewrite seq_S, map_app. Qed.

(** One turn of the loop appends the row of index [i]. *)
Lemma refresh_row_rows initial grows name w0 (rows : list (bc_row F)) :
  map r_label rows = numbered (length rows) →
  refresh_row initial grows name w0 (QBoxLayout (map bc_item rows)) (length rows)
  = Py.Ok (QBoxLayout (map bc_item
      (rows ++ [refreshed_row initial grows name w0 (length rows)]))).
Proof.
  intros Hlab. unfold refresh_row.
  rewrite add_bc_row_rows. cbn [default mbind Py.Res_bind].
  rewrite imap_relabel_id.
  2:{ rewrite map_app, length_app, Hlab. simpl.
      replace (length rows + 1)%nat with (S (length rows)) by lia.
      by rewrite numbered_S. }
  unfold refreshed_row.
  destruct (negb initial && (length rows <? length grows)%nat) eqn:Hc; [|reflexivity].
  destruct (grows !! length rows) as [row|] eqn:Hrow.
  2:{ apply lookup_ge_None in Hrow. apply andb_true_iff in Hc as [_ Hc].
      apply Nat.ltb_lt in Hc. lia. }
  cbn [mret Py.Res_ret mbind Py.Res_bind].
  destruct (negb (Qt.text (GeometryTab.edit row) =? "")%string); [|reflexivity].
  cbn [itemAt]. rewrite bc_item_lookup, list_lookup_middle by done.
  cbn [fmap option_fmap option_map recv mbind Py.Res_bind bc_item item_widget Qt.layout].
  unfold put_child. cbn [itemAt]. rewrite bc_item_lookup, list_lookup_middle by done.
  cbn. do 2 f_equal.
  rewrite !map_app. rewrite insert_app_r_alt by (rewrite length_map; lia).
  rewrite length_map, Nat.sub_diag. reflexivity.
Qed.

Lemma refreshed_labels initial grows name w0 n :
  map r_label (map (refreshed_row (F := F) initial grows name w0) (seq 0 n)) = numbered n.
Proof.
  unfold numbered. rewrite map_map. apply map_ext. intros i.
  unfold refreshed_row.
  destruct (negb initial && _); [|reflexivity].
  destruct (grows !! i); [|reflexivity].
  by destruct (negb _).
Qed.

Lemma refreshed_tags initial grows name w0 n :
  Forall (λ r, has_tag r = Py.contains "disp" name)
    (map (refreshed_row (F := F) initial grows name w0) (seq 0 n)).
Proof.
  apply Forall_forall. intros r Hr. apply list_elem_of_In, in_map_iff in Hr as (i & <- & _).
  unfold refreshed_row.
  destruct (negb initial && _); [|apply fresh_row_tag].
  destruct (grows !! i); [|apply fresh_row_tag].
  destruct (negb _); [|apply fresh_row_tag].
  unfold has_tag, set_name, fresh_row; simpl. by destruct (Py.contains "disp" name).
Qed.

(** The loop builds rows [0] to [n - 1]. *)
Lemma refresh_rows_loop initial grows name w0 n :
  Py.foldM (refresh_row initial grows name w0) (QBoxLayout []) (seq 0 n)
  = Py.Ok (QBoxLayout (map bc_item (map (refreshed_row initial grows name w0) (seq 0 n)))).
Proof.
  induction n as [|n IH]; [reflexivity|].
  rewrite seq_S, foldM_app, IH. cbn [mbind Py.Res_bind Py.foldM plus].
  pose proof (refresh_row_rows initial grows name w0
                (map (refreshed_row initial grows name w0) (seq 0 n))) as Hrow.
  rewrite length_map, length_seq in Hrow.
  rewrite Hrow by apply refreshed_labels.
  cbn [mbind Py.Res_bind]. by rewrite !map_app.
Qed.

(** The name of the open sub-tab is one of the seven. *)
Lemma open_tab_name (bt : BoundaryTab.t F) :
  Inv.boundary bt → In (tabText (bc_tabs bt) (tab_index (bc_tabs bt))) TAB_NAMES.
Proof.
  intros [Ht Hi _ _]. unfold tabText. rewrite Ht.
  destruct (tab_index (bc_tabs bt)) as [|[|[|[|[|[|[|]]]]]]]; simpl; try lia; tauto.
Qed.

(** [refresh_active_boundary_tab] replaces the rows of the open sub-tab
    and raises nothing. *)
Lemma refresh_active_boundary_tab_rows initial grows w0 (bt : BoundaryTab.t F) :
  Inv.boundary bt →
  refresh_active_boundary_tab initial grows w0 bt
  = Py.Ok {| init_cond_widgets := init_cond_widgets bt;
             bc_tabs := bc_tabs bt;
             bc_layouts :=
               dict_set (bc_layouts bt) (tabText (bc_tabs bt) (tab_index (bc_tabs bt)))
                 (QBoxLayout (map bc_item
                    (map (refreshed_row initial grows
                            (tabText (bc_tabs bt) (tab_index (bc_tabs bt))) w0)
                       (seq 0 (if initial then 1%nat else length grows)))));
             geometry_boundary_rows := geometry_boundary_rows bt |}.
Proof.
  intros Hinv. unfold refresh_active_boundary_tab.
  destruct (inv_lookup _ _ Hinv (open_tab_name _ Hinv)) as (l & Hl & rows & -> & _).
  unfold Py.dict_getitem. rewrite Hl. cbn [mbind Py.Res_bind count].
  rewrite take_all_empty, refresh_rows_loop. reflexivity.
Qed.

Lemma refresh_active_boundary_tab_inv initial grows w0 (bt : BoundaryTab.t F) :
  Inv.boundary bt →
  ∃ bt', refresh_active_boundary_tab initial grows w0 bt = Py.Ok bt' ∧ Inv.boundary bt'.
Proof.
  intros Hinv. rewrite refresh_active_boundary_tab_rows by done.
  eexists; split; [reflexivity|].
  apply inv_set; [done | by apply open_tab_name | | apply Hinv | apply Hinv].
  eexists; split; [reflexivity|]. split.
  - apply refreshed_tags.
  - by rewrite refreshed_labels, length_map, length_seq.
Qed.

End S.
End RefreshFacts.

(* ===================================================================== *)
(** ** Prescribed tab and output tab: the rows keep their composition *)
(* ===================================================================== *)

Module RowFacts.
Import Qt Shape.
Section S.
Context {F : Type} `{Py.Float F}.

Lemma add_prescribed_tag_groups w (pt : PrescribedTab.t F) :
  Inv.prescribed pt → Inv.prescribed (PrescribedTab.add_prescribed_tag w pt).
Proof.
  intros [groups Hg]. unfold PrescribedTab.add_prescribed_tag; simpl.
  exists (groups ++
    [{| g_id := w;
        heave_amp := Py.of_decimal 100 2; heave_freq := Py.of_decimal 20 2;
        heave_phase := Py.of_decimal 9000 2;
        pitch_amp := Py.of_decimal 3000 2; pitch_freq := Py.of_decimal 20 2;
        pitch_phase := Py.of_decimal 0 2;
        morph_amp := Py.of_decimal 2000 2; morph_freq := Py.of_decimal 20 2;
        morph_phase := Py.of_decimal 0 2;
        morph_div := 99; morph_pos := Py.of_decimal 0 2;
        le_x := Py.of_decimal 0 2; le_y := Py.of_decimal 0 2 |}]).
  unfold Inv.prescribed; simpl. rewrite Hg, map_app. reflexivity.
Qed.

Lemma init_groups w : Inv.prescribed (PrescribedTab.init (F := F) w).
Proof. apply add_prescribed_tag_groups. by exists []. Qed.

(** User input into one cell of a group. *)
Lemma edit_group (grp : group F) gr n w' :
  ∃ grp',
    match group_widget grp with
    | QWidget id (QBoxLayout its) =>
        QWidget id (QBoxLayout
          (alter (λ it,
             match it with
             | QLayoutItem (QGridLayout cs) =>
                 QLayoutItem (QGridLayout (alter (λ c, (c.1, user_input w' c.2)) n cs))
             | _ => it
             end) gr its))
    | _ => group_widget grp
    end = group_widget grp'.
Proof.
  destruct grp. unfold group_widget; simpl.
  destruct gr as [|[|[|gr]]]; simpl.
  - do 18 (destruct n as [|n]; simpl;
      [destruct w'; simpl; by eexists (Build_group _ _ _ _ _ _ _ _ _ _ _ _ _ _)|]).
    by eexists (Build_group _ _ _ _ _ _ _ _ _ _ _ _ _ _).
  - by eexists (Build_group _ _ _ _ _ _ _ _ _ _ _ _ _ _).
  - do 8 (destruct n as [|n]; simpl;
      [destruct w'; simpl; by eexists (Build_group _ _ _ _ _ _ _ _ _ _ _ _ _ _)|]).
    by eexists (Build_group _ _ _ _ _ _ _ _ _ _ _ _ _ _).
  - by eexists (Build_group _ _ _ _ _ _ _ _ _ _ _ _ _ _).
Qed.

Lemma edit_cell_groups i gr n w' (pt : PrescribedTab.t F) :
  Inv.prescribed pt → Inv.prescribed (PrescribedTab.edit_cell i gr n w' pt).
Proof.
  intros [groups Hg]. unfold Inv.prescribed, PrescribedTab.edit_cell; simpl.
  rewrite Hg.
  destruct (groups !! i) as [grp|] eqn:Hi.
  - destruct (edit_group grp gr n w') as [grp' Hgrp'].
    exists (<[i := grp']> groups).
    change (map ?f ?l) with (f <$> l).
    rewrite list_fmap_insert, <- Hgrp'.
    apply list_eq. intros j. rewrite list_lookup_alter, list_lookup_insert.
    rewrite !list_lookup_fmap.
    case_decide as Hij.
    + subst j. rewrite Hi. simpl.
      rewrite decide_True; [done|].
      split; [done|]. rewrite length_fmap. by eapply lookup_lt_Some.
    + rewrite decide_False; [done|]. tauto.
  - exists groups. f_equal.
    apply list_eq. intros j. rewrite list_lookup_alter.
    case_decide; [subst|done].
    change (map ?f ?l) with (f <$> l).
    by rewrite list_lookup_fmap, Hi.
Qed.

(** *** Output lists *)

Lemma add_output_row_list (l : Layout F) placeholder w :
  Inv.output_list l → Inv.output_list (OutputTab.add_output_row l placeholder w).
Proof.
  intros [rows ->].
  exists (rows ++ [{| o_id := w; o_edit := {| text := ""; placeholderText := placeholder |} |}]).
  unfold OutputTab.add_output_row; simpl. by rewrite map_app.
Qed.

Lemma remove_output_row_list (l : Layout F) w :
  Inv.output_list l → Inv.output_list (OutputTab.remove_generic_row l w).
Proof.
  intros [rows ->].
  exists (remove_first (λ r, Nat.eqb (o_id r) w) rows).
  unfold OutputTab.remove_generic_row; simpl. f_equal.
  induction rows as [|r rows IH]; simpl; [done|].
  destruct (o_id r =? w)%nat; simpl; [done | by rewrite IH].
Qed.

Lemma output_item_lookup (rows : list output_row) i :
  map (output_item (F := F)) rows !! i = output_item <$> rows !! i.
Proof. change (map ?f ?l) with (f <$> l). apply list_lookup_fmap. Qed.

Lemma edit_output_row_list (l : Layout F) i txt :
  Inv.output_list l → Inv.output_list (OutputTab.edit_row i txt l).
Proof.
  intros [rows ->]. unfold OutputTab.edit_row. cbn [itemAt].
  rewrite output_item_lookup.
  destruct (rows !! i) as [r|] eqn:Hi; [|by exists rows].
  simpl. unfold put_child. cbn [itemAt]. rewrite output_item_lookup, Hi. simpl.
  exists (<[i := {| o_id := o_id r;
                    o_edit := {| text := txt; placeholderText := placeholderText (o_edit r) |} |}]>
            rows).
  f_equal. change (map ?f ?l) with (f <$> l). by rewrite list_fmap_insert.
Qed.

Lemma init_output_lists w :
  Inv.output_list (OutputTab.probe_layout (OutputTab.init (F := F) w)) ∧
  Inv.output_list (OutputTab.surf_layout (OutputTab.init (F := F) w)).
Proof. split; apply add_output_row_list; by exists []. Qed.

End S.
End RowFacts.

(* ===================================================================== *)
(** ** Every form a session reaches is in order *)
(* ===================================================================== *)

Module SessionFacts.
Import Qt Shape Session.
Section S.
Context {F : Type} `{Py.Float F}.

Implicit Types g : SolverGUI.t F.

Lemma init_boundary w0 :
  ∃ bt, BoundaryTab.init (F := F) w0 = Py.Ok bt ∧ Inv.boundary bt.
Proof.
  unfold BoundaryTab.init. apply RefreshFacts.refresh_active_boundary_tab_inv.
  split; simpl; [done | lia | done |].
  repeat constructor; exists []; simpl; repeat split; constructor.
Qed.

Lemma gui_init_inv g : SolverGUI.init = Py.Ok g → Inv.gui g.
Proof.
  unfold SolverGUI.init.
  destruct (init_boundary 1) as (bt & -> & Hbt). cbn [mbind Py.Res_bind mret Py.Res_ret].
  intros [= <-]. split.
  - exact (GeometryFacts.geometry_init_inv 0).
  - destruct Hbt. by split.
  - reflexivity.
  - exact (RowFacts.init_groups 2).
  - exact (proj1 (RowFacts.init_output_lists 3)).
  - exact (proj2 (RowFacts.init_output_lists 3)).
  - simpl. apply NoDup_singleton.
  - simpl. repeat constructor.
Qed.

Lemma Forall_lt_mono (l : list wid) n m :
  (n ≤ m)%nat → Forall (λ w, (w < n)%nat) l → Forall (λ w, (w < m)%nat) l.
Proof. intros Hnm Hl. eapply Forall_impl; [exact Hl|]. simpl; intros; lia. Qed.

Lemma boundary_step g bt n :
  Inv.gui g → Inv.boundary bt →
  BoundaryTab.geometry_boundary_rows bt = BoundaryTab.GeometryRows →
  Inv.gui (created n (with_boundary bt g)).
Proof.
  intros [] Hbt Href. split; simpl; try done.
  eapply Forall_lt_mono; [|done]. lia.
Qed.

Lemma created_0 g bt : created 0 (with_boundary bt g) = with_boundary bt g.
Proof. unfold created; simpl. by rewrite Nat.add_0_r. Qed.

Lemma click_add_ref tab w (bt bt' : BoundaryTab.t F) :
  BoundaryTab.click_add tab w bt = Py.Ok bt' →
  BoundaryTab.geometry_boundary_rows bt' = BoundaryTab.geometry_boundary_rows bt.
Proof.
  unfold BoundaryTab.click_add.
  destruct (Py.dict_getitem _ _); simpl; [|done].
  destruct (BoundaryTab.add_bc_row _ _ _ _); simpl; [|done].
  by intros [= <-].
Qed.

Lemma click_delete_ref tab w (bt bt' : BoundaryTab.t F) :
  BoundaryTab.click_delete tab w bt = Py.Ok bt' →
  BoundaryTab.geometry_boundary_rows bt' = BoundaryTab.geometry_boundary_rows bt.
Proof.
  unfold BoundaryTab.click_delete.
  destruct (Py.dict_getitem _ _); simpl; [|done].
  destruct (BoundaryTab.remove_generic_row _ _); simpl; [|done].
  by intros [= <-].
Qed.

Lemma edit_field_ref tab i k w' (bt : BoundaryTab.t F) :
  BoundaryTab.geometry_boundary_rows (BoundaryTab.edit_field tab i k w' bt)
  = BoundaryTab.geometry_boundary_rows bt.
Proof.
  unfold BoundaryTab.edit_field.
  destruct (Py.dict_get _ _); [|done].
  destruct (itemAt _ _) as [[[]| |]|]; try done.
  destruct (itemAt _ _) as [[| |]|]; done.
Qed.

Lemma step_inv g g' : Inv.gui g → step g g' → Inv.gui g'.
Proof.
  intros Hg Hstep. destruct Hstep.
  - (* mesh configuration *)
    destruct Hg as [[] ? ? ? ? ? ? ?]. split; try done; by split.
  - (* add a boundary file *)
    destruct Hg as [Hgeo ? ? ? ? ? Hnd Hlt]. split; simpl; try done.
    + by apply GeometryFacts.add_boundary_row_inv.
    + apply NoDup_app; repeat split; [done | | apply NoDup_singleton].
      intros w Hw ->%list_elem_of_singleton. rewrite Forall_forall in Hlt.
      apply Hlt in Hw. lia.
    + apply Forall_app; split.
      * eapply Forall_lt_mono; [|done]. lia.
      * repeat constructor. lia.
  - (* remove a boundary file *)
    destruct Hg as [Hgeo ? ? ? ? ? Hnd Hlt]. split; simpl; try done.
    + by apply GeometryFacts.remove_boundary_row_inv.
    + unfold GeometryTab.remove_boundary_row. destruct (_ <=? 1)%nat; [done|].
      simpl. by apply remove_first_NoDup.
    + unfold GeometryTab.remove_boundary_row. destruct (_ <=? 1)%nat; [done|].
      simpl. by apply BoundaryFacts.remove_first_Forall.
  - (* a boundary file name *)
    destruct Hg as [Hgeo ? ? ? ? ? Hnd Hlt]. split; simpl; try done.
    by apply GeometryFacts.set_boundary_file_inv.
  - (* solver form *)
    destruct Hg. by split.
  - (* physical form *)
    destruct Hg. by split.
  - (* non-dimensional numbers *)
    destruct Hg. by split.
  - (* initial conditions *)
    destruct Hg as [? [] ? ? ? ? ? ?]. split; try done; by split.
  - (* open a sub-tab *)
    destruct Hg as [? [Ht Hi Hk Hgd] ? ? ? ? ? ?]. split; simpl; try done.
    split; simpl; try done.
    + unfold setCurrentIndex. by destruct (_ <? _)%nat.
    + unfold setCurrentIndex. destruct (_ <? _)%nat eqn:E; [|done].
      simpl. apply Nat.ltb_lt in E. by rewrite Ht in E.
  - (* add a boundary condition *)
    revert H1. unfold add_bc_row.
    destruct (BoundaryFacts.click_add_inv tab (SolverGUI.next_id g) _
                (Inv.gui_boundary _ Hg) H0) as (bt' & Hbt' & Hinv').
    rewrite Hbt'. cbn [mbind Py.Res_bind mret Py.Res_ret]. intros [= <-].
    apply boundary_step; [done | done |].
    rewrite (click_add_ref _ _ _ _ Hbt'). apply Hg.
  - (* delete a boundary condition *)
    revert H1. unfold remove_bc_row.
    destruct (BoundaryFacts.click_delete_inv tab w _
                (Inv.gui_boundary _ Hg) H0) as (bt' & Hbt' & Hinv').
    rewrite Hbt'. cbn [mbind Py.Res_bind mret Py.Res_ret]. intros [= <-].
    rewrite <- created_0.
    apply boundary_step; [done | done |].
    rewrite (click_delete_ref _ _ _ _ Hbt'). apply Hg.
  - (* a field of a boundary condition *)
    unfold edit_bc_field.
    rewrite <- created_0.
    apply boundary_step; [done | |].
    + apply BoundaryFacts.edit_field_inv, Hg.
    + rewrite edit_field_ref. apply Hg.
  - (* refresh the open sub-tab *)
    revert H0. unfold refresh_active_boundary_tab.
    rewrite RefreshFacts.refresh_active_boundary_tab_rows by apply Hg.
    cbn [mbind Py.Res_bind mret Py.Res_ret]. intros [= <-].
    apply boundary_step; [done | | apply Hg].
    pose proof (RefreshFacts.refresh_active_boundary_tab_inv false
      (SolverGUI.deref g (BoundaryTab.geometry_boundary_rows (SolverGUI.boundary_tab g)))
      (SolverGUI.next_id g) _ (Inv.gui_boundary _ Hg)) as (bt' & Hbt' & Hinv').
    rewrite RefreshFacts.refresh_active_boundary_tab_rows in Hbt' by apply Hg.
    by injection Hbt' as <-.
  - (* add a prescribed tag *)
    destruct Hg. split; simpl; try done.
    + by apply RowFacts.add_prescribed_tag_groups.
    + eapply Forall_lt_mono; [|done]. lia.
  - (* a field of a prescribed tag *)
    destruct Hg. split; simpl; try done.
    by apply RowFacts.edit_cell_groups.
  - (* add a probe file *)
    destruct Hg. split; simpl; try done.
    + by apply RowFacts.add_output_row_list.
    + eapply Forall_lt_mono; [|done]. lia.
  - (* add a surface file *)
    destruct Hg. split; simpl; try done.
    + by apply RowFacts.add_output_row_list.
    + eapply Forall_lt_mono; [|done]. lia.
  - destruct Hg. split; simpl; try done. by apply RowFacts.remove_output_row_list.
  - destruct Hg. split; simpl; try done. by apply RowFacts.remove_output_row_list.
  - destruct Hg. split; simpl; try done. by apply RowFacts.edit_output_row_list.
  - destruct Hg. split; simpl; try done. by apply RowFacts.edit_output_row_list.
Qed.

(** The invariant of the form. *)
Lemma reachable_inv g : reachable g → Inv.gui g.
Proof.
  induction 1 as [g Hg | g g' _ IH Hstep]; [by apply gui_init_inv | by eapply step_inv].
Qed.

End S.
End SessionFacts.

(* ===================================================================== *)
(** ** What the collection loops gather *)
(* ===================================================================== *)

Module CollectFacts.
Import Qt Shape Text SolverGUI.
Section S.
Context {F : Type} `{Py.Float F}.

(** A loop over the positions of a list is a loop over its elements. *)
Lemma foldM_lookup_from {A B} (f : B → nat → Py.Res B) (g : B → A → Py.Res B)
    (l1 l2 : list A) :
  (∀ b i x, (l1 ++ l2) !! i = Some x → f b i = g b x) →
  ∀ b, Py.foldM f b (seq (length l1) (length l2)) = Py.foldM g b l2.
Proof.
  revert l1. induction l2 as [|x l2 IH]; intros l1 Hfg b; simpl; [reflexivity|].
  rewrite (Hfg b (length l1) x) by (by apply list_lookup_middle).
  destruct (g b x) as [b'|e]; simpl; [|reflexivity].
  specialize (IH (l1 ++ [x])). rewrite length_app in IH. simpl in IH.
  replace (length l1 + 1)%nat with (S (length l1)) in IH by lia.
  apply IH. intros b0 i y. rewrite <- app_assoc. apply Hfg.
Qed.

Lemma foldM_lookup {A B} (f : B → nat → Py.Res B) (g : B → A → Py.Res B) (l : list A) :
  (∀ b i x, l !! i = Some x → f b i = g b x) →
  ∀ b, Py.foldM f b (seq 0 (length l)) = Py.foldM g b l.
Proof. intros Hfg. exact (foldM_lookup_from f g [] l Hfg). Qed.

Lemma omap_encoded {A B} (enc : A → B) (dec : B → option A) (l : list A) :
  (∀ x, dec (enc x) = Some x) → omap dec (map enc l) = l.
Proof.
  intros Hdec. induction l as [|x l IH]; [reflexivity|].
  cbn [map omap list_omap]. rewrite Hdec. f_equal. exact IH.
Qed.

Lemma rows_of_items (rows : list (bc_row F)) :
  rows_of (QBoxLayout (map bc_item rows)) = rows.
Proof. apply omap_encoded. by intros [id l e c v [n|]]. Qed.

Lemma groups_of_widgets (groups : list (group F)) :
  omap group_of (map group_widget groups) = groups.
Proof. apply omap_encoded. by intros []. Qed.

Lemma output_rows_of_items (rows : list output_row) :
  output_rows_of (QBoxLayout (map (output_item (F := F)) rows)) = rows.
Proof. apply omap_encoded. by intros []. Qed.

Lemma gathered_nil d a (acc : bc_lists F) : gathered d a acc [] = acc.
Proof. destruct acc. unfold gathered. destruct d, a; simpl; by rewrite app_nil_r. Qed.

Lemma gathered_app d a (acc : bc_lists F) xs ys :
  gathered d a (gathered d a acc xs) ys = gathered d a acc (xs ++ ys).
Proof. unfold gathered. destruct d, a; simpl; by rewrite app_assoc. Qed.

(** The loop of one tab gathers the rows whose type is not [None]. *)
Lemma collect_rows var is_disp is_acoustic (rows : list (bc_row F)) acc :
  Forall (λ r, has_tag r = is_disp) rows →
  Py.foldM (collect_row var is_disp is_acoustic (QBoxLayout (map bc_item rows))) acc
    (seq 0 (count (QBoxLayout (map bc_item rows))))
  = Py.Ok (gathered is_disp is_acoustic acc
             (map bc_data_of (List.filter selected (map (pair var) rows)))).
Proof.
  intros Htag. cbn [count].
  erewrite foldM_lookup.
  2:{ intros b i x Hx. unfold collect_row. cbn [itemAt]. rewrite Hx.
      cbn [recv mbind Py.Res_bind]. reflexivity. }
  revert acc. induction Htag as [|r rows Hr Hrows IH]; intros acc.
  - simpl. by rewrite gathered_nil.
  - cbn [map Py.foldM].
    assert (∀ (X : Type) (k : bc_lists F → Py.Res X),
      (match item_widget (bc_item r) with
       | Some row_widget =>
           let row_h_layout := Qt.layout row_widget in
           child row_h_layout 1 ≫= λ name,
           widget_text name ≫= λ nodes,
           child row_h_layout 3 ≫= λ type_combo,
           widget_currentText type_combo ≫= λ current,
           let type_text := Py.lower current in
           if (type_text =? "none")%string then mret acc
           else
             child row_h_layout 5 ≫= λ val_spin,
             widget_value val_spin ≫= λ val,
             if is_disp then
               child row_h_layout 7 ≫= λ tag_spin,
               widget_value tag_spin ≫= λ tag,
               mret {| flow_bcs := flow_bcs acc;
                       mesh_bcs := mesh_bcs acc ++
                         [{| var := var; nodes := nodes; type_ := type_text;
                             val := val; tag := Some tag |}];
                       acoustic_bcs := acoustic_bcs acc |}
             else if is_acoustic then
               mret {| flow_bcs := flow_bcs acc;
                       mesh_bcs := mesh_bcs acc;
                       acoustic_bcs := acoustic_bcs acc ++
                         [{| var := var; nodes := nodes; type_ := type_text;
                             val := val; tag := None |}] |}
             else
               mret {| flow_bcs := flow_bcs acc ++
                         [{| var := var; nodes := nodes; type_ := type_text;
                             val := val; tag := None |}];
                       mesh_bcs := mesh_bcs acc;
                       acoustic_bcs := acoustic_bcs acc |}
       | None => mret acc
       end ≫= k)
      = k (gathered is_disp is_acoustic acc
             (map bc_data_of (List.filter selected [(var, r)])))) as Hstep.
    { intros X k. destruct r as [id l e c v tg]. unfold has_tag in Hr. simpl in Hr.
      unfold selected, Text.type_text, bc_data_of, gathered. cbn.
      destruct (Py.lower (currentText c) =? "none")%string; cbn.
      - destruct is_disp, is_acoustic; destruct acc; cbn; by rewrite ?app_nil_r.
      - destruct tg as [n|]; subst is_disp; cbn; [reflexivity|].
        by destruct is_acoustic. }
    rewrite Hstep, IH, gathered_app. do 2 f_equal.
    cbn [map List.filter]. destruct (selected (var, r)); reflexivity.
Qed.

(** The three lists after the loops, for a boundary tab in order. *)
Lemma collect_bcs_rows (g : SolverGUI.t F) :
  Inv.boundary (boundary_tab g) →
  collect_bcs g
  = Py.Ok {| flow_bcs := map bc_data_of (flow_rows (boundary_tab g));
             mesh_bcs := map bc_data_of (List.filter selected (disp_rows (boundary_tab g)));
             acoustic_bcs := map bc_data_of (acoustic_rows (boundary_tab g)) |}.
Proof.
  intros [_ _ Hk Hg].
  unfold collect_bcs, BoundaryTab.get_boundary_conditions, flow_rows, acoustic_rows,
    velocity_rows, disp_rows, potential_rows, tab_rows.
  destruct (BoundaryTab.bc_layouts (boundary_tab g))
    as [|[n1 l1] [|[n2 l2] [|[n3 l3] [|[n4 l4] [|[n5 l5] [|[n6 l6] [|[n7 l7] [|]]]]]]]];
    try done.
  injection Hk as -> -> -> -> -> -> ->.
  repeat match goal with
         | Hall : Forall _ (_ :: _) |- _ =>
             let Hx := fresh "Hx" in
             apply Forall_cons in Hall as [Hx Hall];
             cbn [fst snd] in Hx; destruct Hx as (? & -> & ? & _)
         end.
  cbn [Py.dict_get String.eqb Ascii.eqb Bool.eqb default fst snd id].
  rewrite !rows_of_items.
  cbn [Py.foldM collect_tab].
  repeat match goal with
         | |- context [Py.dict_get var_map ?n] =>
             let v := eval vm_compute in (Py.dict_get var_map n) in
             change (Py.dict_get var_map n) with v
         end.
  cbn [recv mbind Py.Res_bind].
  repeat match goal with
         | |- context [Py.contains ?a ?b] =>
             let v := eval vm_compute in (Py.contains a b) in
             change (Py.contains a b) with v
         end.
  repeat (rewrite collect_rows by assumption; cbn [mbind Py.Res_bind]).
  unfold gathered. cbn [flow_bcs mesh_bcs acoustic_bcs app].
  rewrite !List.filter_app, !map_app. by rewrite !app_assoc.
Qed.

End S.
End CollectFacts.

(* ===================================================================== *)
(** ** Statements that only write *)
(* ===================================================================== *)

Module EmitFacts.
Import Qt Shape Text SolverGUI.
Section S.
Context {F : Type} `{Py.Float F}.

Local Abbreviation M := (Py.M (SolverGUI.state F)).

Lemma sconcat_app (xs ys : list string) : sconcat (xs ++ ys) = sconcat xs +:+ sconcat ys.
Proof.
  induction xs as [|x xs IH]; [reflexivity|].
  cbn [app sconcat fold_right]. fold (sconcat (xs ++ ys)) (sconcat xs).
  by rewrite IH, sapp_assoc.
Qed.

Lemma bind_run {A B} (m : M A) (k : A → M B) s :
  (m ≫= k) s = match m s with
               | (Py.Ok a, s') => k a s'
               | (Py.Raise e, s') => (Py.Raise e, s')
               end.
Proof. reflexivity. Qed.

Lemma write_all_app f (xs ys : list string) (s : SolverGUI.state F) :
  write_all f (xs ++ ys) s = (write_all f xs;; write_all f ys) s.
Proof.
  revert s. induction xs as [|x xs IH]; intros s; [reflexivity|].
  unfold write_all in *. cbn [app Py.for_]. rewrite !bind_run.
  destruct (f_write f x s) as [[[]|e] s']; [|reflexivity].
  rewrite IH. by rewrite bind_run.
Qed.

Lemma writes_ret f : writes f (mret tt : M unit) [].
Proof. intros s. reflexivity. Qed.

Lemma writes_write f c : writes (F := F) f (f_write f c) [c].
Proof.
  intros s. unfold write_all. cbn [Py.for_]. rewrite bind_run.
  by destruct (f_write f c s) as [[[]|e] s'].
Qed.

Lemma writes_seq f (m1 m2 : M unit) cs1 cs2 :
  writes f m1 cs1 → writes f m2 cs2 → writes f (m1;; m2) (cs1 ++ cs2).
Proof.
  intros H1 H2 s. rewrite write_all_app, !bind_run.
  rewrite H1. destruct (write_all f cs1 s) as [[[]|e] s']; [apply H2 | reflexivity].
Qed.

Lemma emits_ret f : emits f (mret tt : M unit) "".
Proof. exists []. split; [apply writes_ret | reflexivity]. Qed.

Lemma emits_write f c : emits (F := F) f (f_write f c) c.
Proof. exists [c]. split; [apply writes_write | apply sapp_nil_r]. Qed.

Lemma emits_seq f (m1 m2 : M unit) t1 t2 :
  emits f m1 t1 → emits f m2 t2 → emits f (m1;; m2) (t1 +:+ t2).
Proof.
  intros (cs1 & H1 & <-) (cs2 & H2 & <-). exists (cs1 ++ cs2).
  split; [by apply writes_seq | apply sconcat_app].
Qed.

(** An expression that evaluates without an exception hands its value on. *)
Lemma emits_lift {A} f (r : Py.Res A) v (k : A → M unit) t :
  r = Py.Ok v → emits f (k v) t → emits f (Py.lift r ≫= k) t.
Proof. intros -> (cs & Hk & <-). exists cs. split; [|done]. intros s. apply Hk. Qed.

Lemma emits_eq f (m : M unit) t t' : emits f m t → t = t' → emits f m t'.
Proof. by intros Hm <-. Qed.

Lemma emits_for_from {A B} f (h : B → A) (body : nat * A → M unit)
    (g : nat → B → string) n ys :
  (∀ i y, In y ys → emits f (body (i, h y)) (g i y)) →
  emits f (Py.for_ (imap (λ i x, ((n + i)%nat, x)) (map h ys)) body)
          (sconcat (imap (λ i, g (n + i)%nat) ys)).
Proof.
  revert n. induction ys as [|y ys IH]; intros n Hbody.
  - apply emits_ret.
  - cbn [map imap Py.for_ sconcat fold_right].
    rewrite Nat.add_0_r.
    apply emits_seq; [apply Hbody; by left|].
    specialize (IH (S n) (λ i y Hy, Hbody i y (or_intror Hy))).
    eapply emits_eq.
    + erewrite imap_ext; [exact IH|]. intros i x _. cbn. f_equal. lia.
    + f_equal. apply imap_ext. intros i x _. cbn. f_equal. lia.
Qed.

(** [for i, x in enumerate(xs): body], for [xs] the image of [ys]. *)
Lemma emits_for {A B} f (h : B → A) (body : nat * A → M unit)
    (g : nat → B → string) ys :
  (∀ i y, In y ys → emits f (body (i, h y)) (g i y)) →
  emits f (Py.for_ (enumerate (map h ys)) body) (sconcat (imap g ys)).
Proof. intros Hbody. exact (emits_for_from f h body g 0 ys Hbody). Qed.

(** The text of the blocks of a list of rows. *)
Lemma sconcat_blocks {A} (block : nat → A → list kv) (xs : list A) :
  sconcat (imap (λ i x, sconcat (map kv_line (block i x))) xs)
  = sconcat (map kv_line (concat (imap block xs))).
Proof.
  revert block. induction xs as [|x xs IH]; intros block; [reflexivity|].
  cbn [imap concat sconcat fold_right]. fold (@sconcat).
  change (fold_right String.append "" ?l) with (sconcat l).
  rewrite map_app, sconcat_app. f_equal. apply (IH (block ∘ S)).
Qed.

End S.

(** Takes a sequence of writes and successful evaluations apart. *)
Ltac emit :=
  repeat first
    [ apply emits_write
    | apply emits_ret
    | eapply emits_seq; [apply emits_write |]
    | eapply emits_lift; [reflexivity |] ].

(** Both sides to right-nested appends of the same pieces. *)
Ltac same_text :=
  unfold section_text, kv_line, sconcat, geometry_kvs, solver_kvs, fluid_kvs, initial_kvs,
    GeometryTab.get_coord_file, GeometryTab.get_conn_file, GeometryTab.get_conn_type,
    PhysicalTab.get_physical_data, BoundaryTab.get_initial_conditions, nl;
  cbn [map fold_right fst snd app];
  rewrite ?sapp_assoc; cbn [String.append]; reflexivity.

End EmitFacts.

(* ===================================================================== *)
(** ** The text of each section *)
(* ===================================================================== *)

Module SaveFacts.
Import Qt Shape Text SolverGUI EmitFacts.
Section S.
Context {F : Type} `{Py.Float F}.

Implicit Types g : SolverGUI.t F.

Lemma write_geometry_text g f :
  emits f (write_geometry g f)
    (section_text ("Geometry details", geometry_kvs (geometry_tab g))).
Proof. unfold write_geometry. eapply emits_eq; [emit | same_text]. Qed.

Lemma write_solver_text g f :
  emits f (write_solver g f) (section_text ("Solver details", solver_kvs (solver_tab g))).
Proof.
  unfold write_solver, SolverTab.get_solver_data. cbn zeta.
  eapply emits_eq; [emit|].
  unfold solver_kvs. destruct (SolverTab.restart_flag (solver_tab g)); same_text.
Qed.

Lemma write_fluid_text g f :
  emits f (write_fluid g f)
    (section_text ("Fluid properties", fluid_kvs (PhysicalTab.inputs (physical_tab g)))).
Proof. unfold write_fluid. eapply emits_eq; [emit | same_text]. Qed.

Lemma write_initial_text g f :
  emits f (write_initial g f)
    (section_text ("Initial conditions",
                   initial_kvs (BoundaryTab.init_cond_widgets (boundary_tab g)))).
Proof. unfold write_initial. eapply emits_eq; [emit | same_text]. Qed.

Lemma length_nat_str {A B} (h : B → A) (ys : list B) :
  Py.str_int (Z.of_nat (length (map h ys))) = Py.str_int (Z.of_nat (length ys)).
Proof. by rewrite length_map. Qed.

Lemma write_flow_bcs_text f (rows : list (string * bc_row F)) :
  emits f (write_flow_bcs (map bc_data_of rows) f)
    (section_text ("Flow boundary conditions", bc_kvs flow_block rows)).
Proof.
  unfold write_flow_bcs. rewrite length_nat_str.
  eapply emits_eq.
  - eapply emits_seq; [apply emits_write|].
    eapply emits_seq; [apply emits_write|].
    eapply emits_seq; [|apply emits_write].
    apply (emits_for f bc_data_of _ (λ i p, sconcat (map kv_line (flow_block i p)))).
    intros i [v r] _. unfold flow_block. cbn [bc_data_of type_ var nodes val fst snd].
    destruct (type_text r =? "matchmeshvel")%string; cbn [negb];
      (eapply emits_eq; [emit | same_text]).
  - rewrite sconcat_blocks. unfold bc_kvs. same_text.
Qed.

Lemma write_acoustic_bcs_text f (rows : list (string * bc_row F)) :
  emits f (write_acoustic_bcs (map bc_data_of rows) f)
    (section_text ("Acoustic boundary conditions", bc_kvs acoustic_block rows)).
Proof.
  unfold write_acoustic_bcs. rewrite length_nat_str.
  eapply emits_eq.
  - eapply emits_seq; [apply emits_write|].
    eapply emits_seq; [apply emits_write|].
    eapply emits_seq; [|apply emits_write].
    apply (emits_for f bc_data_of _ (λ i p, sconcat (map kv_line (acoustic_block i p)))).
    intros i [v r] _. unfold acoustic_block. cbn [bc_data_of type_ var nodes val fst snd].
    eapply emits_eq; [emit | same_text].
  - rewrite sconcat_blocks. unfold bc_kvs. same_text.
Qed.

(** The list comprehension keeps the rows [mesh_kept] keeps. *)
Lemma mesh_filter (rows : list (string * bc_row F)) :
  List.filter mesh_keep (map bc_data_of rows) = map bc_data_of (List.filter mesh_kept rows).
Proof.
  induction rows as [|[v r] rows IH]; [reflexivity|].
  cbn [map List.filter].
  assert (mesh_keep (bc_data_of (v, r)) = mesh_kept (v, r)) as ->.
  { unfold mesh_keep, mesh_kept, get_tag, tag_of, bc_data_of. cbn.
    by destruct (r_tag r). }
  destruct (mesh_kept (v, r)); cbn [map]; by rewrite IH.
Qed.

Lemma write_mesh_bcs_text f (rows : list (string * bc_row F)) :
  emits f (write_mesh_bcs (map bc_data_of rows) f)
    (section_text ("Mesh boundary conditions",
                   bc_kvs mesh_block (List.filter mesh_kept rows))).
Proof.
  unfold write_mesh_bcs. cbn zeta. rewrite mesh_filter, length_nat_str.
  eapply emits_eq.
  - eapply emits_seq; [apply emits_write|].
    eapply emits_seq; [apply emits_write|].
    eapply emits_seq; [|apply emits_write].
    apply (emits_for f bc_data_of _ (λ i p, sconcat (map kv_line (mesh_block i p)))).
    intros i [v r] [_ Hkept]%filter_In. revert Hkept.
    unfold mesh_block, mesh_kept, get_tag, tag_of.
    cbn [bc_data_of type_ var nodes val tag fst snd].
    destruct (r_tag r) as [n|];
      cbn [fmap option_fmap option_map default from_option id
           Py.num_is_positive Py.num_is_zero].
    + destruct (0 <? n) eqn:Hpos.
      * intros _. cbn [String.eqb Ascii.eqb Bool.eqb].
        eapply emits_eq; [emit | same_text].
      * destruct (type_text r =? "prescribed")%string eqn:Hty.
        -- intros _. apply String.eqb_eq in Hty. rewrite Hty.
           cbn [String.eqb Ascii.eqb Bool.eqb].
           eapply emits_eq; [emit | same_text].
        -- intros _. eapply emits_eq; [emit | same_text].
    + change (0 <? 0) with false. change (0 =? 0) with true. cbn [negb orb].
      destruct (type_text r =? "prescribed")%string eqn:Hty; [done|].
      intros _. eapply emits_eq; [emit | same_text].
  - rewrite sconcat_blocks. unfold bc_kvs. same_text.
Qed.

Lemma write_prescribed_text g f :
  Inv.prescribed (prescribed_tab g) →
  emits f (write_prescribed g f)
    (section_text ("Prescribed motion details", prescribed_kvs (prescribed_tab g))).
Proof.
  intros [groups Hg].
  unfold write_prescribed, PrescribedTab.get_prescribed_tags, prescribed_kvs, groups_of.
  cbn zeta. rewrite Hg, CollectFacts.groups_of_widgets, length_nat_str.
  eapply emits_eq.
  - eapply emits_seq; [apply emits_write|].
    eapply emits_seq; [apply emits_write|].
    eapply emits_seq; [|apply emits_write].
    apply (emits_for f group_widget _ (λ i grp, sconcat (map kv_line (group_block i grp)))).
    intros i grp _. unfold group_block.
    eapply emits_eq; [emit|]. cbn [Py.str_num Py.int]. same_text.
  - rewrite sconcat_blocks. same_text.
Qed.

Lemma collect_output_rows_names (l : Layout F) :
  Inv.output_list l → collect_output_rows l = Py.Ok (file_names l).
Proof.
  intros [rows ->]. unfold collect_output_rows, file_names.
  rewrite CollectFacts.output_rows_of_items. cbn [count].
  erewrite CollectFacts.foldM_lookup.
  2:{ intros b i x Hx. unfold collect_output_row. cbn [itemAt]. rewrite Hx.
      cbn [recv mbind Py.Res_bind]. reflexivity. }
  match goal with
  | |- Py.foldM ?g [] _ = _ =>
      assert (∀ acc, Py.foldM g acc (map output_item rows)
                     = Py.Ok (acc ++ List.filter (λ txt, negb (txt =? "")%string)
                                       (map (λ r, text (o_edit r)) rows))) as Hloop
  end.
  { induction rows as [|r rows IH]; intros acc.
    - simpl. by rewrite app_nil_r.
    - cbn [map Py.foldM List.filter]. destruct r as [id e]. cbn.
      destruct (text e =? "")%string; cbn; rewrite IH; [done|].
      by rewrite <- app_assoc. }
  apply (Hloop []).
Qed.

Lemma write_output_rows_text f (rows : list string) :
  emits (F := F) f (write_output_rows rows f)
    (sconcat (map kv_line
       (("numberFiles", Py.str_int (Z.of_nat (length rows)))
        :: concat (imap output_block rows)))).
Proof.
  unfold write_output_rows. eapply emits_eq.
  - eapply emits_seq; [apply emits_write|].
    rewrite <- (map_id rows) at 1.
    apply (emits_for f id _ (λ i txt, sconcat (map kv_line (output_block i txt)))).
    intros i txt _. unfold output_block, id.
    eapply emits_eq; [emit | same_text].
  - rewrite sconcat_blocks. same_text.
Qed.

Lemma write_probes_text g f :
  Inv.output_list (OutputTab.probe_layout (output_tab g)) →
  emits f (write_probes g f)
    (section_text ("Output time history details",
                   output_kvs (OutputTab.probe_layout (output_tab g)))).
Proof.
  intros Hl. unfold write_probes, OutputTab.get_probe_layout. cbn zeta.
  eapply emits_eq.
  - eapply emits_seq; [apply emits_write|].
    eapply emits_lift; [by apply collect_output_rows_names|].
    eapply emits_seq; [apply write_output_rows_text | apply emits_write].
  - unfold output_kvs. same_text.
Qed.

(** The last section and the closing comment. *)
Lemma write_surfs_text g f :
  Inv.output_list (OutputTab.surf_layout (output_tab g)) →
  emits f (write_surfs g f;; f_write f (nl +:+ "// End of input file" +:+ nl))
    (section_text ("Output integrated surface details",
                   output_kvs (OutputTab.surf_layout (output_tab g)))
     +:+ "// End of input file" +:+ nl).
Proof.
  intros Hl. unfold write_surfs, OutputTab.get_surf_layout. cbn zeta.
  eapply emits_eq.
  - eapply emits_seq; [|apply emits_write].
    eapply emits_seq; [apply emits_write|].
    eapply emits_lift; [by apply collect_output_rows_names|].
    apply write_output_rows_text.
  - unfold output_kvs. same_text.
Qed.

(** The body of the [with] statement writes the text of the form, and
    does nothing else. *)
Lemma save_body_text g f :
  Inv.gui g →
  ∃ cs, (∀ s, s.1 = g → save_body f s = write_all f cs s) ∧ sconcat cs = text_of g.
Proof.
  intros Hg.
  assert (emits f
    (f_write f ("// Input file for solver" +:+ nl +:+ nl);;
     write_geometry g f;;
     write_solver g f;;
     write_fluid g f;;
     write_initial g f;;
     bcs ← Py.lift (collect_bcs g);
     write_flow_bcs (flow_bcs bcs) f;;
     write_mesh_bcs (mesh_bcs bcs) f;;
     write_acoustic_bcs (acoustic_bcs bcs) f;;
     write_prescribed g f;;
     write_probes g f;;
     write_surfs g f;;
     f_write f (nl +:+ "// End of input file" +:+ nl))
    (text_of g)) as (cs & Hcs & Htext).
  { eapply emits_eq.
    - eapply emits_seq; [apply emits_write|].
      eapply emits_seq; [apply write_geometry_text|].
      eapply emits_seq; [apply write_solver_text|].
      eapply emits_seq; [apply write_fluid_text|].
      eapply emits_seq; [apply write_initial_text|].
      eapply emits_lift; [apply CollectFacts.collect_bcs_rows, Hg|].
      cbn [flow_bcs mesh_bcs acoustic_bcs].
      eapply emits_seq; [apply write_flow_bcs_text|].
      eapply emits_seq; [apply write_mesh_bcs_text|].
      eapply emits_seq; [apply write_acoustic_bcs_text|].
      eapply emits_seq; [apply write_prescribed_text, Hg|].
      eapply emits_seq; [apply write_probes_text, Hg|].
      apply write_surfs_text, Hg.
    - unfold text_of, file_text, sections, mesh_rows, sconcat.
      cbn [map fold_right]. rewrite ?sapp_assoc. reflexivity. }
  exists cs. split; [|done].
  intros s <-. rewrite <- Hcs. reflexivity.
Qed.

End S.
End SaveFacts.

(* ===================================================================== *)
(** ** Running [save_input_file] in a world *)
(* ===================================================================== *)

Module RunFacts.
Import Qt Shape Text SolverGUI EmitFacts.
Section S.
Context {F : Type} `{Py.Float F}.

Implicit Types (g : SolverGUI.t F) (w : OS.World).

(** What a sequence of writes does to the world, whatever fails: it ends
    well when none of the [length cs] operations fails, and with [OSError]
    at the first that does. *)
Lemma write_all_run f cs g w :
  ∃ r w',
    write_all f cs (g, w) = (r, (g, w')) ∧
    OS.stdout w' = OS.stdout w ∧ OS.stderr w' = OS.stderr w ∧
    (∃ ops, OS.syscalls w' = OS.syscalls w ++ ops ∧
            Forall (λ op, ∃ data, op = OS.Write f data) ops) ∧
    ((r = Py.Ok tt ∧ OS.faults w' = drop (length cs) (OS.faults w) ∧
      ∀ i, (i < length cs)%nat → OS.faults w !! i ≠ Some true) ∨
     (r = Py.Raise Py.OSError ∧
      ∃ i, (i < length cs)%nat ∧ OS.faults w !! i = Some true)).
Proof.
  revert w. induction cs as [|c cs IH]; intros w.
  - exists (Py.Ok tt), w. split; [reflexivity|]. split; [done|]. split; [done|]. split.
    + exists []. split; [by rewrite app_nil_r | constructor].
    + left. split; [done|]. split; [done|]. intros i Hi. cbn in Hi. lia.
  - unfold write_all. cbn [Py.for_]. rewrite bind_run.
    unfold f_write at 1, os_do, OS.write, OS.next_fault. cbn [fst snd].
    destruct (OS.faults w) as [|[|] fs] eqn:Hf; cbn [head default from_option id tail].
    + (* no failure to come *)
      match goal with
      | |- context [Py.for_ cs (f_write f) (g, ?w1)] =>
          destruct (IH w1) as (r & w' & Hrun & Hout & Herr & (ops & Hops & Hall) & Hr)
      end.
      unfold write_all in Hrun. rewrite Hrun. cbn in Hout, Herr, Hops, Hr.
      exists r, w'. split; [reflexivity|]. split; [done|]. split; [done|]. split.
      * exists (OS.Write f c :: ops). split.
        -- rewrite Hops. by rewrite <- app_assoc.
        -- constructor; [by eexists | done].
      * destruct Hr as [(-> & Hf' & _) | (-> & i & _ & Hi)]; [|by destruct i].
        left. split; [done|]. split; [by rewrite Hf', drop_nil|]. by intros [|i].
    + (* this write fails *)
      eexists _, _. split; [reflexivity|]. split; [done|]. split; [done|]. split.
      * exists [OS.Write f c]. split; [reflexivity|]. repeat constructor. by eexists.
      * right. split; [done|]. exists 0%nat. split; [cbn; lia | reflexivity].
    + match goal with
      | |- context [Py.for_ cs (f_write f) (g, ?w1)] =>
          destruct (IH w1) as (r & w' & Hrun & Hout & Herr & (ops & Hops & Hall) & Hr)
      end.
      unfold write_all in Hrun. rewrite Hrun. cbn in Hout, Herr, Hops, Hr.
      exists r, w'. split; [reflexivity|]. split; [done|]. split; [done|]. split.
      * exists (OS.Write f c :: ops). split.
        -- rewrite Hops. by rewrite <- app_assoc.
        -- constructor; [by eexists | done].
      * destruct Hr as [(-> & Hf' & Hno) | (-> & i & Hi & Htrue)].
        -- left. split; [done|]. split; [done|].
           intros [|i] Hi; [done|]. cbn. apply Hno. cbn in Hi. lia.
        -- right. split; [done|]. exists (S i). split; [cbn; lia | done].
Qed.

(** The same when nothing fails: every piece reaches the file. *)
Lemma write_all_quiet f cs g w old :
  OS.faults w = [] → OS.files w !! f = Some old →
  write_all f cs (g, w)
  = (Py.Ok tt,
     (g, {| OS.files := <[f := old +:+ sconcat cs]> (OS.files w);
            OS.stdout := OS.stdout w; OS.stderr := OS.stderr w;
            OS.syscalls := OS.syscalls w ++ map (OS.Write f) cs;
            OS.faults := [] |})).
Proof.
  revert w old. induction cs as [|c cs IH]; intros w old Hf Hold.
  - cbn. rewrite sapp_nil_r, app_nil_r, insert_id by done. destruct w; cbn in *. by subst.
  - unfold write_all. cbn [Py.for_]. rewrite bind_run.
    unfold f_write at 1, os_do, OS.write, OS.next_fault. cbn [fst snd].
    rewrite Hf. cbn [head default tail].
    change (Py.for_ cs (f_write f)) with (write_all (F := F) f cs).
    erewrite IH; [| reflexivity | cbn; apply lookup_insert_eq].
    cbn. rewrite Hold. cbn. rewrite insert_insert_eq, sapp_assoc, <- app_assoc.
    reflexivity.
Qed.

Lemma save_cancelled g w : save "" g w = (Py.Ok tt, (g, w)).
Proof. reflexivity. Qed.

(** [save_input_file] returns normally, whatever the form and the world. *)
Lemma save_returns path g w : (save path g w).1 = Py.Ok tt.
Proof.
  unfold save, save_input_file. destruct (path =? "")%string; [reflexivity|].
  unfold Py.try_except. destruct (with_open path save_body (g, w)) as [[[]|e] s']; reflexivity.
Qed.

(** Saving when no file operation fails; [cs] are the pieces the body of
    the [with] statement writes. *)
Lemma save_quiet_pieces path g w cs :
  path ≠ "" → OS.faults w = [] →
  (∀ s, s.1 = g → save_body path s = write_all path cs s) →
  save path g w
  = (Py.Ok tt,
     (g, {| OS.files := <[path := sconcat cs]> (OS.files w);
            OS.stdout := OS.stdout w; OS.stderr := OS.stderr w;
            OS.syscalls :=
              OS.syscalls w ++ OS.Open path "w" :: map (OS.Write path) cs ++ [OS.Close path];
            OS.faults := [] |})).
Proof.
  intros Hpath Hf Hbody.
  unfold save, save_input_file. apply String.eqb_neq in Hpath. rewrite Hpath.
  unfold Py.try_except, with_open. rewrite bind_run.
  unfold os_do at 1, OS.open_w, OS.next_fault. cbn [fst snd]. rewrite Hf.
  cbn [head default tail]. unfold closing.
  rewrite Hbody by reflexivity.
  erewrite write_all_quiet; [| reflexivity | cbn; apply lookup_insert_eq].
  cbn. rewrite insert_insert_eq. unfold OS.log. cbn.
  rewrite <- !app_assoc. reflexivity.
Qed.

Lemma save_quiet path g w :
  Inv.gui g → path ≠ "" → OS.faults w = [] →
  ∃ cs, sconcat cs = text_of g ∧
    save path g w
    = (Py.Ok tt,
       (g, {| OS.files := <[path := text_of g]> (OS.files w);
              OS.stdout := OS.stdout w; OS.stderr := OS.stderr w;
              OS.syscalls :=
                OS.syscalls w ++ OS.Open path "w" :: map (OS.Write path) cs ++ [OS.Close path];
              OS.faults := [] |})).
Proof.
  intros Hg Hpath Hf.
  destruct (SaveFacts.save_body_text g path Hg) as (cs & Hbody & Htext).
  exists cs. split; [done|].
  rewrite (save_quiet_pieces path g w cs) by done. by rewrite Htext.
Qed.

(** The file operations of a save on which none fails: opening the file,
    one write for each piece, and closing it. *)
Lemma save_ops_count path g cs :
  path ≠ "" →
  (∀ s, s.1 = g → save_body path s = write_all path cs s) →
  save_ops path g = (length cs + 2)%nat.
Proof.
  intros Hpath Hbody. unfold save_ops.
  rewrite (save_quiet_pieces path g quiet_world cs) by done.
  cbn. rewrite length_app, length_map. cbn. lia.
Qed.

(** Saving in any world: the form is left alone; the file operations are
    on the chosen file and none reads; the run attempts [n] operations at
    most; when none of them fails nothing is printed, and when one fails
    the error is printed and the function returns all the same. *)
Lemma save_run_pieces path g w cs :
  path ≠ "" →
  (∀ s, s.1 = g → save_body path s = write_all path cs s) →
  let n := (length cs + 2)%nat in
  ∃ w', save path g w = (Py.Ok tt, (g, w')) ∧
        (∃ ops, OS.syscalls w' = OS.syscalls w ++ ops ∧ Forall (write_only path) ops) ∧
        (((∀ i, (i < n)%nat → OS.faults w !! i ≠ Some true) ∧
          OS.stdout w' = OS.stdout w ∧ OS.stderr w' = OS.stderr w) ∨
         ((∃ i, (i < n)%nat ∧ OS.faults w !! i = Some true) ∧
          OS.stdout w' = OS.stdout w ++ ["Error saving file: OSError"] ∧
          OS.stderr w' = OS.stderr w ++ ["Traceback (most recent call last):"])).
Proof.
  intros Hpath Hbody n. subst n.
  unfold save, save_input_file. apply String.eqb_neq in Hpath. rewrite Hpath.
  unfold Py.try_except, with_open. rewrite bind_run.
  unfold os_do at 1, OS.open_w, OS.next_fault. cbn [fst snd].
  destruct (OS.faults w) as [|b fs] eqn:Hf; cbn [head default from_option id tail];
    [|destruct b].
  - (* no failure to come *)
    unfold closing. rewrite Hbody by reflexivity.
    match goal with
    | |- context [write_all path cs (g, ?w1)] =>
        destruct (write_all_run path cs g w1)
          as (r & w2 & Hrun & Hout & Herr & (ops & Hops & Hall) & Hr)
    end.
    rewrite Hrun. cbn in Hout, Herr, Hops, Hr.
    destruct Hr as [(-> & Hf2 & _) | (_ & i & _ & Hi)]; [|by destruct i].
    unfold os_do, OS.close, OS.next_fault. cbn [fst snd]. rewrite Hf2, drop_nil.
    cbn [head default from_option id tail].
    eexists. split; [reflexivity|]. cbn.
    rewrite Hout, Herr, Hops. split.
    + eexists. split; [by rewrite <- !app_assoc|].
      constructor; [by left|]. apply Forall_app. split.
      * eapply Forall_impl; [exact Hall|]. intros op [d ->]. right; left. by eexists.
      * apply Forall_cons; split; [by right; right | constructor].
    + left. split; [|done]. by intros i _.
  - (* the file cannot be opened *)
    eexists. split; [reflexivity|]. cbn. split.
    + exists [OS.Open path "w"]. split; [reflexivity|].
      apply Forall_cons; split; [by left | constructor].
    + right. split; [|done]. exists 0%nat. split; [lia | reflexivity].
  - unfold closing. rewrite Hbody by reflexivity.
    match goal with
    | |- context [write_all path cs (g, ?w1)] =>
        destruct (write_all_run path cs g w1)
          as (r & w2 & Hrun & Hout & Herr & (ops & Hops & Hall) & Hr)
    end.
    rewrite Hrun. cbn in Hout, Herr, Hops, Hr.
    assert (Forall (write_only path) (OS.Open path "w" :: ops ++ [OS.Close path])) as Hwo.
    { constructor; [by left|]. apply Forall_app. split.
      - eapply Forall_impl; [exact Hall|]. intros op [d ->]. right; left. by eexists.
      - apply Forall_cons; split; [by right; right | constructor]. }
    unfold os_do, OS.close, OS.next_fault. cbn [fst snd].
    destruct Hr as [(-> & Hf2 & Hno) | (-> & i & Hi & Htrue)].
    + rewrite Hf2.
      destruct (head (drop (length cs) fs)) as [[|]|] eqn:Hlast;
        cbn [default from_option id].
      * (* closing fails *)
        eexists. split; [reflexivity|]. cbn.
        rewrite Hout, Herr, Hops. split.
        -- eexists. split; [|exact Hwo]. by rewrite <- !app_assoc.
        -- right. split; [|done]. exists (S (length cs)). split; [lia|].
           cbn. rewrite head_lookup, lookup_drop, Nat.add_0_r in Hlast. done.
      * eexists. split; [reflexivity|]. cbn.
        rewrite Hout, Herr, Hops. split.
        -- eexists. split; [|exact Hwo]. by rewrite <- !app_assoc.
        -- left. split; [|done]. intros [|i] Hi; [done|]. cbn.
           destruct (decide (i < length cs)%nat) as [Hlt|Hge]; [by apply Hno|].
           assert (i = length cs) as -> by lia.
           rewrite head_lookup, lookup_drop, Nat.add_0_r in Hlast.
           intros Heq. enough (Some true = Some false) by done.
           rewrite <- Heq. exact Hlast.
      * eexists. split; [reflexivity|]. cbn.
        rewrite Hout, Herr, Hops. split.
        -- eexists. split; [|exact Hwo]. by rewrite <- !app_assoc.
        -- left. split; [|done]. intros [|i] Hi; [done|]. cbn.
           destruct (decide (i < length cs)%nat) as [Hlt|Hge]; [by apply Hno|].
           assert (i = length cs) as -> by lia.
           rewrite head_lookup, lookup_drop, Nat.add_0_r in Hlast.
           intros Heq. enough (Some true = @None bool) by done.
           rewrite <- Heq. exact Hlast.
    + (* a write fails; closing may fail as well *)
      destruct (default false (head (OS.faults w2)));
        (eexists; split; [reflexivity|]; cbn;
         rewrite Hout, Herr, Hops; split;
         [ eexists; split; [|exact Hwo]; by rewrite <- !app_assoc
         | right; split; [|done]; exists (S i); split; [lia | done] ]).
Qed.

Lemma save_run path g w :
  Inv.gui g → path ≠ "" →
  ∃ w' n, save path g w = (Py.Ok tt, (g, w')) ∧
        (∃ ops, OS.syscalls w' = OS.syscalls w ++ ops ∧ Forall (write_only path) ops) ∧
        (((∀ i, (i < n)%nat → OS.faults w !! i ≠ Some true) ∧
          OS.stdout w' = OS.stdout w ∧ OS.stderr w' = OS.stderr w) ∨
         ((∃ i, (i < n)%nat ∧ OS.faults w !! i = Some true) ∧
          OS.stdout w' = OS.stdout w ++ ["Error saving file: OSError"] ∧
          OS.stderr w' = OS.stderr w ++ ["Traceback (most recent call last):"])).
Proof.
  intros Hg Hpath.
  destruct (SaveFacts.save_body_text g path Hg) as (cs & Hbody & _).
  destruct (save_run_pieces path g w cs Hpath Hbody) as (w' & Hrun).
  by exists w', (length cs + 2)%nat.
Qed.

(** One step of a sequence of writes. *)
Lemma write_all_cons f c cs g w :
  write_all f (c :: cs) (g, w)
  = let w' := OS.log (OS.Write f c) (OS.next_fault w).2 in
    if default false (head (OS.faults w)) then (Py.Raise Py.OSError, (g, w'))
    else write_all f cs
           (g, OS.set_files (λ fs, <[f := default "" (fs !! f) +:+ c]> fs) w').
Proof.
  unfold write_all. cbn [Py.for_]. rewrite bind_run.
  unfold f_write at 1, os_do, OS.write, OS.next_fault. cbn [fst snd].
  by destruct (default false (head (OS.faults w))).
Qed.

(** Two runs of a sequence of writes that meet the same failures and
    start from the same contents of the file end alike. *)
Lemma write_all_same f cs g w1 w2 :
  same_at f w1 w2 →
  (write_all f cs (g, w1)).1 = (write_all f cs (g, w2)).1 ∧
  same_at f (write_all f cs (g, w1)).2.2 (write_all f cs (g, w2)).2.2.
Proof.
  revert w1 w2. induction cs as [|c cs IH]; intros w1 w2 [Hf Hfile]; [done|].
  rewrite !write_all_cons. cbn zeta. rewrite Hf.
  destruct (default false (head (OS.faults w2))).
  - split; [done|]. split; cbn; [by rewrite Hf | done].
  - apply IH. split; cbn; [by rewrite Hf|].
    by rewrite Hfile, !lookup_insert_eq.
Qed.

(** Two saves on which the file opens and that meet the same failures
    leave the same contents in the file. *)
Lemma save_same path g w1 w2 :
  path ≠ "" → OS.faults w1 = OS.faults w2 → head (OS.faults w1) ≠ Some true →
  Inv.gui g →
  OS.files (save path g w1).2.2 !! path = OS.files (save path g w2).2.2 !! path.
Proof.
  intros Hpath Hf Hopen Hg.
  destruct (SaveFacts.save_body_text g path Hg) as (cs & Hbody & _).
  unfold save, save_input_file. apply String.eqb_neq in Hpath. rewrite Hpath.
  unfold Py.try_except, with_open. rewrite !bind_run.
  unfold os_do, OS.open_w, OS.next_fault. cbn [fst snd].
  rewrite <- Hf.
  assert (default false (head (OS.faults w1)) = false) as ->.
  { destruct (OS.faults w1) as [|[|] ?]; done. }
  unfold closing. rewrite !Hbody by reflexivity.
  set (v1 := OS.set_files _ _). set (v2 := OS.set_files _ _).
  destruct (write_all_same path cs g v1 v2) as (Hr & Hf' & Hfile).
  { split; cbn; [done | by rewrite !lookup_insert_eq]. }
  destruct (write_all path cs (g, v1)) as [r1 [g1 u1]].
  destruct (write_all path cs (g, v2)) as [r2 [g2 u2]].
  cbn in Hr, Hf', Hfile. subst r2.
  unfold os_do, OS.close, OS.next_fault. cbn [fst snd]. rewrite Hf'.
  destruct (default false (head (OS.faults u2))), r1; cbn; exact Hfile.
Qed.

End S.
End RunFacts.

(* ===================================================================== *)
(** ** The lines of the file *)
(* ===================================================================== *)

Module LineFacts.
Import Text EmitFacts.

Local Abbreviation nl := SolverGUI.nl.

Lemma kv_line_text p : kv_line p = kv_text p +:+ nl.
Proof. unfold kv_line, kv_text. by rewrite !sapp_assoc. Qed.

(** A run of [key = value] lines is empty or ends with a line feed. *)
Lemma kv_lines_end (kvs : list kv) :
  sconcat (map kv_line kvs) = "" ∨ ∃ p, sconcat (map kv_line kvs) = p +:+ nl.
Proof.
  induction kvs as [|q kvs IH] using rev_ind; [by left|]. right.
  rewrite map_app, sconcat_app. cbn [map sconcat fold_right].
  rewrite sapp_nil_r, kv_line_text, <- sapp_assoc. by eexists.
Qed.

(** The text of a block of lines, for a block that is not empty. *)
Lemma block_text (blk : list kv) :
  blk ≠ [] → sconcat (map kv_line blk) = lines (map kv_text blk) +:+ nl.
Proof.
  induction blk as [|p blk IH]; [done|]. intros _.
  destruct blk as [|q blk].
  - cbn. by rewrite sapp_nil_r, kv_line_text.
  - change (sconcat (map kv_line (p :: q :: blk)))
      with (kv_line p +:+ sconcat (map kv_line (q :: blk))).
    rewrite IH by done. unfold lines at 2. cbn [map String.concat].
    fold (lines (map kv_text (q :: blk))).
    by rewrite kv_line_text, !sapp_assoc.
Qed.

Lemma sections_split (sections : list (string * list kv)) sec :
  In sec sections →
  ∃ a b, sconcat (map section_text sections) = a +:+ section_text sec +:+ b.
Proof.
  intros (s1 & s2 & ->)%in_split.
  rewrite map_app, sconcat_app. cbn [map sconcat fold_right]. by eexists _, _.
Qed.

(** A block of consecutive [key = value] pairs of a section is a block of
    consecutive lines of the file. *)
Lemma block_in_file sections title kvs k1 blk k2 :
  In (title, kvs) sections → kvs = k1 ++ blk ++ k2 → blk ≠ [] →
  has_line (file_text sections) (lines (map kv_text blk)).
Proof.
  intros Hsec -> Hblk.
  destruct (sections_split _ _ Hsec) as (a & b & Hsplit).
  unfold file_text. rewrite Hsplit. unfold section_text. cbn [fst snd].
  rewrite !map_app, !sconcat_app, (block_text blk Hblk).
  destruct (kv_lines_end k1) as [-> | [p ->]].
  - exists ("// Input file for solver" +:+ nl +:+ nl +:+ a +:+ "// " +:+ title +:+ nl), 
      (sconcat (map kv_line k2) +:+ nl +:+ b +:+ "// End of input file" +:+ nl).
    split.
    + rewrite !sapp_assoc. reflexivity.
    + right. exists ("// Input file for solver" +:+ nl +:+ nl +:+ a +:+ "// " +:+ title).
      by rewrite !sapp_assoc.
  - exists ("// Input file for solver" +:+ nl +:+ nl +:+ a +:+ "// " +:+ title +:+ nl
            +:+ p +:+ nl),
      (sconcat (map kv_line k2) +:+ nl +:+ b +:+ "// End of input file" +:+ nl).
    split.
    + rewrite !sapp_assoc. reflexivity.
    + right.
      exists ("// Input file for solver" +:+ nl +:+ nl +:+ a +:+ "// " +:+ title +:+ nl +:+ p).
      by rewrite !sapp_assoc.
Qed.

(** Every pair of a section is a line of the file. *)
Lemma kv_in_file sections sec p :
  In sec sections → In p sec.2 → has_line (file_text sections) (kv_text p).
Proof.
  destruct sec as [title kvs]. cbn [snd]. intros Hsec (k1 & k2 & ->)%in_split.
  apply (block_in_file sections title (k1 ++ p :: k2) k1 [p] k2); done.
Qed.

Lemma sections_end (sections : list (string * list kv)) :
  sconcat (map section_text sections) = "" ∨
  ∃ q, sconcat (map section_text sections) = q +:+ nl.
Proof.
  induction sections as [|sec sections IH] using rev_ind; [by left|]. right.
  rewrite map_app, sconcat_app. cbn [map sconcat fold_right].
  rewrite sapp_nil_r. unfold section_text at 2.
  exists (sconcat (map section_text sections) +:+ "// " +:+ sec.1 +:+ nl +:+
          sconcat (map kv_line sec.2)).
  by rewrite !sapp_assoc.
Qed.

(** A section opens with its comment line, and its first pair follows. *)
Lemma head_in_file sections title p kvs :
  In (title, p :: kvs) sections →
  has_line (file_text sections) (lines ["// " +:+ title; kv_text p]).
Proof.
  intros (s1 & s2 & ->)%in_split.
  unfold file_text. rewrite map_app, sconcat_app. cbn [map sconcat fold_right].
  fold (sconcat (map section_text s2)).
  unfold section_text at 2. cbn [fst snd map sconcat fold_right].
  fold (sconcat (map kv_line kvs)). rewrite kv_line_text.
  unfold lines. cbn [String.concat].
  destruct (sections_end s1) as [-> | [q ->]].
  - exists ("// Input file for solver" +:+ nl +:+ nl),
      (sconcat (map kv_line kvs) +:+ nl +:+ sconcat (map section_text s2) +:+
       "// End of input file" +:+ nl).
    split; [by rewrite !sapp_assoc|].
    right. exists ("// Input file for solver" +:+ nl). by rewrite !sapp_assoc.
  - exists ("// Input file for solver" +:+ nl +:+ nl +:+ q +:+ nl),
      (sconcat (map kv_line kvs) +:+ nl +:+ sconcat (map section_text s2) +:+
       "// End of input file" +:+ nl).
    split; [by rewrite !sapp_assoc|].
    right. exists ("// Input file for solver" +:+ nl +:+ nl +:+ q). by rewrite !sapp_assoc.
Qed.

(** The block of row [i] within the blocks of all rows. *)
Lemma block_split {A} (block : nat → A → list kv) (rows : list A) i r :
  rows !! i = Some r →
  ∃ k1 k2, concat (imap block rows) = k1 ++ block i r ++ k2.
Proof.
  revert block i. induction rows as [|x rows IH]; intros block i Hi; [done|].
  destruct i as [|i]; cbn in Hi.
  - injection Hi as ->. exists [], (concat (imap (block ∘ S) rows)). reflexivity.
  - destruct (IH (block ∘ S) i Hi) as (k1 & k2 & Hk).
    exists (block 0%nat x ++ k1), k2. cbn [imap concat]. rewrite Hk.
    by rewrite <- app_assoc.
Qed.

(** A line of a text occurs in it. *)
Lemma has_line_occurs content line : has_line content line → occurs_in line content.
Proof. intros (pre & suf & -> & _). by exists pre, (nl +:+ suf). Qed.


Lemma prefix_app (s suf : string) : String.prefix s (s +:+ suf) = true.
Proof.
  induction s as [|c s IH]; simpl; [by destruct suf|].
  destruct (ascii_dec c c); [exact IH | done].
Qed.

Lemma contains_prefix (sub s : string) :
  String.prefix sub s = true → Py.contains sub s = true.
Proof. destruct s; cbn [Py.contains]; by intros ->. Qed.

(** [Py.contains] finds every occurrence. *)
Lemma contains_occurs (s content : string) :
  occurs_in s content → Py.contains s content = true.
Proof.
  intros (pre & suf & ->).
  induction pre as [|c pre IH].
  - change ("" +:+ s +:+ suf) with (s +:+ suf). apply contains_prefix, prefix_app.
  - change (String c pre +:+ s +:+ suf) with (String c (pre +:+ s +:+ suf)).
    cbn [Py.contains]. rewrite IH. apply orb_true_r.
Qed.

End LineFacts.

(* ===================================================================== *)
(** ** What a save leaves on the disk *)
(* ===================================================================== *)

Module FileFacts.
Import Qt Shape Text SolverGUI EmitFacts.
Section S.
Context {F : Type} `{Py.Float F}.

Implicit Types (g : SolverGUI.t F) (w : OS.World).

Lemma sconcat_take_drop (k : nat) (cs : list string) :
  sconcat (take k cs) +:+ sconcat (drop k cs) = sconcat cs.
Proof. by rewrite <- sconcat_app, take_drop. Qed.

(** A sequence of writes to a file that exists appends the pieces up to
    the first failure, and all of them when it ends well. *)
Lemma write_all_appends f cs g w old :
  OS.files w !! f = Some old →
  ∃ k, (k ≤ length cs)%nat ∧
       OS.files (write_all f cs (g, w)).2.2
       = <[f := old +:+ sconcat (take k cs)]> (OS.files w) ∧
       ((write_all f cs (g, w)).1 = Py.Ok tt → k = length cs) ∧
       (write_all f cs (g, w)).2.1 = g.
Proof.
  revert w old. induction cs as [|c cs IH]; intros w old Hold.
  - exists 0%nat. split; [done|]. cbn. by rewrite sapp_nil_r, insert_id.
  - rewrite RunFacts.write_all_cons. cbn zeta.
    destruct (default false (head (OS.faults w))).
    + exists 0%nat. split; [lia|]. cbn. by rewrite sapp_nil_r, insert_id.
    + match goal with
      | |- context [write_all f cs (g, ?v)] =>
          destruct (IH v (old +:+ c)) as (k & Hk & Hfiles & Hok & Hg)
      end.
      { cbn. rewrite Hold. cbn. apply lookup_insert_eq. }
      exists (S k). split; [cbn; lia|]. rewrite Hfiles. cbn.
      split; [|split; [intros Hr; f_equal; by apply Hok | done]].
      rewrite insert_insert_eq. f_equal.
      fold (sconcat (take k cs)). by rewrite sapp_assoc.
Qed.

(** The disk after a save: when the file cannot be opened nothing
    changes; otherwise the file holds a beginning of the text of the form,
    all of it when no error is printed. *)
Lemma save_disk path g w :
  Inv.gui g → path ≠ "" →
  ∃ w', save path g w = (Py.Ok tt, (g, w')) ∧
    ((head (OS.faults w) = Some true ∧ OS.files w' = OS.files w ∧
      OS.stdout w' ≠ OS.stdout w) ∨
     (head (OS.faults w) ≠ Some true ∧
      ∃ content,
        OS.files w' = <[path := content]> (OS.files w) ∧
        starts content (text_of g) ∧
        (OS.stdout w' = OS.stdout w → content = text_of g))).
Proof.
  intros Hg Hpath.
  destruct (SaveFacts.save_body_text g path Hg) as (cs & Hbody & Htext).
  unfold save, save_input_file. apply String.eqb_neq in Hpath. rewrite Hpath.
  unfold Py.try_except, with_open. rewrite bind_run.
  unfold os_do at 1, OS.open_w, OS.next_fault. cbn [fst snd].
  destruct (OS.faults w) as [|[|] fs] eqn:Hf; cbn [head default from_option id tail].
  2:{ eexists. split; [reflexivity|]. left. split; [done|]. cbn. split; [done|].
      intros Heq. apply (f_equal length) in Heq. rewrite length_app in Heq. cbn in Heq. lia. }
  all: unfold closing; rewrite Hbody by reflexivity.
  all: match goal with
       | |- context [write_all ?p ?c (?a, ?v)] =>
           destruct (write_all_appends p c a v "") as (k & Hk & Hfiles & Hok & Hg');
             [cbn; apply lookup_insert_eq|];
             pose proof (RunFacts.write_all_run p c a v)
               as (r0 & u0 & Hrun & Hout & _);
             destruct (write_all p c (a, v)) as [r [g1 u]]
       end.
  all: cbn in Hfiles, Hok, Hg', Hout; subst g1.
  all: injection Hrun as -> ->.
  all: rewrite insert_insert_eq in Hfiles.
  all: unfold os_do, OS.close, OS.next_fault; cbn [fst snd].
  all: destruct (default false (head (OS.faults u0))), r0 as [[]|e]; cbn.
  all: (eexists; split; [reflexivity|]).
  all: right; (split; [done|]).
  all: eexists (sconcat (take k _)); cbn; rewrite Hfiles, Hout.
  all: (split; [reflexivity|]).
  all: (split; [eexists (sconcat (drop k _)); by rewrite sconcat_take_drop, Htext|]).
  all: try (intros Heq; apply (f_equal length) in Heq; rewrite length_app in Heq;
            cbn in Heq; lia).
  all: intros _; rewrite (Hok eq_refl), firstn_all; exact Htext.
Qed.

End S.
End FileFacts.

(* ===================================================================== *)
(** ** Physical tab: the non-dimensional check *)
(* ===================================================================== *)

Module PhysicalFacts.
Import PhysicalTab.
Section S.
Context {F : Type} `{Py.Float F}.

(** The check fills the two result fields and does nothing else. *)
Lemma calculate_nondim_run (self : PhysicalTab.t F) (out : list string) :
  calculate_nondim (self, out)
  = (Py.Ok tt,
     ({| inputs := inputs self;
         lbl_reynolds := (nondim_labels (inputs self)).1;
         lbl_mach := (nondim_labels (inputs self)).2 |}, out)).
Proof.
  unfold calculate_nondim, Py.try_except.
  assert (calculate_nondim_try (self, out)
          = (Py.Ok tt,
             ({| inputs := inputs self;
                 lbl_reynolds := (nondim_labels (inputs self)).1;
                 lbl_mach := (nondim_labels (inputs self)).2 |}, out))) as ->; [|done].
  unfold calculate_nondim_try, nondim_labels, Py.truediv, on_self,
    Py.modify, Py.lift, Py.get, mbind, Py.M_bind.
  destruct self as [[rho U mu L gamma a] re ma]. cbn.
  destruct (Py.is_zero mu), (Py.is_zero a); reflexivity.
Qed.

End S.
End PhysicalFacts.

(* ===================================================================== *)
(** ** The properties of the program *)
(* ===================================================================== *)

Section Properties.
Context {F : Type} `{Py.Float F}.

Implicit Types (g : SolverGUI.t F) (w : OS.World).

Lemma row_labels_items (rows : list (Shape.bc_row F)) :
  BoundaryTab.row_labels (Qt.QBoxLayout (map Shape.bc_item rows))
  = map Some (map Shape.r_label rows).
Proof. cbn. rewrite !map_map. by apply map_ext. Qed.

(** C3. Sequential row numbering is an invariant of the dynamic row lists:
    in every form a session reaches (by any sequence of add-row and
    remove-row events, and of the other events of the form), the [n] rows of
    the geometry boundary-file list are labelled [B-1] to [B-n] in display
    order, and so are the rows of each boundary-condition sub-tab. *)
Theorem rows_numbered g :
  Session.reachable g →
  GeometryTab.displayed_labels (SolverGUI.geometry_tab g)
  = map Some (numbered (length (GeometryTab.scroll_layout (SolverGUI.geometry_tab g)))) ∧
  ∀ tab layout,
    In (tab, layout) (BoundaryTab.bc_layouts (SolverGUI.boundary_tab g)) →
    BoundaryTab.row_labels layout = map Some (numbered (Qt.count layout)).
Proof.
  intros Hg%SessionFacts.reachable_inv. split.
  - destruct Hg as [[Hs Hl _] _ _ _ _ _ Hnd _].
    rewrite GeometryFacts.displayed_labels_sync by done.
    by rewrite Hl, Hs, length_map.
  - intros tab layout Hin.
    pose proof (Inv.bt_good _ (Inv.gui_boundary _ Hg)) as Hgood.
    rewrite Forall_forall in Hgood.
    destruct (Hgood (tab, layout)) as (rows & Hrows & _ & Hl); [by apply list_elem_of_In|].
    cbn [snd] in Hrows. subst layout.
    rewrite row_labels_items, Hl. cbn [Qt.count]. by rewrite length_map.
Qed.

(** C4. Boundary file names entered in the geometry tab feed the default
    boundary-condition labels: refreshing the open boundary-condition
    sub-tab of a reachable form succeeds and leaves it with as many rows
    as the geometry tab has boundary rows; for every geometry row [i] with
    a non-empty file path, the name field of row [i] holds the file's base
    name with its extension removed. *)
Theorem refresh_names_rows_after_files g :
  Session.reachable g →
  ∃ g' rows,
    Session.refresh_active_boundary_tab g = Py.Ok g' ∧
    Py.dict_get (BoundaryTab.bc_layouts (SolverGUI.boundary_tab g'))
      (Qt.tabText (BoundaryTab.bc_tabs (SolverGUI.boundary_tab g))
         (Qt.tab_index (BoundaryTab.bc_tabs (SolverGUI.boundary_tab g))))
    = Some (Qt.QBoxLayout (map Shape.bc_item rows)) ∧
    length rows = length (GeometryTab.boundary_rows (SolverGUI.geometry_tab g)) ∧
    ∀ i row,
      GeometryTab.boundary_rows (SolverGUI.geometry_tab g) !! i = Some row →
      Qt.text (GeometryTab.edit row) ≠ "" →
      ∃ r, rows !! i = Some r ∧
           Qt.text (Shape.r_name r)
           = (Py.os_path.splitext (Py.os_path.basename (Qt.text (GeometryTab.edit row)))).1.
Proof.
  intros Hg%SessionFacts.reachable_inv.
  unfold Session.refresh_active_boundary_tab.
  rewrite RefreshFacts.refresh_active_boundary_tab_rows by apply Hg.
  rewrite (Inv.gui_ref _ Hg). cbn [SolverGUI.deref mbind Py.Res_bind mret Py.Res_ret].
  set (grows := GeometryTab.boundary_rows (SolverGUI.geometry_tab g)).
  set (name := Qt.tabText _ _).
  eexists _, (map (Shape.refreshed_row false grows name (SolverGUI.next_id g))
                (seq 0 (length grows))).
  split; [reflexivity|]. cbn [SolverGUI.boundary_tab Session.created Session.with_boundary
                               BoundaryTab.bc_layouts].
  split; [|split].
  - apply BoundaryFacts.dict_get_set.
    rewrite (Inv.bt_keys _ (Inv.gui_boundary _ Hg)).
    apply RefreshFacts.open_tab_name, Hg.
  - by rewrite length_map, length_seq.
  - intros i row Hi Htext.
    pose proof (lookup_lt_Some _ _ _ Hi) as Hlt.
    eexists. split.
    + change (map ?f ?l) with (f <$> l).
      rewrite list_lookup_fmap, lookup_seq_lt by done. reflexivity.
    + unfold Shape.refreshed_row. cbn [negb andb plus].
      apply Nat.ltb_lt in Hlt. rewrite Hlt, Hi.
      apply String.eqb_neq in Htext. rewrite Htext. reflexivity.
Qed.

(** C9. The geometry tab's boundary-file list is never empty: one row is
    created at initialisation ([w0] is the identity of its container);
    [remove_boundary_row] changes nothing when the list holds one row or
    fewer; and every form a session reaches has at least one row, shown by
    the layout. *)
Theorem boundary_list_never_empty g (w0 w : Qt.wid) (self : GeometryTab.t) :
  Session.reachable g →
  length (GeometryTab.boundary_rows (GeometryTab.init w0)) = 1%nat ∧
  ((length (GeometryTab.boundary_rows self) ≤ 1)%nat →
   GeometryTab.remove_boundary_row w self = self) ∧
  (1 ≤ length (GeometryTab.boundary_rows (SolverGUI.geometry_tab g)))%nat ∧
  length (GeometryTab.scroll_layout (SolverGUI.geometry_tab g))
  = length (GeometryTab.boundary_rows (SolverGUI.geometry_tab g)).
Proof.
  intros Hg%SessionFacts.reachable_inv. split; [reflexivity|]. split; [|split].
  - intros Hle. unfold GeometryTab.remove_boundary_row.
    apply Nat.leb_le in Hle. by rewrite Hle.
  - apply Hg.
  - rewrite (Inv.geo_sync _ (Inv.gui_geometry _ Hg)). apply length_map.
Qed.

(** C10. The non-dimensional number check never divides by zero: for
    every assignment of the spin boxes the [try] block of
    [calculate_nondim] ends without an exception and nothing is printed;
    the Reynolds field shows [Inf] when [mu == 0] and the quotient
    [rho * U * L / mu], taken with a non-zero divisor, otherwise; the Mach
    field shows [Inf] when [a == 0] and [U / a] otherwise. *)
Theorem calculate_nondim_safe (self : PhysicalTab.t F) (out : list string) :
  let i := PhysicalTab.inputs self in
  let shown :=
    {| PhysicalTab.inputs := i;
       PhysicalTab.lbl_reynolds :=
         if Py.is_zero (PhysicalTab.mu i) then "Inf"
         else Py.format_2f
                (Py.fdiv_nonzero
                   (Py.fmul (Py.fmul (PhysicalTab.rho i) (PhysicalTab.U i)) (PhysicalTab.L i))
                   (PhysicalTab.mu i));
       PhysicalTab.lbl_mach :=
         if Py.is_zero (PhysicalTab.a i) then "Inf"
         else Py.format_4f (Py.fdiv_nonzero (PhysicalTab.U i) (PhysicalTab.a i)) |} in
  PhysicalTab.calculate_nondim_try (self, out) = (Py.Ok tt, (shown, out)) ∧
  PhysicalTab.calculate_nondim (self, out) = (Py.Ok tt, (shown, out)).
Proof.
  cbn zeta.
  match goal with |- ?first ∧ _ => assert first as Htry end.
  { unfold PhysicalTab.calculate_nondim_try, Py.truediv, PhysicalTab.on_self,
      Py.modify, Py.lift, Py.get, mbind, Py.M_bind.
    destruct self as [[rho U mu L gamma a] re ma]. cbn.
    destruct (Py.is_zero mu), (Py.is_zero a); reflexivity. }
  split; [exact Htry|].
  unfold PhysicalTab.calculate_nondim, Py.try_except. by rewrite Htry.
Qed.

(** The file a save leaves when no file operation fails. *)
Lemma saved_file g path w :
  Session.reachable g → path ≠ "" → OS.faults w = [] →
  OS.files (Text.save path g w).2.2 !! path = Some (Text.text_of g).
Proof.
  intros Hg%SessionFacts.reachable_inv Hpath Hf.
  destruct (RunFacts.save_quiet path g w Hg Hpath Hf) as (cs & _ & ->).
  cbn. apply lookup_insert_eq.
Qed.

(** The block of a row of a boundary-condition section is a block of
    lines of the file. *)
Lemma rows_in_file g title (block : nat → string * Shape.bc_row F → list Text.kv) rows i p :
  In (title, Text.bc_kvs block rows) (Text.sections g) →
  rows !! i = Some p → block i p ≠ [] →
  has_line (Text.text_of g) (lines (map Text.kv_text (block i p))).
Proof.
  intros Hsec Hi Hne.
  destruct (LineFacts.block_split block rows i p Hi) as (k1 & k2 & Hk).
  eapply (LineFacts.block_in_file _ title _
            (("numberBC", Py.str_int (Z.of_nat (length rows))) :: k1) (block i p) k2);
    [exact Hsec | | exact Hne].
  unfold Text.bc_kvs. by rewrite Hk.
Qed.


(** C2. The mapping from widget state to file is deterministic: for a
    form [g] and a path, two saves on which the file opens and that meet
    the same failures of file operations leave the same contents at the
    path, whatever else the two worlds hold (other files, earlier contents
    of the file, console output); when no file operation fails the
    contents are the text of [g], a function of the widget state. *)
Theorem save_deterministic g path w1 w2 :
  Session.reachable g → path ≠ "" →
  OS.faults w1 = OS.faults w2 → head (OS.faults w1) ≠ Some true →
  OS.files (Text.save path g w2).2.2 !! path = OS.files (Text.save path g w1).2.2 !! path ∧
  (OS.faults w1 = [] →
   OS.files (Text.save path g w1).2.2 !! path = Some (Text.text_of g)).
Proof.
  intros Hg Hpath Hf Hopen. split.
  - symmetry. apply RunFacts.save_same; [done..|]. by apply SessionFacts.reachable_inv.
  - intros Hquiet. by apply saved_file.
Qed.

(** C6. The only failure of saving is a failed file operation, and it is
    contained. [save_input_file] returns normally in every case. With an
    empty path (the dialog cancelled) it leaves the world as it is, so no
    file is written or created. Otherwise a save of the form takes
    [save_ops path g] file operations (opening the file, the writes,
    closing it): when none of them fails nothing is printed and the file
    holds the text of the form; when one of them fails, a line
    [Error saving file: ...] is printed, a traceback goes to the error
    stream, and the function has returned normally all the same. *)
Theorem save_contains_failure g path w :
  Session.reachable g →
  (Text.save path g w).1 = Py.Ok tt ∧
  Text.save "" g w = (Py.Ok tt, (g, w)) ∧
  (path ≠ "" →
   ((∀ i, (i < save_ops path g)%nat → OS.faults w !! i ≠ Some true) →
    OS.stdout (Text.save path g w).2.2 = OS.stdout w ∧
    OS.stderr (Text.save path g w).2.2 = OS.stderr w ∧
    OS.files (Text.save path g w).2.2 !! path = Some (Text.text_of g)) ∧
   ((∃ i, (i < save_ops path g)%nat ∧ OS.faults w !! i = Some true) →
    (∃ msg, OS.stdout (Text.save path g w).2.2
            = OS.stdout w ++ ["Error saving file: " +:+ msg]) ∧
    (∃ trace, trace ≠ [] ∧ OS.stderr (Text.save path g w).2.2 = OS.stderr w ++ trace))).
Proof.
  intros Hg%SessionFacts.reachable_inv.
  split; [apply RunFacts.save_returns|]. split; [apply RunFacts.save_cancelled|].
  intros Hpath.
  destruct (SaveFacts.save_body_text g path Hg) as (cs & Hbody & _).
  rewrite (RunFacts.save_ops_count path g cs Hpath Hbody).
  destruct (RunFacts.save_run_pieces path g w cs Hpath Hbody) as (w' & Hrun & _ & Hcases).
  destruct (FileFacts.save_disk path g w Hg Hpath) as (w'' & Hrun' & Hdisk).
  rewrite Hrun in Hrun'. injection Hrun' as <-. rewrite Hrun. cbn [fst snd].
  split.
  - intros Hclean.
    destruct Hcases as [(_ & Hout & Herr) | ((i & Hi & Hfault) & _)];
      [|by destruct (Hclean i Hi)].
    split; [exact Hout|]. split; [exact Herr|].
    destruct Hdisk as [(Hopen & _) | (_ & content & Hfiles & _ & Hfull)].
    + destruct (Hclean 0%nat); [lia|]. by rewrite <- head_lookup.
    + by rewrite Hfiles, lookup_insert_eq, Hfull.
  - intros (i & Hi & Hfault).
    destruct Hcases as [(Hno & _) | (_ & Hout & Herr)]; [by destruct (Hno i Hi)|].
    split.
    + by exists "OSError".
    + by exists ["Traceback (most recent call last):"].
Qed.

(** C7. The output is write-only and saving has no effect on the form:
    the file operations of [save_input_file] open the chosen path in write
    mode, write to it and close it, and none reads a file; the form after
    the call is the form before it. *)
Theorem save_write_only_frame g path w :
  Session.reachable g →
  (Text.save path g w).2.1 = g ∧
  ∃ ops, OS.syscalls (Text.save path g w).2.2 = OS.syscalls w ++ ops ∧
         Forall (write_only path) ops.
Proof.
  intros Hg%SessionFacts.reachable_inv.
  destruct (String.eqb_spec path "") as [-> | Hpath].
  - rewrite RunFacts.save_cancelled. split; [done|].
    exists []. split; [by rewrite app_nil_r | constructor].
  - destruct (RunFacts.save_run path g w Hg Hpath) as (w' & n & -> & Hops & _).
    split; [done | exact Hops].
Qed.

(** C5 (amended). Prescribed-motion tags are consecutive integers, and the
    displacement rows refer to them: group [i] (from 0) is written as a
    block that starts with [tag = i+1]. The mesh section counts and lists,
    in order, the displacement rows whose type is not [None], without
    those whose tag is 0 and whose type is [prescribed]. A listed row
    whose tag is greater than 0 is written with type [prescribed] and a
    [tag =] line carrying the tag; a listed row with tag 0 is written with
    its selected type, in lower case, and a [val =] line. *)
Theorem mesh_section_tags g path w :
  Session.reachable g → path ≠ "" → OS.faults w = [] →
  let bt := SolverGUI.boundary_tab g in
  let content := Text.text_of g in
  OS.files (Text.save path g w).2.2 !! path = Some content ∧
  (∀ i grp,
     Text.groups_of (SolverGUI.prescribed_tab g) !! i = Some grp →
     has_line content (lines (map Text.kv_text (Text.group_block i grp))) ∧
     head (Text.group_block i grp) = Some ("tag", Py.str_int (Z.of_nat i + 1))) ∧
  has_line content
    (lines ["// Mesh boundary conditions";
            "numberBC = " +:+ Py.str_int (Z.of_nat (length (Text.mesh_rows bt)))]) ∧
  (∀ i p,
     Text.mesh_rows bt !! i = Some p →
     has_line content (lines (map Text.kv_text (Text.mesh_block i p)))) ∧
  (∀ p,
     In p (Text.disp_rows bt) →
     (In p (Text.mesh_rows bt) ↔
      Text.type_text p.2 ≠ "none" ∧
      ¬ (Text.tag_of p.2 = 0 ∧ Text.type_text p.2 = "prescribed"))) ∧
  (∀ i (p : string * Shape.bc_row F),
     0 < Text.tag_of p.2 →
     Text.mesh_block i p
     = [("index", Py.str_int (Z.of_nat i)); ("type", "prescribed"); ("var", p.1);
        ("nodes", Qt.text (Shape.r_name p.2)); ("tag", Py.str_int (Text.tag_of p.2))]) ∧
  (∀ i (p : string * Shape.bc_row F),
     Text.tag_of p.2 = 0 → Text.type_text p.2 ≠ "prescribed" →
     Text.mesh_block i p
     = [("index", Py.str_int (Z.of_nat i)); ("type", Text.type_text p.2); ("var", p.1);
        ("nodes", Qt.text (Shape.r_name p.2)); ("val", Py.repr (Shape.r_val p.2))]).
Proof.
  intros Hg Hpath Hf. cbn zeta. split; [by apply saved_file|].
  split; [|split; [|split; [|split; [|split]]]].
  - intros i grp Hi. split; [|reflexivity].
    destruct (LineFacts.block_split Text.group_block _ i grp Hi) as (k1 & k2 & Hk).
    eapply (LineFacts.block_in_file _ "Prescribed motion details" _
              (("numberBC", _) :: k1) (Text.group_block i grp) k2); [| |done].
    + unfold Text.sections. cbn [In]. do 7 right. left. reflexivity.
    + unfold Text.prescribed_kvs. by rewrite Hk.
  - apply (LineFacts.head_in_file _ "Mesh boundary conditions"
             ("numberBC", _)
             (concat (imap Text.mesh_block (Text.mesh_rows (SolverGUI.boundary_tab g))))).
    unfold Text.sections. cbn [In]. do 5 right. left. reflexivity.
  - intros i p Hi. eapply (rows_in_file g "Mesh boundary conditions"); [|exact Hi|].
    + unfold Text.sections. cbn [In]. do 5 right. left. reflexivity.
    + unfold Text.mesh_block. by repeat case_match.
  - intros p Hp. unfold Text.mesh_rows, Text.mesh_kept, Text.selected.
    rewrite !filter_In, negb_true_iff, orb_true_iff, !negb_true_iff.
    rewrite !String.eqb_neq, Z.eqb_neq. split.
    + intros [[_ Hsel] Hkept]. split; [done|]. intros [Htag Hty]. by destruct Hkept.
    + intros [Hsel Hnot]. split; [done|].
      destruct (decide (Text.tag_of p.2 = 0)) as [Htag|Htag]; [|by left].
      right. intros Hty. by apply Hnot.
  - intros i p Htag. unfold Text.mesh_block.
    apply Z.ltb_lt in Htag. by rewrite Htag.
  - intros i p Htag Hty. unfold Text.mesh_block. rewrite Htag.
    apply String.eqb_neq in Hty. by rewrite Hty.
Qed.

(** C8. In the flow section of the file every velocity row whose selected
    type is not [None] is written, in order: a row of type [matchMeshVel],
    spelled [matchmeshvel], without a [val =] line, any other row with
    one. Rows of type [None] are in none of the three boundary-condition
    sections, and the [numberBC] line of each section counts the rows the
    section lists. *)
Theorem flow_section_types g path w :
  Session.reachable g → path ≠ "" → OS.faults w = [] →
  let bt := SolverGUI.boundary_tab g in
  let content := Text.text_of g in
  OS.files (Text.save path g w).2.2 !! path = Some content ∧
  (∀ i (p : string * Shape.bc_row F),
     Text.flow_rows bt !! i = Some p →
     has_line content (lines (map Text.kv_text (Text.flow_block i p)))) ∧
  (∀ i (p : string * Shape.bc_row F),
     Qt.currentText (Shape.r_type p.2) = "matchMeshVel" →
     Text.type_text p.2 = "matchmeshvel" ∧
     Text.flow_block i p
     = [("index", Py.str_int (Z.of_nat i)); ("type", "matchmeshvel"); ("var", p.1);
        ("nodes", Qt.text (Shape.r_name p.2))]) ∧
  (∀ i (p : string * Shape.bc_row F),
     Text.type_text p.2 ≠ "matchmeshvel" →
     Text.flow_block i p
     = [("index", Py.str_int (Z.of_nat i)); ("type", Text.type_text p.2); ("var", p.1);
        ("nodes", Qt.text (Shape.r_name p.2)); ("val", Py.repr (Shape.r_val p.2))]) ∧
  (∀ p, In p (Text.flow_rows bt) ↔
        In p (Text.velocity_rows bt) ∧ Text.type_text p.2 ≠ "none") ∧
  (∀ p, In p (Text.mesh_rows bt) →
        In p (Text.disp_rows bt) ∧ Text.type_text p.2 ≠ "none") ∧
  (∀ p, In p (Text.acoustic_rows bt) ↔
        In p (Text.potential_rows bt) ∧ Text.type_text p.2 ≠ "none") ∧
  (∀ p : string * Shape.bc_row F, Qt.currentText (Shape.r_type p.2) = "None" → Text.type_text p.2 = "none") ∧
  has_line content
    (lines ["// Flow boundary conditions";
            "numberBC = " +:+ Py.str_int (Z.of_nat (length (Text.flow_rows bt)))]) ∧
  has_line content
    (lines ["// Mesh boundary conditions";
            "numberBC = " +:+ Py.str_int (Z.of_nat (length (Text.mesh_rows bt)))]) ∧
  has_line content
    (lines ["// Acoustic boundary conditions";
            "numberBC = " +:+ Py.str_int (Z.of_nat (length (Text.acoustic_rows bt)))]).
Proof.
  intros Hg Hpath Hf. cbn zeta. split; [by apply saved_file|].
  repeat match goal with |- _ ∧ _ => split end.
  - intros i p Hi. eapply (rows_in_file g "Flow boundary conditions"); [|exact Hi|].
    + unfold Text.sections. cbn [In]. do 4 right. left. reflexivity.
    + unfold Text.flow_block. done.
  - intros i p Hty. split.
    + unfold Text.type_text. by rewrite Hty.
    + unfold Text.flow_block, Text.type_text. by rewrite Hty.
  - intros i p Hty. unfold Text.flow_block.
    apply String.eqb_neq in Hty. by rewrite Hty.
  - intros p. unfold Text.flow_rows, Text.selected.
    rewrite filter_In, negb_true_iff, String.eqb_neq. tauto.
  - intros p. unfold Text.mesh_rows, Text.selected.
    rewrite !filter_In, negb_true_iff, String.eqb_neq. tauto.
  - intros p. unfold Text.acoustic_rows, Text.selected.
    rewrite filter_In, negb_true_iff, String.eqb_neq. tauto.
  - intros p Hty. unfold Text.type_text. by rewrite Hty.
  - apply (LineFacts.head_in_file _ "Flow boundary conditions"
             ("numberBC", _)
             (concat (imap Text.flow_block (Text.flow_rows (SolverGUI.boundary_tab g))))).
    unfold Text.sections. cbn [In]. do 4 right. left. reflexivity.
  - apply (LineFacts.head_in_file _ "Mesh boundary conditions"
             ("numberBC", _)
             (concat (imap Text.mesh_block (Text.mesh_rows (SolverGUI.boundary_tab g))))).
    unfold Text.sections. cbn [In]. do 5 right. left. reflexivity.
  - apply (LineFacts.head_in_file _ "Acoustic boundary conditions"
             ("numberBC", _)
             (concat (imap Text.acoustic_block (Text.acoustic_rows (SolverGUI.boundary_tab g))))).
    unfold Text.sections. cbn [In]. do 6 right. left. reflexivity.
Qed.

End Properties.

(* ===================================================================== *)
(** ** The properties on concrete sessions *)
(* ===================================================================== *)

Module DemoFacts.

Lemma value_ok {A} (r : Py.Res A) (H : Py.is_ok r = true) : r = Py.Ok (Demo.value r H).
Proof. by destruct r. Qed.

(** A script of events leads to a form of the session. *)
Lemma run_reachable script (H : Py.is_ok (Demo.run script) = true) :
  Forall (λ event, ∀ g g', event g = Py.Ok g' → Session.step g g') script →
  Session.reachable (Demo.value (Demo.run script) H).
Proof.
  intros Hsteps. pose proof (value_ok _ H) as Hrun.
  revert Hrun. generalize (Demo.value (Demo.run script) H). clear H.
  unfold Demo.run. destruct SolverGUI.init as [g0|e] eqn:Hinit; [|done].
  cbn [mbind Py.Res_bind].
  assert (Session.reachable g0) as Hg0 by by apply Session.reachable_init.
  clear Hinit. revert g0 Hg0.
  induction Hsteps as [|event script Hev _ IH]; intros g0 Hg0 g; cbn [Py.foldM].
  - by intros [= <-].
  - destruct (event g0) as [g1|e] eqn:Hg1; [|done].
    cbn [mbind Py.Res_bind]. apply IH.
    eapply Session.reachable_step; [exact Hg0 | by apply Hev].
Qed.

Ltac events :=
  repeat first [apply Forall_nil_2 | apply Forall_cons_2];
  try (intros ? ? [= <-]; constructor; fail);
  try (intros ? ? ?; eapply Session.step_add_bc_row; [|eassumption];
       cbn; repeat first [left; reflexivity | right]);
  try (intros ? ? ?; eapply Session.step_refresh_active_boundary_tab; eassumption).

Lemma opened_reachable : Session.reachable Demo.opened.
Proof. apply run_reachable. events. Qed.


Lemma tagged_reachable : Session.reachable Demo.tagged.
Proof. apply run_reachable. events. Qed.

Lemma worked_reachable : Session.reachable Demo.worked.
Proof. apply run_reachable. events. Qed.

End DemoFacts.

(** Closes [has_line c l'] with [H : has_line c l] when [l] evaluates to [l']. *)
Ltac evaluated H :=
  match type of H with
  | has_line ?c ?l =>
      match goal with
      | |- has_line c ?l' => replace l' with l by (vm_compute; reflexivity); exact H
      end
  end.

Ltac listed := vm_compute; repeat first [left; reflexivity | right].

(** C3 on the longer session. *)
Lemma rows_numbered_witness :
  Session.reachable Demo.worked ∧
  GeometryTab.displayed_labels (SolverGUI.geometry_tab Demo.worked)
  = map Some (numbered (length (GeometryTab.scroll_layout (SolverGUI.geometry_tab Demo.worked)))) ∧
  ∀ tab layout,
    In (tab, layout) (BoundaryTab.bc_layouts (SolverGUI.boundary_tab Demo.worked)) →
    BoundaryTab.row_labels layout = map Some (numbered (Qt.count layout)).
Proof.
  split; [exact DemoFacts.worked_reachable|].
  exact (rows_numbered Demo.worked DemoFacts.worked_reachable).
Defined.

(** C4 on the longer session: the first velocity row is named after
    [mesh/wall.dat]. *)
Lemma refresh_names_rows_after_files_witness :
  Session.reachable Demo.worked ∧
  ∃ g' rows r,
    Session.refresh_active_boundary_tab Demo.worked = Py.Ok g' ∧
    Py.dict_get (BoundaryTab.bc_layouts (SolverGUI.boundary_tab g')) "X-velocity"
    = Some (Qt.QBoxLayout (map Shape.bc_item rows)) ∧
    length rows = 2%nat ∧
    rows !! 0%nat = Some r ∧
    Qt.text (Shape.r_name r) = "wall".
Proof.
  split; [exact DemoFacts.worked_reachable|].
  destruct (refresh_names_rows_after_files Demo.worked DemoFacts.worked_reachable)
    as (g' & rows & Hrun & Hlayout & Hlen & Hrows).
  edestruct (Hrows 0%nat) as (r & Hr & Hname); [vm_compute; reflexivity | vm_compute; discriminate |].
  exists g', rows, r.
  split; [exact Hrun|]. split; [exact Hlayout|]. split; [exact Hlen|]. split; [exact Hr|].
  rewrite Hname. vm_compute. reflexivity.
Defined.

(** C9 on the longer session and on a list of one row. *)
Lemma boundary_list_never_empty_witness :
  Session.reachable Demo.worked ∧
  (length (GeometryTab.boundary_rows (GeometryTab.init 0)) ≤ 1)%nat ∧
  GeometryTab.remove_boundary_row 0 (GeometryTab.init 0) = GeometryTab.init 0 ∧
  (1 ≤ length (GeometryTab.boundary_rows (SolverGUI.geometry_tab Demo.worked)))%nat.
Proof.
  split; [exact DemoFacts.worked_reachable|].
  destruct (boundary_list_never_empty Demo.worked 0%nat 0%nat (GeometryTab.init 0)
              DemoFacts.worked_reachable) as (Hinit & Hremove & Hlen & _).
  split; [rewrite Hinit; lia|]. split; [|exact Hlen].
  apply Hremove. rewrite Hinit. lia.
Defined.



(** C2: a first save and one over an earlier version of the file. *)
Lemma save_deterministic_witness :
  Session.reachable Demo.worked ∧ "inputFile.txt" ≠ "" ∧
  OS.faults quiet_world = OS.faults Demo.used_world ∧
  head (OS.faults quiet_world) ≠ Some true ∧
  OS.files (Text.save "inputFile.txt" Demo.worked Demo.used_world).2.2 !! "inputFile.txt"
  = OS.files (Text.save "inputFile.txt" Demo.worked quiet_world).2.2 !! "inputFile.txt" ∧
  OS.files (Text.save "inputFile.txt" Demo.worked quiet_world).2.2 !! "inputFile.txt"
  = Some (Text.text_of Demo.worked).
Proof.
  split; [exact DemoFacts.worked_reachable|]. split; [done|]. split; [reflexivity|].
  split; [done|].
  destruct (save_deterministic Demo.worked "inputFile.txt" quiet_world Demo.used_world
              DemoFacts.worked_reachable ltac:(done) eq_refl ltac:(done)) as [Hsame Htext].
  split; [exact Hsame | exact (Htext eq_refl)].
Defined.

(** C6: the first write fails; the error is printed and the call returns. *)
Lemma save_contains_failure_witness :
  Session.reachable Demo.worked ∧ "inputFile.txt" ≠ "" ∧
  (∃ i, (i < save_ops "inputFile.txt" Demo.worked)%nat ∧
        OS.faults Demo.failing_world !! i = Some true) ∧
  (Text.save "inputFile.txt" Demo.worked Demo.failing_world).1 = Py.Ok tt ∧
  ∃ msg, OS.stdout (Text.save "inputFile.txt" Demo.worked Demo.failing_world).2.2
         = ["Error saving file: " +:+ msg].
Proof.
  assert (∃ i, (i < save_ops "inputFile.txt" Demo.worked)%nat ∧
               OS.faults Demo.failing_world !! i = Some true) as Hfails.
  { exists 1%nat. split; [vm_compute; lia | reflexivity]. }
  split; [exact DemoFacts.worked_reachable|]. split; [done|]. split; [exact Hfails|].
  destruct (save_contains_failure Demo.worked "inputFile.txt" Demo.failing_world
              DemoFacts.worked_reachable) as (Hret & _ & Hrun).
  split; [exact Hret|].
  destruct (Hrun ltac:(done)) as [_ Hfailed].
  destruct (Hfailed Hfails) as [Hout _]. exact Hout.
Defined.

(** C7 on the longer session. *)
Lemma save_write_only_frame_witness :
  Session.reachable Demo.worked ∧
  (Text.save "inputFile.txt" Demo.worked Demo.used_world).2.1 = Demo.worked ∧
  ∃ ops,
    OS.syscalls (Text.save "inputFile.txt" Demo.worked Demo.used_world).2.2
    = OS.syscalls Demo.used_world ++ ops ∧
    Forall (write_only "inputFile.txt") ops.
Proof.
  split; [exact DemoFacts.worked_reachable|].
  exact (save_write_only_frame Demo.worked "inputFile.txt" Demo.used_world
           DemoFacts.worked_reachable).
Defined.

(** C5 (amended) on the longer session: the [Dirichlet] row with tag 2 is
    written as [prescribed], and the second group carries tag 2. *)
Lemma mesh_section_tags_witness :
  Session.reachable Demo.worked ∧ "inputFile.txt" ≠ "" ∧ OS.faults quiet_world = [] ∧
  OS.files (Text.save "inputFile.txt" Demo.worked quiet_world).2.2 !! "inputFile.txt"
  = Some (Text.text_of Demo.worked) ∧
  has_line (Text.text_of Demo.worked) (lines ["// Mesh boundary conditions"; "numberBC = 1"]) ∧
  has_line (Text.text_of Demo.worked)
    (lines ["index = 0"; "type = prescribed"; "var = xDisp"; "nodes = "; "tag = 2"]) ∧
  ∃ grp, Text.groups_of (SolverGUI.prescribed_tab Demo.worked) !! 1%nat = Some grp ∧
         head (Text.group_block 1 grp) = Some ("tag", "2").
Proof.
  split; [exact DemoFacts.worked_reachable|]. split; [done|]. split; [reflexivity|].
  destruct (mesh_section_tags Demo.worked "inputFile.txt" quiet_world
              DemoFacts.worked_reachable ltac:(done) eq_refl)
    as (Hfile & Hgroups & Hhead & Hrows & _).
  split; [exact Hfile|]. split; [evaluated Hhead|]. split.
  - eassert (Text.mesh_rows (SolverGUI.boundary_tab Demo.worked) !! 0%nat = Some _) as Hrow
      by (vm_compute; reflexivity).
    pose proof (Hrows _ _ Hrow) as Hblock. evaluated Hblock.
  - eassert (Text.groups_of (SolverGUI.prescribed_tab Demo.worked) !! 1%nat = Some _) as Hgrp
      by (vm_compute; reflexivity).
    eexists. split; [exact Hgrp|]. exact (proj2 (Hgroups _ _ Hgrp)).
Defined.

(** C8 on the longer session: the [matchMeshVel] row has no [val =] line,
    the [Dirichlet] row has one. *)
Lemma flow_section_types_witness :
  Session.reachable Demo.worked ∧ "inputFile.txt" ≠ "" ∧ OS.faults quiet_world = [] ∧
  has_line (Text.text_of Demo.worked) (lines ["// Flow boundary conditions"; "numberBC = 2"]) ∧
  has_line (Text.text_of Demo.worked)
    (lines ["index = 0"; "type = matchmeshvel"; "var = xVelocity"; "nodes = wall"]) ∧
  has_line (Text.text_of Demo.worked)
    (lines ["index = 1"; "type = dirichlet"; "var = xVelocity"; "nodes = inlet"; "val = 0.0"]).
Proof.
  split; [exact DemoFacts.worked_reachable|]. split; [done|]. split; [reflexivity|].
  destruct (flow_section_types Demo.worked "inputFile.txt" quiet_world
              DemoFacts.worked_reachable ltac:(done) eq_refl)
    as (_ & Hrows & _ & _ & _ & _ & _ & _ & Hhead & _).
  split; [evaluated Hhead|]. split.
  - eassert (Text.flow_rows (SolverGUI.boundary_tab Demo.worked) !! 0%nat = Some _) as Hrow
      by (vm_compute; reflexivity).
    pose proof (Hrows _ _ Hrow) as Hblock. evaluated Hblock.
  - eassert (Text.flow_rows (SolverGUI.boundary_tab Demo.worked) !! 1%nat = Some _) as Hrow
      by (vm_compute; reflexivity).
    pose proof (Hrows _ _ Hrow) as Hblock. evaluated Hblock.
Defined.


(** C5 as stated fails: a displacement row with tag 3 whose type is left
    at [None] is not written; the mesh section is empty and the file has
    no [tag = 3] line. *)
Lemma untyped_tagged_row_not_saved :
  Session.reachable Demo.tagged ∧
  (∃ r, Text.disp_rows (SolverGUI.boundary_tab Demo.tagged) = [("xDisp", r)] ∧
        Shape.r_tag r = Some 3 ∧ Qt.currentText (Shape.r_type r) = "None") ∧
  ∃ content,
    OS.files (Text.save "inputFile.txt" Demo.tagged quiet_world).2.2 !! "inputFile.txt"
    = Some content ∧
    Py.contains ("// Mesh boundary conditions" +:+ SolverGUI.nl +:+ "numberBC = 0" +:+ SolverGUI.nl)
      content = true ∧
    ¬ has_line content "tag = 3".
Proof.
  split; [exact DemoFacts.tagged_reachable|]. split.
  - eexists. split; [vm_compute; reflexivity|]. split; vm_compute; reflexivity.
  - eexists. split; [vm_compute; reflexivity|]. split; [vm_compute; reflexivity|].
    intros Hline%LineFacts.has_line_occurs%LineFacts.contains_occurs.
    vm_compute in Hline. discriminate Hline.
Qed.

(* ===================================================================== *)
(** ** More on lists *)
(* ===================================================================== *)

Module ListFacts.
Import Qt.

Lemma remove_first_app_r {A} (p : A → bool) (l : list A) x :
  Forall (λ y, p y = false) l → p x = true → remove_first p (l ++ [x]) = l.
Proof.
  induction 1 as [|y l Hy _ IH]; intros Hx; simpl.
  - by rewrite Hx.
  - by rewrite Hy, IH.
Qed.

Lemma remove_first_middle {A} (p : A → bool) (l1 l2 : list A) x :
  Forall (λ y, p y = false) l1 → p x = true → remove_first p (l1 ++ x :: l2) = l1 ++ l2.
Proof.
  induction 1 as [|y l Hy _ IH]; intros Hx; simpl.
  - by rewrite Hx.
  - by rewrite Hy, IH.
Qed.

Lemma remove_first_none {A} (p : A → bool) (l : list A) :
  Forall (λ y, p y = false) l → remove_first p l = l.
Proof. induction 1 as [|y l Hy _ IH]; simpl; [done|]. by rewrite Hy, IH. Qed.

End ListFacts.

(* ===================================================================== *)
(** ** Geometry tab: what [refresh_ui] keeps in order *)
(* ===================================================================== *)

Module GeometryOrder.
Import Qt GeometryTab.

(** The rows as [refresh_ui] leaves them. *)
Lemma refresh_ui_lookup self i row :
  boundary_rows self !! i = Some row →
  boundary_rows (refresh_ui self) !! i
  = Some {| widget := widget row;
            label := "B-" +:+ Py.str_int (Z.of_nat i + 1);
            edit := {| text := text (edit row);
                       placeholderText :=
                         "Select file for Boundary " +:+ Py.str_int (Z.of_nat i + 1) +:+ "..." |};
            btn_del := (1 <? length (boundary_rows self))%nat |}.
Proof.
  intros Hi. unfold refresh_ui. cbn [boundary_rows]. by rewrite list_lookup_imap, Hi.
Qed.

Lemma refresh_ui_idem self : refresh_ui (refresh_ui self) = refresh_ui self.
Proof.
  unfold refresh_ui.
  cbn [boundary_rows coord_edit conn_edit conn_type scroll_layout].
  rewrite length_imap. f_equal.
  apply list_eq; intros i. rewrite !list_lookup_imap.
  by destruct (boundary_rows self !! i).
Qed.

(** Two row lists that [refresh_ui] cannot tell apart: the same containers
    with the same file fields. *)
Lemma refresh_ui_ext self1 self2 :
  coord_edit self1 = coord_edit self2 → conn_edit self1 = conn_edit self2 →
  conn_type self1 = conn_type self2 → scroll_layout self1 = scroll_layout self2 →
  map (λ row, (widget row, text (edit row))) (boundary_rows self1)
  = map (λ row, (widget row, text (edit row))) (boundary_rows self2) →
  refresh_ui self1 = refresh_ui self2.
Proof.
  intros Hc Hn Ht Hl Hrows. unfold refresh_ui. rewrite Hc, Hn, Ht, Hl.
  assert (length (boundary_rows self1) = length (boundary_rows self2)) as Hlen.
  { apply (f_equal length) in Hrows. by rewrite !length_map in Hrows. }
  rewrite Hlen. f_equal.
  apply list_eq; intros i. rewrite !list_lookup_imap.
  apply (f_equal (λ l, l !! i)) in Hrows.
  change (map ?f ?l) with (f <$> l) in Hrows. rewrite !list_lookup_fmap in Hrows.
  destruct (boundary_rows self1 !! i) as [r1|], (boundary_rows self2 !! i) as [r2|];
    try done.
  cbn in Hrows. injection Hrows as Hw Htx. cbn. by rewrite Hw, Htx.
Qed.

(** The rows are as [refresh_ui] leaves them. *)
Lemma tidy_lookup self i row :
  boundary_rows (refresh_ui self) = boundary_rows self →
  boundary_rows self !! i = Some row →
  label row = "B-" +:+ Py.str_int (Z.of_nat i + 1) ∧
  placeholderText (edit row)
  = "Select file for Boundary " +:+ Py.str_int (Z.of_nat i + 1) +:+ "..." ∧
  btn_del row = (1 <? length (boundary_rows self))%nat.
Proof.
  intros Htidy Hi. pose proof (refresh_ui_lookup self i row Hi) as Hrow.
  rewrite Htidy, Hi in Hrow. injection Hrow as Hrow.
  rewrite Hrow at 1 2 3. done.
Qed.

Lemma tidy_fixed self :
  boundary_rows (refresh_ui self) = boundary_rows self → refresh_ui self = self.
Proof.
  intros Htidy. destruct self as [c n t l rows]. unfold refresh_ui in *.
  cbn [boundary_rows coord_edit conn_edit conn_type scroll_layout] in *.
  by rewrite Htidy.
Qed.

Lemma tidy_alter_edit (f : QLineEdit → QLineEdit) self i :
  (∀ e, placeholderText (f e) = placeholderText e) →
  boundary_rows (refresh_ui self) = boundary_rows self →
  let self' :=
    {| coord_edit := coord_edit self; conn_edit := conn_edit self;
       conn_type := conn_type self; scroll_layout := scroll_layout self;
       boundary_rows :=
         alter (λ row, {| widget := widget row; label := label row;
                          edit := f (edit row); btn_del := btn_del row |})
               i (boundary_rows self) |} in
  boundary_rows (refresh_ui self') = boundary_rows self'.
Proof.
  intros Hf Htidy self'. apply list_eq; intros j.
  destruct (boundary_rows self' !! j) as [row'|] eqn:Hj.
  - rewrite (refresh_ui_lookup _ _ _ Hj). f_equal.
    subst self'. cbn [boundary_rows] in *. rewrite length_alter.
    rewrite list_lookup_alter in Hj.
    case_decide as Hij.
    + subst j. destruct (boundary_rows self !! i) as [row|] eqn:Hrow; [|done].
      destruct (tidy_lookup self i row Htidy Hrow) as (Hl & Hp & Hb).
      cbn in Hj. injection Hj as <-.
      cbn [widget label edit btn_del text placeholderText].
      rewrite <- Hl, <- Hb, <- Hp, <- Hf. by destruct (f (edit row)).
    + destruct (tidy_lookup self j row' Htidy Hj) as (Hl & Hp & Hb).
      rewrite <- Hl, <- Hb, <- Hp. by destruct row' as [? ? [] ?].
  - apply lookup_ge_None. apply lookup_ge_None in Hj.
    by rewrite GeometryFacts.refresh_ui_length.
Qed.

Local Abbreviation shown := (λ row : boundary_row, (widget row, text (edit row))).

Lemma refresh_ui_shown self :
  map shown (boundary_rows (refresh_ui self)) = map shown (boundary_rows self).
Proof.
  unfold refresh_ui. cbn [boundary_rows].
  apply list_eq; intros i.
  change (map ?f ?l) with (f <$> l).
  rewrite !list_lookup_fmap, list_lookup_imap.
  by destruct (boundary_rows self !! i).
Qed.

(** The rows after [remove_boundary_row] of a list of two rows or more. *)
Lemma remove_boundary_row_shown w self :
  (1 < length (boundary_rows self))%nat →
  map shown (boundary_rows (remove_boundary_row w self))
  = remove_first (λ p, Nat.eqb p.1 w) (map shown (boundary_rows self)) ∧
  scroll_layout (remove_boundary_row w self)
  = remove_first (Nat.eqb w) (scroll_layout self).
Proof.
  intros Hlen. unfold remove_boundary_row.
  apply Nat.leb_gt in Hlen. rewrite Hlen. split; [|reflexivity].
  rewrite refresh_ui_shown. cbn [boundary_rows].
  exact (remove_first_map shown (λ p, Nat.eqb p.1 w) (boundary_rows self)).
Qed.

(** Adding a row and deleting it at once gives the tab back. *)
Lemma add_remove w self :
  scroll_layout self = map widget (boundary_rows self) →
  (1 ≤ length (boundary_rows self))%nat →
  boundary_rows (refresh_ui self) = boundary_rows self →
  w ∉ scroll_layout self →
  remove_boundary_row w (add_boundary_row w self) = self.
Proof.
  intros Hsync Hlen Htidy Hw.
  rewrite <- (tidy_fixed self Htidy) at 2.
  unfold add_boundary_row. set (added := refresh_ui _).
  unfold remove_boundary_row.
  assert (length (boundary_rows added) = S (length (boundary_rows self))) as Hadded.
  { subst added. rewrite GeometryFacts.refresh_ui_length. cbn [boundary_rows].
    rewrite length_app. cbn. lia. }
  destruct (length (boundary_rows added) <=? 1)%nat eqn:Hle;
    [apply Nat.leb_le in Hle; lia|].
  assert (Forall (λ v, Nat.eqb v w = false) (scroll_layout self)) as Hfresh.
  { apply Forall_forall. intros v Hv. apply Nat.eqb_neq. intros ->. done. }
  apply refresh_ui_ext; try reflexivity.
  - cbn [scroll_layout]. subst added. unfold refresh_ui. cbn [scroll_layout].
    rewrite (ListFacts.remove_first_app_r (Nat.eqb w)); [done | | apply Nat.eqb_refl].
    eapply Forall_impl; [exact Hfresh|]. cbn. intros v Hv. by rewrite Nat.eqb_sym.
  - cbn [boundary_rows].
    etrans; [exact (remove_first_map shown (λ p, Nat.eqb p.1 w) (boundary_rows added))|].
    subst added. rewrite refresh_ui_shown. cbn [boundary_rows].
    rewrite map_app. cbn [map widget edit text].
    apply ListFacts.remove_first_app_r; [|apply Nat.eqb_refl].
    rewrite Hsync in Hfresh. rewrite Forall_map in Hfresh |- *. exact Hfresh.
Qed.

End GeometryOrder.

Module SessionOrder.
Import Qt Session.
Section S.
Context {F : Type} `{Py.Float F}.
Implicit Types g : SolverGUI.t F.

(** What an event does to the geometry tab. *)
Lemma step_geometry g g' :
  step g g' →
  SolverGUI.geometry_tab g' = SolverGUI.geometry_tab g ∨
  (∃ coord conn idx,
     SolverGUI.geometry_tab g'
     = SolverGUI.geometry_tab (edit_mesh_config coord conn idx g)) ∨
  SolverGUI.geometry_tab g'
  = GeometryTab.add_boundary_row (SolverGUI.next_id g) (SolverGUI.geometry_tab g) ∨
  (∃ w, SolverGUI.geometry_tab g'
        = GeometryTab.remove_boundary_row w (SolverGUI.geometry_tab g)) ∨
  (∃ i path, SolverGUI.geometry_tab g'
             = GeometryTab.set_boundary_file i path (SolverGUI.geometry_tab g)).
Proof.
  destruct 1;
    try match goal with
        | Hr : _ = Py.Ok _ |- _ =>
            revert Hr;
            unfold add_bc_row, remove_bc_row, refresh_active_boundary_tab;
            match goal with |- context [mbind _ ?m] => destruct m end;
            cbn [mbind Py.Res_bind mret Py.Res_ret]; [intros [= <-] | done]
        end;
    first [ by left
          | right; left; by eexists _, _, _
          | right; right; by left
          | right; right; right; left; by eexists
          | right; right; right; right; by eexists _, _ ].
Qed.

(** What an event does to the prescribed-motion tab. *)
Lemma step_prescribed g g' :
  step g g' →
  SolverGUI.prescribed_tab g' = SolverGUI.prescribed_tab g ∨
  SolverGUI.prescribed_tab g'
  = PrescribedTab.add_prescribed_tag (SolverGUI.next_id g) (SolverGUI.prescribed_tab g) ∨
  (∃ i gr n w',
     SolverGUI.prescribed_tab g'
     = PrescribedTab.edit_cell i gr n w' (SolverGUI.prescribed_tab g)).
Proof.
  destruct 1;
    try match goal with
        | Hr : _ = Py.Ok _ |- _ =>
            revert Hr;
            unfold add_bc_row, remove_bc_row, refresh_active_boundary_tab;
            match goal with |- context [mbind _ ?m] => destruct m end;
            cbn [mbind Py.Res_bind mret Py.Res_ret]; [intros [= <-] | done]
        end;
    first [ by left | right; by left | right; right; by eexists _, _, _, _ ].
Qed.

(** No event takes a prescribed-motion group away. *)
Lemma step_groups g g' :
  step g g' →
  ∃ added,
    PrescribedTab.prescribed_layout (SolverGUI.prescribed_tab g')
    = PrescribedTab.prescribed_layout (SolverGUI.prescribed_tab g) ++ added ∧
    length (PrescribedTab.prescribed_tag_rows (SolverGUI.prescribed_tab g'))
    = (length (PrescribedTab.prescribed_tag_rows (SolverGUI.prescribed_tab g))
       + length added)%nat ∧
    (length added ≤ 1)%nat.
Proof.
  intros [-> | [-> | (i & gr & n & w' & ->)]]%step_prescribed.
  - exists []. rewrite app_nil_r. cbn [length]. repeat split; lia.
  - exists [SolverGUI.next_id g]. unfold PrescribedTab.add_prescribed_tag.
    cbn [PrescribedTab.prescribed_layout PrescribedTab.prescribed_tag_rows].
    rewrite length_app. cbn [length]. repeat split; lia.
  - exists []. unfold PrescribedTab.edit_cell.
    cbn [PrescribedTab.prescribed_layout PrescribedTab.prescribed_tag_rows].
    rewrite app_nil_r, length_alter. cbn [length]. repeat split; lia.
Qed.

Lemma reachable_groups g :
  reachable g →
  (1 ≤ length (PrescribedTab.prescribed_tag_rows (SolverGUI.prescribed_tab g)))%nat.
Proof.
  induction 1 as [g Hinit | g g' _ IH Hstep].
  - revert Hinit. unfold SolverGUI.init.
    destruct (BoundaryTab.init 1); cbn [mbind Py.Res_bind mret Py.Res_ret]; [|done].
    intros [= <-]. cbn. lia.
  - destruct (step_groups _ _ Hstep) as (added & _ & -> & _). lia.
Qed.

Lemma reachable_tidy g :
  reachable g →
  GeometryTab.boundary_rows (GeometryTab.refresh_ui (SolverGUI.geometry_tab g))
  = GeometryTab.boundary_rows (SolverGUI.geometry_tab g).
Proof.
  induction 1 as [g Hinit | g g' _ IH Hstep].
  - revert Hinit. unfold SolverGUI.init.
    destruct (BoundaryTab.init 1); cbn [mbind Py.Res_bind mret Py.Res_ret]; [|done].
    intros [= <-]. cbn [SolverGUI.geometry_tab].
    unfold GeometryTab.init, GeometryTab.add_boundary_row.
    by rewrite GeometryOrder.refresh_ui_idem.
  - destruct (step_geometry _ _ Hstep)
      as [-> | [(coord & conn & idx & ->) | [-> | [(w & ->) | (i & path & ->)]]]].
    + exact IH.
    + exact IH.
    + unfold GeometryTab.add_boundary_row. by rewrite GeometryOrder.refresh_ui_idem.
    + unfold GeometryTab.remove_boundary_row. destruct (_ <=? 1)%nat; [exact IH|].
      by rewrite GeometryOrder.refresh_ui_idem.
    + by apply (GeometryOrder.tidy_alter_edit
                  (λ e, {| text := path; placeholderText := placeholderText e |})).
Qed.

End S.
End SessionOrder.


(* ===================================================================== *)
(** ** Boundary tab: what the row buttons and the refresh keep *)
(* ===================================================================== *)

Module BoundaryOrder.
Import Qt Shape BoundaryTab.
Section S.
Context {F : Type} `{Py.Float F}.

Lemma dict_get_set_ne {V} (d : list (string * V)) k k' v :
  k' ≠ k → Py.dict_get (dict_set d k v) k' = Py.dict_get d k'.
Proof.
  intros Hne. induction d as [|[k0 v0] d IH]; simpl.
  - destruct (String.eqb_spec k k'); [congruence | done].
  - destruct (String.eqb_spec k0 k) as [->|Hk]; simpl.
    + destruct (String.eqb_spec k k'); [congruence | done].
    + destruct (String.eqb_spec k0 k'); [done | exact IH].
Qed.

(** Renumbering forgets the label the last row had. *)
Lemma imap_relabel_app (rows : list (bc_row F)) r :
  imap relabel (rows ++ [r]) = imap relabel rows ++ [relabel (length rows) r].
Proof. rewrite imap_app. cbn [imap]. by rewrite Nat.add_0_r. Qed.

(** The row that deleting the row with container [w] takes out is the
    first one with that container. *)
Lemma remove_generic_row_rows (pre post : list (bc_row F)) r :
  Forall (λ x, r_id x ≠ r_id r) pre →
  remove_generic_row (QBoxLayout (map bc_item (pre ++ r :: post))) (r_id r)
  = Py.Ok (QBoxLayout (map bc_item (imap relabel (pre ++ post)))).
Proof.
  intros Hpre. unfold remove_generic_row, removeWidget.
  rewrite BoundaryFacts.remove_first_bc_item, BoundaryFacts.refresh_bc_labels_rows.
  rewrite ListFacts.remove_first_middle; [done | | apply Nat.eqb_refl].
  eapply Forall_impl; [exact Hpre|]. cbn. intros x Hx. by apply Nat.eqb_neq.
Qed.

(** A new row has the first entry of its type list selected, [None]. *)
Lemma fresh_type name : currentText (combo (bc_types name)) = "None".
Proof.
  unfold bc_types.
  destruct (Py.contains "velocity" name); [reflexivity|].
  destruct (Py.contains "disp" name); [reflexivity|].
  by destruct (Py.contains "Acoustic" name).
Qed.

(** The rows [refresh_active_boundary_tab] builds carry no user input but
    the name. *)
Lemma refreshed_row_blank initial grows name w0 i :
  let r := refreshed_row (F := F) initial grows name w0 i in
  currentText (r_type r) = "None" ∧ r_val r = Py.of_decimal 0 0 ∧
  default 0 (r_tag r) = 0.
Proof.
  cbn zeta. unfold refreshed_row.
  assert (∀ lbl, let r := fresh_row (F := F) name (w0 + i) lbl in
                 currentText (r_type r) = "None" ∧ r_val r = Py.of_decimal 0 0 ∧
                 default 0 (r_tag r) = 0) as Hfresh.
  { intros lbl. cbn. split; [apply fresh_type|]. split; [done|].
    by destruct (Py.contains "disp" name). }
  destruct (negb initial && _); [|apply Hfresh].
  destruct (grows !! i); [|apply Hfresh].
  destruct (negb _); [|apply Hfresh].
  apply (Hfresh ("B-" +:+ Py.str_int (Z.of_nat i + 1))).
Qed.

End S.
End BoundaryOrder.

(* ===================================================================== *)
(** ** The Browse buttons *)
(* ===================================================================== *)

Module BrowseFacts.
Import Qt Session.
Section S.
Context {F : Type} `{Py.Float F}.
Implicit Types g : SolverGUI.t F.

Lemma browse_file_cancelled (e : QLineEdit) : Helpers.browse_file "" e = e.
Proof. reflexivity. Qed.

Lemma browse_file_chosen path (e : QLineEdit) :
  path ≠ "" →
  Helpers.browse_file path e = {| text := path; placeholderText := placeholderText e |}.
Proof. intros Hp%String.eqb_neq. unfold Helpers.browse_file. by rewrite Hp. Qed.

Lemma with_geometry_same g : with_geometry (λ gt, gt) g = g.
Proof. by destruct g. Qed.

(** Browsing for a boundary file is typing its path, or nothing when the
    dialog is cancelled. *)
Lemma browse_boundary_file_cases i path g :
  browse_boundary_file i path g
  = if String.eqb path "" then g else set_boundary_file i path g.
Proof.
  unfold browse_boundary_file, set_boundary_file, GeometryTab.click_browse,
    GeometryTab.set_boundary_file.
  destruct (String.eqb_spec path "") as [-> | Hp].
  - rewrite <- (with_geometry_same g) at 2. unfold with_geometry. f_equal.
    destruct (SolverGUI.geometry_tab g) as [c n t l rows]. cbn. f_equal.
    apply list_eq. intros j. rewrite list_lookup_alter.
    case_decide; [subst|done]. by destruct (rows !! j) as [[]|].
  - unfold with_geometry. do 2 f_equal.
    apply list_alter_ext; [|done]. intros row _.
    by rewrite browse_file_chosen.
Qed.

(** The same for the two files of the mesh configuration. *)
Lemma browse_coord_cases path g :
  browse_coord path g
  = if String.eqb path "" then g
    else edit_mesh_config path
           (text (GeometryTab.conn_edit (SolverGUI.geometry_tab g)))
           (currentIndex (GeometryTab.conn_type (SolverGUI.geometry_tab g))) g.
Proof.
  unfold browse_coord, edit_mesh_config, GeometryTab.browse_coord.
  destruct (String.eqb_spec path "") as [-> | Hp].
  - rewrite <- (with_geometry_same g) at 2. unfold with_geometry. f_equal.
    by destruct (SolverGUI.geometry_tab g).
  - unfold with_geometry. f_equal. rewrite browse_file_chosen by done.
    destruct (SolverGUI.geometry_tab g) as [c [] [] l rows]. reflexivity.
Qed.

Lemma browse_conn_cases path g :
  browse_conn path g
  = if String.eqb path "" then g
    else edit_mesh_config
           (text (GeometryTab.coord_edit (SolverGUI.geometry_tab g))) path
           (currentIndex (GeometryTab.conn_type (SolverGUI.geometry_tab g))) g.
Proof.
  unfold browse_conn, edit_mesh_config, GeometryTab.browse_conn.
  destruct (String.eqb_spec path "") as [-> | Hp].
  - rewrite <- (with_geometry_same g) at 2. unfold with_geometry. f_equal.
    by destruct (SolverGUI.geometry_tab g).
  - unfold with_geometry. f_equal. rewrite browse_file_chosen by done.
    destruct (SolverGUI.geometry_tab g) as [[] n [] l rows]. reflexivity.
Qed.

(** The Browse button of an output row is typing the path into its field,
    or nothing when the dialog is cancelled. *)
Lemma click_browse_cases i path (l : Layout F) :
  Inv.output_list l →
  OutputTab.click_browse i path l
  = if String.eqb path "" then l else OutputTab.edit_row i path l.
Proof.
  intros [rows ->]. unfold OutputTab.click_browse, OutputTab.edit_row. cbn [itemAt].
  rewrite RowFacts.output_item_lookup.
  destruct (rows !! i) as [[id e]|] eqn:Hi; cbn; [|by destruct (String.eqb path "")].
  unfold OutputTab._browse_file, put_child. cbn [itemAt].
  rewrite RowFacts.output_item_lookup, Hi. cbn.
  destruct (String.eqb path ""); cbn; [|done].
  f_equal. apply list_insert_id.
  rewrite RowFacts.output_item_lookup, Hi. reflexivity.
Qed.

Lemma with_probe_same g : with_probe (λ l, l) g = g.
Proof. destruct g as [? ? ? ? ? [] ?]. reflexivity. Qed.

Lemma with_surf_same g : with_surf (λ l, l) g = g.
Proof. destruct g as [? ? ? ? ? [] ?]. reflexivity. Qed.

Lemma browse_probe_file_cases i path g :
  Inv.gui g →
  browse_probe_file i path g = if String.eqb path "" then g else edit_probe_row i path g.
Proof.
  intros Hg. unfold browse_probe_file, edit_probe_row, with_probe.
  rewrite (click_browse_cases i path _ (Inv.gui_probe _ Hg)).
  destruct (String.eqb path ""); [|done]. exact (with_probe_same g).
Qed.

Lemma browse_surf_file_cases i path g :
  Inv.gui g →
  browse_surf_file i path g = if String.eqb path "" then g else edit_surf_row i path g.
Proof.
  intros Hg. unfold browse_surf_file, edit_surf_row, with_surf.
  rewrite (click_browse_cases i path _ (Inv.gui_surf _ Hg)).
  destruct (String.eqb path ""); [|done]. exact (with_surf_same g).
Qed.

(** The Browse buttons lead to forms of the session. *)
Lemma browse_reachable g :
  reachable g →
  (∀ path, reachable (browse_coord path g)) ∧
  (∀ path, reachable (browse_conn path g)) ∧
  (∀ i path, reachable (browse_boundary_file i path g)) ∧
  (∀ i path, reachable (browse_probe_file i path g)) ∧
  (∀ i path, reachable (browse_surf_file i path g)).
Proof.
  intros Hg. pose proof (SessionFacts.reachable_inv g Hg) as Hinv.
  split; [|split; [|split; [|split]]].
  - intros path. rewrite browse_coord_cases. destruct (String.eqb path ""); [done|].
    eapply reachable_step; [exact Hg | constructor].
  - intros path. rewrite browse_conn_cases. destruct (String.eqb path ""); [done|].
    eapply reachable_step; [exact Hg | constructor].
  - intros i path. rewrite browse_boundary_file_cases. destruct (String.eqb path ""); [done|].
    eapply reachable_step; [exact Hg | constructor].
  - intros i path. rewrite browse_probe_file_cases by done.
    destruct (String.eqb path ""); [done|].
    eapply reachable_step; [exact Hg | apply step_edit_probe_row].
  - intros i path. rewrite browse_surf_file_cases by done.
    destruct (String.eqb path ""); [done|].
    eapply reachable_step; [exact Hg | apply step_edit_surf_row].
Qed.

(** The file field of an output row after the Browse button. *)
Lemma click_browse_rows i path (rows : list Shape.output_row) :
  Shape.output_rows_of
    (OutputTab.click_browse i path (QBoxLayout (map (Shape.output_item (F := F)) rows)))
  = alter (λ r, {| Shape.o_id := Shape.o_id r;
                   Shape.o_edit := OutputTab._browse_file path (Shape.o_edit r) |}) i rows.
Proof.
  unfold OutputTab.click_browse. cbn [itemAt].
  rewrite RowFacts.output_item_lookup.
  destruct (rows !! i) as [[id e]|] eqn:Hi; cbn.
  - unfold put_child. cbn [itemAt]. rewrite RowFacts.output_item_lookup, Hi. cbn.
    change (QWidgetItem (QWidget id _))
      with (Shape.output_item (F := F)
              {| Shape.o_id := id; Shape.o_edit := OutputTab._browse_file path e |}).
    change (map ?f ?l) with (f <$> l).
    rewrite <- list_fmap_insert.
    etrans; [exact (CollectFacts.output_rows_of_items _)|].
    apply list_eq. intros j. rewrite list_lookup_alter, list_lookup_insert.
    destruct (decide (i = j)) as [<- | Hne].
    + rewrite Hi, decide_True; [done|]. split; [done | by eapply lookup_lt_Some].
    + rewrite decide_False; [done|]. by intros [? _].
  - etrans; [exact (CollectFacts.output_rows_of_items _)|].
    symmetry. apply list_eq. intros j. rewrite list_lookup_alter.
    case_decide; [subst; by rewrite Hi | done].
Qed.

(** A path chosen for an output row is among the file names of the list. *)
Lemma browsed_name i path (l : Layout F) r :
  Inv.output_list l → Shape.output_rows_of l !! i = Some r → path ≠ "" →
  In path (Text.file_names (OutputTab.click_browse i path l)).
Proof.
  intros [rows ->] Hi Hpath.
  rewrite CollectFacts.output_rows_of_items in Hi.
  unfold Text.file_names. rewrite click_browse_rows.
  apply filter_In. split.
  - apply in_map_iff.
    exists {| Shape.o_id := Shape.o_id r;
              Shape.o_edit := OutputTab._browse_file path (Shape.o_edit r) |}.
    split.
    + unfold OutputTab._browse_file. apply String.eqb_neq in Hpath. by rewrite Hpath.
    + apply list_elem_of_In, list_elem_of_lookup. exists i.
      rewrite list_lookup_alter, decide_True by done. by rewrite Hi.
  - apply negb_true_iff. by apply String.eqb_neq.
Qed.

(** A file name of an output list is a [nodes =] line of its section. *)
Lemma name_in_kvs (l : Layout F) txt :
  In txt (Text.file_names l) → In ("nodes", txt) (Text.output_kvs l).
Proof.
  intros (k & Hk)%list_elem_of_In%list_elem_of_lookup.
  destruct (LineFacts.block_split Text.output_block _ k txt Hk) as (k1 & k2 & Hsplit).
  unfold Text.output_kvs. rewrite Hsplit. right.
  apply in_or_app. right. apply in_or_app. left. right. by left.
Qed.

End S.
End BrowseFacts.

(* ===================================================================== *)
(** ** Paths: [os.path.basename] and [os.path.splitext] *)
(* ===================================================================== *)

Module PathFacts.
Import Py.

(** The character [c] does not occur in [s]. *)
Local Abbreviation absent c s := (∀ k, String.get k s ≠ Some c).

Lemma take_drop (n : nat) (s : string) : take n s +:+ drop n s = s.
Proof.
  revert n. induction s as [|d s IH]; intros [|n]; try reflexivity.
  cbn [take drop].
  change (String d (take n s) +:+ drop n s) with (String d (take n s +:+ drop n s)).
  by rewrite IH.
Qed.

Lemma drop_get (k : nat) (s : string) c :
  String.get k s = Some c → drop k s = String c (drop (S k) s).
Proof.
  revert k. induction s as [|d s IH]; intros [|k]; cbn; try done.
  - intros [= ->]. by destruct s.
  - intros Hk. rewrite (IH k Hk). by destruct s.
Qed.

Lemma absent_contains c s : absent c s → contains (String c "") s = false.
Proof.
  induction s as [|d s IH]; intros Hs; [reflexivity|].
  cbn [contains String.prefix].
  destruct (ascii_dec c d) as [->|Hne].
  - by destruct (Hs 0%nat).
  - cbn. apply IH. intros k. apply (Hs (S k)).
Qed.

Lemma absent_app_l c a b : absent c (a +:+ b) → absent c a.
Proof.
  revert b. induction a as [|d a IH]; intros b Hab k; [by destruct k|].
  destruct k as [|k]; cbn.
  - exact (Hab 0%nat).
  - apply (IH b). intros j. exact (Hab (S j)).
Qed.

(** [rfind_from] returns the position of the last occurrence, or [last]
    when there is none. *)
Lemma rfind_from_spec c s pos last :
  (rfind_from c s pos last = last ∧ absent c s) ∨
  (∃ k, rfind_from c s pos last = pos + Z.of_nat k ∧
        String.get k s = Some c ∧ absent c (drop (S k) s)).
Proof.
  revert pos last. induction s as [|d s IH]; intros pos last; cbn [rfind_from].
  - left. split; [done|]. by intros [|k].
  - destruct (IH (pos + 1) (if Ascii.eqb d c then pos else last))
      as [[Hr Hs] | (k & Hr & Hk & Hs)].
    + destruct (Ascii.eqb_spec d c) as [->|Hne].
      * right. exists 0%nat. rewrite Hr. split; [lia|]. split; [done|].
        cbn. by destruct s.
      * left. split; [done|]. intros [|k]; cbn; [congruence | apply Hs].
    + right. exists (S k). rewrite Hr. split; [lia|]. split; [done|].
      cbn [drop]. cbn [drop] in Hs. exact Hs.
Qed.

Lemma get_lt (k : nat) (s : string) :
  (k < String.length s)%nat → ∃ c, String.get k s = Some c.
Proof.
  revert k. induction s as [|d s IH]; intros k Hk; cbn in Hk; [lia|].
  destruct k as [|k]; cbn; [by eexists|]. apply IH. lia.
Qed.

Lemma get_Some_lt (k : nat) (s : string) c :
  String.get k s = Some c → (k < String.length s)%nat.
Proof.
  revert k. induction s as [|d s IH]; intros k; cbn; [done|].
  destruct k as [|k]; [lia|]. intros Hk%IH. lia.
Qed.

Lemma get_take (k n : nat) (s : string) :
  (k < n)%nat → String.get k (take n s) = String.get k s.
Proof.
  revert k n. induction s as [|d s IH]; intros k [|n] Hk; try lia; [done|].
  cbn [take]. destruct k as [|k]; cbn; [done|]. apply IH. lia.
Qed.

Lemma get_take_ge (k n : nat) (s : string) :
  (n ≤ k)%nat → String.get k (take n s) = None.
Proof.
  revert k n. induction s as [|d s IH]; intros k [|n] Hk; try done.
  cbn [take]. destruct k as [|k]; [lia|]. cbn. apply IH. lia.
Qed.

Lemma take_S_get (k : nat) (s : string) c :
  String.get k s = Some c → take (S k) s = take k s +:+ String c "".
Proof.
  revert k. induction s as [|d s IH]; intros [|k]; cbn [String.get]; try done.
  - intros [= ->]. by destruct s.
  - intros Hk.
    change (String d (take (S k) s) = String d (take k s +:+ String c "")).
    by rewrite (IH k Hk).
Qed.

(** A path is its directory part, which is empty or ends with [/], and
    its base name, which holds no [/]. *)
Lemma basename_dir p :
  ∃ dir, p = dir +:+ os_path.basename p ∧
         (dir = "" ∨ ∃ d, dir = d +:+ "/") ∧
         absent "/"%char (os_path.basename p).
Proof.
  unfold os_path.basename, rfind.
  exists (take (Z.to_nat (rfind_from "/" p 0 (-1) + 1)) p).
  split; [by rewrite take_drop|].
  destruct (rfind_from_spec "/" p 0 (-1)) as [[-> Hp] | (k & -> & Hget & Hk)].
  - split; [by left | exact Hp].
  - replace (Z.to_nat (0 + Z.of_nat k + 1)) with (S k) by lia.
    split; [|exact Hk]. right. exists (take k p). by apply take_S_get.
Qed.

(** The scan of [splitext] looks for a character other than a dot from
    [f] up to the last dot, at [d]. *)
Lemma splitext_scan_spec p (d f : Z) (fuel : nat) :
  0 ≤ f → (Z.to_nat (d - f) < fuel)%nat →
  (∀ j, f ≤ j < d → ∃ c, String.get (Z.to_nat j) p = Some c) →
  if os_path.splitext_scan p d f fuel
  then ∃ j c, f ≤ j < d ∧ String.get (Z.to_nat j) p = Some c ∧ c ≠ "."%char
  else ∀ j, f ≤ j < d → String.get (Z.to_nat j) p = Some "."%char.
Proof.
  revert f. induction fuel as [|fuel IH]; intros f Hf Hfuel Hget; [lia|].
  cbn [os_path.splitext_scan].
  destruct (Z.ltb_spec f d) as [Hlt|Hge]; [|intros j Hj; lia].
  destruct (Hget f ltac:(lia)) as [c Hc]. rewrite Hc.
  destruct (Ascii.eqb_spec c ".") as [->|Hne].
  - specialize (IH (f + 1) ltac:(lia) ltac:(lia)).
    destruct (os_path.splitext_scan p d (f + 1) fuel).
    + destruct IH as (j & c & Hj & Hjc & Hne); [intros j Hj; apply Hget; lia|].
      exists j, c. split; [lia | done].
    + intros j Hj. destruct (decide (j = f)) as [->|Hjf]; [done|].
      apply IH; [intros i Hi; apply Hget; lia | lia].
  - exists f, c. split; [lia | done].
Qed.

(** The root and the extension of a base name: the extension starts at
    the last dot, when a character other than a dot comes before it, and
    is empty otherwise. *)
Lemma splitext_base b :
  absent "/"%char b →
  let root := (os_path.splitext b).1 in
  let ext := (os_path.splitext b).2 in
  root +:+ ext = b ∧
  ((ext = "" ∧ ∃ dots rest, root = dots +:+ rest ∧ dots_only dots ∧ absent "."%char rest) ∨
   (∃ e, ext = String "." e ∧ absent "."%char e ∧ ¬ dots_only root)).
Proof.
  intros Hb. cbn zeta. unfold os_path.splitext, rfind.
  destruct (rfind_from_spec "/" b 0 (-1)) as [[-> _] | (k & _ & Hk & _)];
    [|by destruct (Hb k)].
  destruct (rfind_from_spec "." b 0 (-1)) as [[-> Hdot] | (k & -> & Hk & Hrest)].
  - cbn [andb fst snd]. replace (-1 <? -1) with false by reflexivity. cbn [andb fst snd].
    split; [apply sapp_nil_r|]. left. split; [done|].
    exists "", b. split; [done|]. split; [|exact Hdot]. by intros [|j] c.
  - replace (-1 <? 0 + Z.of_nat k) with true by (symmetry; apply Z.ltb_lt; lia).
    cbn [andb]. replace (-1 + 1) with 0 by lia.
    pose proof (get_Some_lt _ _ _ Hk) as Hlen.
    pose proof (splitext_scan_spec b (0 + Z.of_nat k) 0 (S (String.length b))
                  ltac:(lia) ltac:(lia)) as Hscan.
    destruct (os_path.splitext_scan b (0 + Z.of_nat k) 0 (S (String.length b)));
      cbn [fst snd].
    + destruct Hscan as (j & c & Hj & Hjc & Hne).
      { intros j Hj. apply get_lt. lia. }
      replace (Z.to_nat (0 + Z.of_nat k)) with k by lia.
      split; [apply take_drop|]. right.
      exists (drop (S k) b). split; [by apply drop_get|]. split; [exact Hrest|].
      intros Hdots. apply Hne, (Hdots (Z.to_nat j)).
      rewrite get_take by lia. exact Hjc.
    + split; [apply sapp_nil_r|]. left. split; [done|].
      exists (take (S k) b), (drop (S k) b).
      split; [by rewrite take_drop|]. split; [|exact Hrest].
      intros j c Hjc.
      destruct (decide (j < S k)%nat) as [Hlt|Hge];
        [|rewrite get_take_ge in Hjc by lia; done].
      rewrite get_take in Hjc by lia.
      destruct (decide (j = k)) as [->|Hjk]; [congruence|].
      rewrite <- (Nat2Z.id j), Hscan in Hjc; [congruence | | lia].
      intros i Hi. apply get_lt. lia.
Qed.

(** The name a path gives to a boundary condition. *)
Lemma default_name p :
  ∃ dir ext, path_parts p dir (os_path.splitext (os_path.basename p)).1 ext.
Proof.
  destruct (basename_dir p) as (dir & Hdir & Hsep & Hbase).
  destruct (splitext_base (os_path.basename p) Hbase) as [Hsplit Hext].
  exists dir, (os_path.splitext (os_path.basename p)).2.
  unfold path_parts. rewrite Hsplit. split; [exact Hdir|]. split; [exact Hsep|].
  split; [by apply absent_contains|].
  destruct Hext as [(Hnil & dots & rest & Hname & Hdots & Hrest) | (e & He & Hrest & Hnot)].
  - left. split; [done|]. exists dots, rest. split; [done|]. split; [done|].
    by apply absent_contains.
  - right. exists e. split; [done|]. split; [by apply absent_contains | done].
Qed.

(** *** The parts of a path are unique *)

Local Abbreviation chars := String.list_ascii_of_string.

Lemma chars_app (a b : string) : chars (a +:+ b) = chars a ++ chars b.
Proof. induction a as [|c a IH]; [done|]. cbn. by rewrite <- IH. Qed.

Lemma chars_inj (a b : string) : chars a = chars b → a = b.
Proof.
  intros Hab. rewrite <- (String.string_of_list_ascii_of_string a).
  rewrite <- (String.string_of_list_ascii_of_string b). by rewrite Hab.
Qed.

Lemma get_chars (k : nat) (s : string) : String.get k s = chars s !! k.
Proof.
  revert k. induction s as [|c s IH]; intros [|k]; cbn; auto.
Qed.

Lemma contains_chars c s : contains (String c "") s = false → c ∉ chars s.
Proof.
  induction s as [|d s IH]; cbn [contains String.prefix]; [intros _; apply not_elem_of_nil|].
  destruct (ascii_dec c d) as [->|Hne].
  - destruct s; cbn; discriminate.
  - cbn. intros Hs. apply not_elem_of_cons. split; [done | by apply IH].
Qed.

Lemma dots_chars s : dots_only s ↔ Forall (λ c, c = "."%char) (chars s).
Proof.
  rewrite Forall_lookup. unfold dots_only.
  split; intros Hs k c Hk; apply (Hs k); [by rewrite get_chars | by rewrite <- get_chars].
Qed.

(** A text cannot end both with leading dots and with an extension. *)
Lemma dots_or_extension (D R N E : list ascii) :
  Forall (λ c, c = "."%char) D → "."%char ∉ R →
  ¬ Forall (λ c, c = "."%char) N →
  D ++ R = N ++ "."%char :: E → False.
Proof.
  intros HD HR HN Heq.
  destruct (decide (length N < length D)%nat) as [Hlt|Hge].
  - apply HN. rewrite Forall_lookup. intros j c Hj.
    pose proof (lookup_lt_Some _ _ _ Hj) as Hjlt.
    assert ((D ++ R) !! j = Some c) as Hc.
    { rewrite Heq. by rewrite lookup_app_l. }
    rewrite lookup_app_l in Hc by lia.
    rewrite Forall_lookup in HD. by apply (HD j).
  - apply HR. apply list_elem_of_lookup. exists (length N - length D)%nat.
    rewrite <- lookup_app_r by lia. rewrite Heq. apply list_lookup_middle. done.
Qed.

Lemma path_parts_unique p dir name ext dir' name' ext' :
  path_parts p dir name ext → path_parts p dir' name' ext' →
  dir' = dir ∧ name' = name ∧ ext' = ext.
Proof.
  intros (Hp & Hdir & Hsep%contains_chars & Hext)
         (Hp' & Hdir' & Hsep'%contains_chars & Hext').
  assert (dir' = dir ∧ name' +:+ ext' = name +:+ ext) as [-> Hbase].
  { rewrite Hp' in Hp. apply (f_equal chars) in Hp. rewrite !chars_app in Hp.
    rewrite chars_app in Hsep, Hsep'.
    destruct Hdir as [->|[d ->]], Hdir' as [->|[d' ->]].
    - split; [done|]. apply chars_inj. by rewrite !chars_app.
    - exfalso. apply Hsep. cbn [chars app] in Hp. rewrite <- Hp, chars_app. cbn.
      rewrite <- app_assoc. apply elem_of_app. right. apply elem_of_cons. by left.
    - exfalso. apply Hsep'. cbn [chars app] in Hp. rewrite Hp, chars_app. cbn.
      rewrite <- app_assoc. apply elem_of_app. right. apply elem_of_cons. by left.
    - rewrite !chars_app in Hp. cbn in Hp. rewrite <- !app_assoc in Hp. cbn in Hp.
      apply not_elem_of_app_cons_inv_r in Hp as (Hd & _ & Hb); [|done..].
      split.
      + f_equal. by apply chars_inj.
      + apply chars_inj. by rewrite !chars_app. }
  split; [done|].
  apply (f_equal chars) in Hbase. rewrite !chars_app in Hbase.
  destruct Hext as [(-> & dots & rest & Hname & Hdots%dots_chars & Hrest%contains_chars)
                   | (e & -> & He%contains_chars & Hnot)],
           Hext' as [(-> & dots' & rest' & Hname' & Hdots'%dots_chars & Hrest'%contains_chars)
                    | (e' & -> & He'%contains_chars & Hnot')].
  - cbn in Hbase. rewrite !app_nil_r in Hbase. split; [by apply chars_inj | done].
  - exfalso. cbn in Hbase. rewrite app_nil_r in Hbase.
    rewrite Hname, chars_app in Hbase. rewrite dots_chars in Hnot'.
    by eapply (dots_or_extension (chars dots) (chars rest) (chars name') (chars e')).
  - exfalso. cbn in Hbase. rewrite app_nil_r in Hbase.
    rewrite Hname', chars_app in Hbase. rewrite dots_chars in Hnot.
    by eapply (dots_or_extension (chars dots') (chars rest') (chars name) (chars e)).
  - cbn in Hbase.
    apply not_elem_of_app_cons_inv_r in Hbase as (Hn & _ & Hb); [|done..].
    split; [by apply chars_inj|]. f_equal. by apply chars_inj.
Qed.

End PathFacts.

(* ===================================================================== *)
(** ** More properties of the program *)
(* ===================================================================== *)

Section MoreProperties.
Context {F : Type} `{Py.Float F}.

Implicit Types (g : SolverGUI.t F) (w : OS.World).

(** X1. In every form a session reaches, row [i] of the boundary-file list
    shows the placeholder [Select file for Boundary i+1...], and its delete
    button is visible exactly when the list holds more than one row. *)
Theorem boundary_rows_shown g i row :
  Session.reachable g →
  GeometryTab.boundary_rows (SolverGUI.geometry_tab g) !! i = Some row →
  Qt.placeholderText (GeometryTab.edit row)
  = "Select file for Boundary " +:+ Py.str_int (Z.of_nat i + 1) +:+ "..." ∧
  GeometryTab.btn_del row
  = (1 <? length (GeometryTab.boundary_rows (SolverGUI.geometry_tab g)))%nat.
Proof.
  intros Hg Hi.
  destruct (GeometryOrder.tidy_lookup _ i row (SessionOrder.reachable_tidy g Hg) Hi)
    as (_ & Hp & Hb).
  done.
Qed.

(** X2. Deleting a row of the boundary-file list (of two rows or more)
    takes that row out and keeps the other rows, their containers and
    their file paths, in order. *)
Theorem remove_boundary_row_keeps_others g pre row post :
  Session.reachable g →
  GeometryTab.boundary_rows (SolverGUI.geometry_tab g) = pre ++ row :: post →
  (1 < length (pre ++ row :: post))%nat →
  let g' := Session.remove_boundary_row (GeometryTab.widget row) g in
  map (λ r, (GeometryTab.widget r, Qt.text (GeometryTab.edit r)))
    (GeometryTab.boundary_rows (SolverGUI.geometry_tab g'))
  = map (λ r, (GeometryTab.widget r, Qt.text (GeometryTab.edit r))) (pre ++ post) ∧
  GeometryTab.scroll_layout (SolverGUI.geometry_tab g')
  = map GeometryTab.widget (pre ++ post).
Proof.
  intros Hg Hrows Hlen g'.
  pose proof (SessionFacts.reachable_inv g Hg) as Hinv.
  pose proof (Inv.geo_sync _ (Inv.gui_geometry _ Hinv)) as Hsync.
  pose proof (Inv.gui_distinct _ Hinv) as Hnd.
  rewrite Hsync, Hrows, map_app in Hnd. cbn [map] in Hnd.
  apply NoDup_app in Hnd as (_ & Hpre & _).
  assert (Forall (λ r, Nat.eqb (GeometryTab.widget r) (GeometryTab.widget row) = false) pre)
    as Hfresh.
  { apply Forall_forall. intros r Hr. apply Nat.eqb_neq. intros Heq.
    apply (Hpre (GeometryTab.widget r)).
    - apply list_elem_of_fmap. by exists r.
    - rewrite Heq. apply list_elem_of_here. }
  destruct (GeometryOrder.remove_boundary_row_shown (GeometryTab.widget row)
              (SolverGUI.geometry_tab g)) as [Hshown Hlayout].
  { by rewrite Hrows. }
  subst g'. cbn [Session.remove_boundary_row Session.with_geometry SolverGUI.geometry_tab].
  split.
  - rewrite Hshown, Hrows, !map_app. cbn [map].
    apply ListFacts.remove_first_middle; [|apply Nat.eqb_refl].
    by rewrite Forall_map.
  - rewrite Hlayout, Hsync, Hrows, !map_app. cbn [map].
    apply ListFacts.remove_first_middle; [|apply Nat.eqb_refl].
    rewrite Forall_map. eapply Forall_impl; [exact Hfresh|].
    cbn. intros r Hr. by rewrite Nat.eqb_sym.
Qed.

(** X3. Adding a boundary-file row and deleting it at once gives the form
    back: nothing but the count of created widgets has changed. *)
Theorem add_then_remove_boundary_row g :
  Session.reachable g →
  Session.remove_boundary_row (SolverGUI.next_id g) (Session.add_boundary_row g)
  = Session.created 1 g.
Proof.
  intros Hg. pose proof (SessionFacts.reachable_inv g Hg) as Hinv.
  unfold Session.remove_boundary_row, Session.add_boundary_row, Session.with_geometry,
    Session.created.
  cbn [SolverGUI.geometry_tab SolverGUI.solver_tab SolverGUI.physical_tab
       SolverGUI.boundary_tab SolverGUI.prescribed_tab SolverGUI.output_tab
       SolverGUI.next_id].
  rewrite GeometryOrder.add_remove; [reflexivity | apply Hinv | apply Hinv | | ].
  - by apply SessionOrder.reachable_tidy.
  - intros Hin. pose proof (Inv.gui_created _ Hinv) as Hlt.
    rewrite Forall_forall in Hlt. apply Hlt in Hin. lia.
Qed.

(** X4. [add_bc_row] on a layout of rows of the program's making: the new
    row comes last, empty, with the first entry of its type list selected
    and value 0; the rows before keep what they hold. The label the caller
    passes is overwritten: all labels are renumbered [B-1], [B-2], ... *)
Theorem add_bc_row_appends (rows : list (Shape.bc_row F)) name lbl new :
  BoundaryTab.add_bc_row (Qt.QBoxLayout (map Shape.bc_item rows)) name lbl new
  = Py.Ok (Qt.QBoxLayout (map Shape.bc_item
      (imap Shape.relabel rows
       ++ [Shape.fresh_row name new ("B-" +:+ Py.str_int (Z.of_nat (length rows) + 1))]))).
Proof.
  rewrite BoundaryFacts.add_bc_row_rows, BoundaryOrder.imap_relabel_app.
  reflexivity.
Qed.

(** X5. The delete button of a boundary-condition row: the first row with
    that container leaves the sub-tab, the others keep their names, types,
    values and tags and are renumbered in order; the other sub-tabs and
    the rest of the form stay as they are: the sub-tabs and their order,
    the open sub-tab, the initial conditions, the list of boundary files
    the tab refers to, and the other tabs of the window. *)
Theorem remove_bc_row_keeps_others g tab pre r post :
  Py.dict_get (BoundaryTab.bc_layouts (SolverGUI.boundary_tab g)) tab
  = Some (Qt.QBoxLayout (map Shape.bc_item (pre ++ r :: post))) →
  Forall (λ x, Shape.r_id x ≠ Shape.r_id r) pre →
  ∃ g',
    Session.remove_bc_row tab (Shape.r_id r) g = Py.Ok g' ∧
    Py.dict_get (BoundaryTab.bc_layouts (SolverGUI.boundary_tab g')) tab
    = Some (Qt.QBoxLayout (map Shape.bc_item (imap Shape.relabel (pre ++ post)))) ∧
    (∀ other, other ≠ tab →
       Py.dict_get (BoundaryTab.bc_layouts (SolverGUI.boundary_tab g')) other
       = Py.dict_get (BoundaryTab.bc_layouts (SolverGUI.boundary_tab g)) other) ∧
    map fst (BoundaryTab.bc_layouts (SolverGUI.boundary_tab g'))
    = map fst (BoundaryTab.bc_layouts (SolverGUI.boundary_tab g)) ∧
    BoundaryTab.bc_tabs (SolverGUI.boundary_tab g')
    = BoundaryTab.bc_tabs (SolverGUI.boundary_tab g) ∧
    BoundaryTab.init_cond_widgets (SolverGUI.boundary_tab g')
    = BoundaryTab.init_cond_widgets (SolverGUI.boundary_tab g) ∧
    BoundaryTab.geometry_boundary_rows (SolverGUI.boundary_tab g')
    = BoundaryTab.geometry_boundary_rows (SolverGUI.boundary_tab g) ∧
    g' = Session.with_boundary (SolverGUI.boundary_tab g') g.
Proof.
  intros Hl Hpre. unfold Session.remove_bc_row, BoundaryTab.click_delete, Py.dict_getitem.
  rewrite Hl. cbn [mbind Py.Res_bind].
  rewrite BoundaryOrder.remove_generic_row_rows by done.
  cbn [mbind Py.Res_bind mret Py.Res_ret].
  eexists. split; [reflexivity|].
  cbn [SolverGUI.boundary_tab Session.with_boundary BoundaryTab.bc_layouts
       BoundaryTab.bc_tabs BoundaryTab.init_cond_widgets BoundaryTab.geometry_boundary_rows].
  assert (In tab (map fst (BoundaryTab.bc_layouts (SolverGUI.boundary_tab g)))) as Hkey.
  { apply BoundaryFacts.dict_get_In in Hl. apply in_map_iff.
    by exists (tab, Qt.QBoxLayout (map Shape.bc_item (pre ++ r :: post))). }
  split; [|split; [|split; [|done]]].
  - by apply BoundaryFacts.dict_get_set.
  - intros other Hne. by apply BoundaryOrder.dict_get_set_ne.
  - by apply BoundaryFacts.dict_set_keys.
Qed.

(** X6. [refresh_active_boundary_tab] rebuilds the open sub-tab and nothing
    else: the other sub-tabs, the initial conditions and the other tabs of
    the window stay as they are, while every row of the open sub-tab is
    new, with type [None], value 0 and tag 0, so that whatever the user
    had entered there is gone and none of its rows would be saved. *)
Theorem refresh_resets_open_tab_only g :
  Session.reachable g →
  let bt := SolverGUI.boundary_tab g in
  let name := Qt.tabText (BoundaryTab.bc_tabs bt) (Qt.tab_index (BoundaryTab.bc_tabs bt)) in
  ∃ g',
    Session.refresh_active_boundary_tab g = Py.Ok g' ∧
    (∀ other, other ≠ name →
       Py.dict_get (BoundaryTab.bc_layouts (SolverGUI.boundary_tab g')) other
       = Py.dict_get (BoundaryTab.bc_layouts bt) other) ∧
    (∀ var r,
       In (var, r) (Text.tab_rows (SolverGUI.boundary_tab g') name var) →
       Qt.currentText (Shape.r_type r) = "None" ∧ Shape.r_val r = Py.of_decimal 0 0 ∧
       Text.tag_of r = 0 ∧ Text.selected (var, r) = false) ∧
    BoundaryTab.init_cond_widgets (SolverGUI.boundary_tab g') = BoundaryTab.init_cond_widgets bt ∧
    BoundaryTab.bc_tabs (SolverGUI.boundary_tab g') = BoundaryTab.bc_tabs bt ∧
    g' = Session.created
           (length (GeometryTab.boundary_rows (SolverGUI.geometry_tab g)))
           (Session.with_boundary (SolverGUI.boundary_tab g') g).
Proof.
  intros Hg%SessionFacts.reachable_inv bt name.
  unfold Session.refresh_active_boundary_tab.
  rewrite RefreshFacts.refresh_active_boundary_tab_rows by apply Hg.
  rewrite (Inv.gui_ref _ Hg).
  cbn [SolverGUI.deref mbind Py.Res_bind mret Py.Res_ret].
  eexists. split; [reflexivity|].
  cbn [SolverGUI.boundary_tab Session.created Session.with_boundary
       BoundaryTab.bc_layouts BoundaryTab.init_cond_widgets BoundaryTab.bc_tabs].
  split; [|split; [|done]].
  - intros other Hne. by apply BoundaryOrder.dict_get_set_ne.
  - intros var r. unfold Text.tab_rows. cbn [BoundaryTab.bc_layouts].
    rewrite BoundaryFacts.dict_get_set.
    2:{ rewrite (Inv.bt_keys _ (Inv.gui_boundary _ Hg)).
        apply RefreshFacts.open_tab_name, Hg. }
    cbn [default from_option id]. rewrite CollectFacts.rows_of_items.
    intros (r0 & [= <-] & (i & <- & _)%in_map_iff)%in_map_iff.
    match goal with
    | |- context [Shape.r_val (Shape.refreshed_row ?b ?rows ?n ?w0 i)] =>
        destruct (BoundaryOrder.refreshed_row_blank (F := F) b rows n w0 i)
          as (Hty & Hval & Htag)
    end.
    split; [exact Hty|]. split; [exact Hval|]. split; [exact Htag|].
    unfold Text.selected, Text.type_text. cbn [snd]. by rewrite Hty.
Qed.

(** X7. The prescribed-motion tab has no way to take a group away: every
    form of a session holds at least one group, and an event leaves the
    groups that were shown, in their order, adding at most one at the end.
    The groups are all read back when the file is written, so the
    [numberBC] of the prescribed-motion section is never 0. *)
Theorem prescribed_groups_never_removed g g' :
  Session.reachable g → Session.step g g' →
  let shown := PrescribedTab.prescribed_tag_rows (SolverGUI.prescribed_tab g) in
  let shown' := PrescribedTab.prescribed_tag_rows (SolverGUI.prescribed_tab g') in
  (1 ≤ length shown)%nat ∧
  length (Text.groups_of (SolverGUI.prescribed_tab g)) = length shown ∧
  ∃ added,
    PrescribedTab.prescribed_layout (SolverGUI.prescribed_tab g')
    = PrescribedTab.prescribed_layout (SolverGUI.prescribed_tab g) ++ added ∧
    length shown' = (length shown + length added)%nat ∧
    (length added ≤ 1)%nat.
Proof.
  intros Hg Hstep. cbn zeta.
  split; [by apply SessionOrder.reachable_groups|].
  split; [|by apply SessionOrder.step_groups].
  destruct (Inv.gui_prescribed _ (SessionFacts.reachable_inv g Hg)) as [groups Hgroups].
  unfold Text.groups_of. by rewrite Hgroups, CollectFacts.groups_of_widgets, length_map.
Qed.

(** X8. When the file cannot be opened, a save changes no file: an earlier
    file at the path is left as it was, and the error is printed. *)
Theorem save_failed_open_keeps_files g path w :
  Session.reachable g → path ≠ "" → head (OS.faults w) = Some true →
  OS.files (Text.save path g w).2.2 = OS.files w ∧
  ∃ msg, OS.stdout (Text.save path g w).2.2 = OS.stdout w ++ ["Error saving file: " +:+ msg].
Proof.
  intros Hg%SessionFacts.reachable_inv Hpath Hopen.
  destruct (FileFacts.save_disk path g w Hg Hpath)
    as (w' & Hrun & [(_ & Hfiles & Hout) | (Hno & _)]); [|done].
  destruct (RunFacts.save_run path g w Hg Hpath) as (w2 & n & Hrun2 & _ & Hprinted).
  rewrite Hrun in Hrun2. injection Hrun2 as <-. rewrite Hrun. cbn [fst snd].
  split; [exact Hfiles|].
  destruct Hprinted as [(_ & Hsame & _) | (_ & Hmsg & _)]; [done|].
  by exists "OSError".
Qed.

(** X9. When the file opens, whatever fails afterwards, the path holds a
    beginning of the text of the form and nothing of what the file held
    before; when no error is printed it holds the whole text. *)
Theorem save_leaves_beginning g path w :
  Session.reachable g → path ≠ "" → head (OS.faults w) ≠ Some true →
  ∃ content,
    OS.files (Text.save path g w).2.2 !! path = Some content ∧
    starts content (Text.text_of g) ∧
    (OS.stdout (Text.save path g w).2.2 = OS.stdout w → content = Text.text_of g).
Proof.
  intros Hg%SessionFacts.reachable_inv Hpath Hopen.
  destruct (FileFacts.save_disk path g w Hg Hpath)
    as (w' & Hrun & [(Hfail & _) | (_ & content & Hfiles & Hstarts & Hall)]); [done|].
  rewrite Hrun. cbn [fst snd]. exists content.
  split; [|done]. rewrite Hfiles. apply lookup_insert_eq.
Qed.

(** X10. A save changes no file but the one at the chosen path, whatever
    fails and also when the dialog is cancelled. *)
Theorem save_touches_one_file g path w other :
  Session.reachable g → other ≠ path →
  OS.files (Text.save path g w).2.2 !! other = OS.files w !! other.
Proof.
  intros Hg%SessionFacts.reachable_inv Hother.
  destruct (String.eqb_spec path "") as [-> | Hpath].
  - by rewrite RunFacts.save_cancelled.
  - destruct (FileFacts.save_disk path g w Hg Hpath)
      as (w' & Hrun & [(_ & Hfiles & _) | (_ & content & Hfiles & _)]);
      rewrite Hrun; cbn [fst snd]; rewrite Hfiles; [done|].
    by apply lookup_insert_ne.
Qed.

(** X11. Fields the file does not hold: naming, browsing for, adding or
    deleting a boundary file, changing [U] or [L], checking the
    non-dimensional numbers and opening another sub-tab of the boundary
    conditions all leave the file of the next save as it would have
    been. *)
Theorem save_ignores_unwritten_fields g path w :
  Session.reachable g → path ≠ "" → OS.faults w = [] →
  let saved := λ g', OS.files (Text.save path g' w).2.2 !! path in
  (∀ i file, saved (Session.set_boundary_file i file g) = saved g) ∧
  (∀ i answer, saved (Session.browse_boundary_file i answer g) = saved g) ∧
  saved (Session.add_boundary_row g) = saved g ∧
  (∀ row, saved (Session.remove_boundary_row row g) = saved g) ∧
  (∀ U L,
     saved (Session.edit_physical
              {| PhysicalTab.rho := PhysicalTab.rho (PhysicalTab.inputs (SolverGUI.physical_tab g));
                 PhysicalTab.U := U;
                 PhysicalTab.mu := PhysicalTab.mu (PhysicalTab.inputs (SolverGUI.physical_tab g));
                 PhysicalTab.L := L;
                 PhysicalTab.gamma :=
                   PhysicalTab.gamma (PhysicalTab.inputs (SolverGUI.physical_tab g));
                 PhysicalTab.a := PhysicalTab.a (PhysicalTab.inputs (SolverGUI.physical_tab g)) |}
              g)
     = saved g) ∧
  saved (Session.calculate_nondim g) = saved g ∧
  (∀ idx, saved (Session.open_bc_tab idx g) = saved g).
Proof.
  intros Hg Hpath Hquiet saved.
  assert (∀ g', Session.reachable g' → Text.text_of g' = Text.text_of g → saved g' = saved g)
    as Hsame.
  { intros g' Hg' Htext. subst saved. cbn beta.
    by rewrite !saved_file, Htext by done. }
  assert (∀ g', Session.step g g' → Session.reachable g') as Hstep.
  { intros g' Hs. by eapply Session.reachable_step. }
  split; [|split; [|split; [|split; [|split; [|split]]]]].
  - intros i file. apply Hsame; [apply Hstep; constructor | reflexivity].
  - intros i answer. rewrite BrowseFacts.browse_boundary_file_cases.
    destruct (String.eqb answer ""); [done|].
    apply Hsame; [apply Hstep; constructor | reflexivity].
  - apply Hsame; [apply Hstep; constructor | reflexivity].
  - intros row. apply Hsame; [apply Hstep; constructor|].
    unfold Session.remove_boundary_row, GeometryTab.remove_boundary_row, Session.with_geometry,
      Text.text_of, Text.sections.
    cbn [SolverGUI.geometry_tab SolverGUI.solver_tab SolverGUI.physical_tab
         SolverGUI.boundary_tab SolverGUI.prescribed_tab SolverGUI.output_tab].
    by destruct (_ <=? 1)%nat.
  - intros U L. apply Hsame; [apply Hstep; constructor | reflexivity].
  - apply Hsame; [apply Hstep; constructor|].
    unfold Session.calculate_nondim, Text.text_of, Text.sections, Session.with_physical.
    cbn [SolverGUI.geometry_tab SolverGUI.solver_tab SolverGUI.physical_tab
         SolverGUI.boundary_tab SolverGUI.prescribed_tab SolverGUI.output_tab].
    by rewrite PhysicalFacts.calculate_nondim_run.
  - intros idx. apply Hsame; [apply Hstep; constructor | reflexivity].
Qed.

(** X12. The non-dimensional check changes the two result fields only, and
    pressing the button again changes nothing: the inputs are as before,
    nothing is printed, and a second check leaves the state of the
    first. *)
Theorem calculate_nondim_idempotent (self : PhysicalTab.t F) (out : list string) :
  let once := (PhysicalTab.calculate_nondim (self, out)).2 in
  PhysicalTab.inputs once.1 = PhysicalTab.inputs self ∧
  once.2 = out ∧
  PhysicalTab.calculate_nondim once = (Py.Ok tt, once).
Proof.
  cbn zeta. rewrite !PhysicalFacts.calculate_nondim_run. cbn [fst snd].
  by rewrite PhysicalFacts.calculate_nondim_run.
Qed.

(** X13. The Browse buttons of the mesh configuration: a path chosen in the
    dialog is the [crdFile] (or [cnnFile]) line of the next saved file; a
    cancelled dialog changes nothing, so the line carries what the field
    held before. *)
Theorem browsed_mesh_files_saved g path w answer :
  Session.reachable g → path ≠ "" → OS.faults w = [] →
  let chosen old := if String.eqb answer "" then old else answer in
  let saved g' := OS.files (Text.save path g' w).2.2 !! path in
  (answer = "" → Session.browse_coord answer g = g ∧ Session.browse_conn answer g = g) ∧
  (∃ content,
     saved (Session.browse_coord answer g) = Some content ∧
     has_line content
       ("crdFile = "
        +:+ chosen (Qt.text (GeometryTab.coord_edit (SolverGUI.geometry_tab g))))) ∧
  (∃ content,
     saved (Session.browse_conn answer g) = Some content ∧
     has_line content
       ("cnnFile = "
        +:+ chosen (Qt.text (GeometryTab.conn_edit (SolverGUI.geometry_tab g))))).
Proof.
  intros Hg Hpath Hquiet chosen saved.
  destruct (BrowseFacts.browse_reachable g Hg) as (Hcoord & Hconn & _).
  split; [|split].
  - intros ->. by rewrite BrowseFacts.browse_coord_cases, BrowseFacts.browse_conn_cases.
  - eexists. split; [apply saved_file; [apply Hcoord | done..]|].
    apply (LineFacts.kv_in_file _
             ("Geometry details",
              Text.geometry_kvs (SolverGUI.geometry_tab (Session.browse_coord answer g)))
             ("crdFile", _)); [by left|].
    left. subst chosen. cbn beta.
    rewrite BrowseFacts.browse_coord_cases. by destruct (String.eqb answer "").
  - eexists. split; [apply saved_file; [apply Hconn | done..]|].
    apply (LineFacts.kv_in_file _
             ("Geometry details",
              Text.geometry_kvs (SolverGUI.geometry_tab (Session.browse_conn answer g)))
             ("cnnFile", _)); [by left|].
    right; left. subst chosen. cbn beta.
    rewrite BrowseFacts.browse_conn_cases. by destruct (String.eqb answer "").
Qed.

(** X14. The two output sections of the file: a row whose file field is
    empty is left out; the rows that remain are counted by [numberFiles]
    and written in display order, the [i]-th of them (from 0) as
    [tag = i+1] followed by [nodes =] and the text of its field. *)
Theorem output_sections_numbered g path w :
  Session.reachable g → path ≠ "" → OS.faults w = [] →
  let probes := Text.file_names (OutputTab.probe_layout (SolverGUI.output_tab g)) in
  let surfs := Text.file_names (OutputTab.surf_layout (SolverGUI.output_tab g)) in
  let content := Text.text_of g in
  OS.files (Text.save path g w).2.2 !! path = Some content ∧
  has_line content
    (lines ["// Output time history details";
            "numberFiles = " +:+ Py.str_int (Z.of_nat (length probes))]) ∧
  has_line content
    (lines ["// Output integrated surface details";
            "numberFiles = " +:+ Py.str_int (Z.of_nat (length surfs))]) ∧
  (∀ i txt,
     probes !! i = Some txt ∨ surfs !! i = Some txt →
     has_line content
       (lines ["tag = " +:+ Py.str_int (Z.of_nat i + 1); "nodes = " +:+ txt])) ∧
  (∀ txt,
     In txt probes ↔
     txt ≠ "" ∧
     ∃ r, In r (Shape.output_rows_of (OutputTab.probe_layout (SolverGUI.output_tab g))) ∧
          Qt.text (Shape.o_edit r) = txt) ∧
  (∀ txt,
     In txt surfs ↔
     txt ≠ "" ∧
     ∃ r, In r (Shape.output_rows_of (OutputTab.surf_layout (SolverGUI.output_tab g))) ∧
          Qt.text (Shape.o_edit r) = txt).
Proof.
  intros Hg Hpath Hquiet probes surfs content.
  assert (∀ l txt,
            In txt (Text.file_names l) ↔
            txt ≠ "" ∧ ∃ r, In r (Shape.output_rows_of (F := F) l) ∧
                            Qt.text (Shape.o_edit r) = txt) as Hnames.
  { intros l txt. unfold Text.file_names.
    rewrite filter_In, in_map_iff, negb_true_iff, String.eqb_neq.
    split.
    - intros [(r & <- & Hr) Hne]. split; [done|]. by exists r.
    - intros [Hne (r & Hr & <-)]. split; [|done]. by exists r. }
  split; [by apply saved_file|].
  split; [|split; [|split; [|split]]].
  - apply (LineFacts.head_in_file _ "Output time history details" ("numberFiles", _)
             (concat (imap Text.output_block probes))).
    unfold Text.sections. cbn [In]. do 8 right. left. reflexivity.
  - apply (LineFacts.head_in_file _ "Output integrated surface details" ("numberFiles", _)
             (concat (imap Text.output_block surfs))).
    unfold Text.sections. cbn [In]. do 9 right. left. reflexivity.
  - intros i txt [Hi | Hi].
    + destruct (LineFacts.block_split Text.output_block probes i txt Hi) as (k1 & k2 & Hk).
      eapply (LineFacts.block_in_file _ "Output time history details" _
                (("numberFiles", _) :: k1) (Text.output_block i txt) k2); [| |done].
      * unfold Text.sections. cbn [In]. do 8 right. left. reflexivity.
      * unfold Text.output_kvs. fold probes. by rewrite Hk.
    + destruct (LineFacts.block_split Text.output_block surfs i txt Hi) as (k1 & k2 & Hk).
      eapply (LineFacts.block_in_file _ "Output integrated surface details" _
                (("numberFiles", _) :: k1) (Text.output_block i txt) k2); [| |done].
      * unfold Text.sections. cbn [In]. do 9 right. left. reflexivity.
      * unfold Text.output_kvs. fold surfs. by rewrite Hk.
  - intros txt. apply Hnames.
  - intros txt. apply Hnames.
Qed.

(** X15. The names a refresh gives: the name of row [i] of the refreshed
    sub-tab is the file name of geometry row [i] without its directory and
    without its extension. The path is a directory part, the name and an
    extension in the sense of [path_parts]: the directory part is empty or
    ends with [/], and name and extension hold no [/]; the extension is a
    dot and what follows the last dot of the file name, when the name
    before it is not made of dots only; otherwise the extension is empty
    and the name has no dot but leading ones. A path has these parts in
    one way only, so they fix the name; an empty path gives an empty
    name. *)
Theorem refreshed_names_are_file_names g :
  Session.reachable g →
  ∃ g' rows,
    Session.refresh_active_boundary_tab g = Py.Ok g' ∧
    Py.dict_get (BoundaryTab.bc_layouts (SolverGUI.boundary_tab g'))
      (Qt.tabText (BoundaryTab.bc_tabs (SolverGUI.boundary_tab g))
         (Qt.tab_index (BoundaryTab.bc_tabs (SolverGUI.boundary_tab g))))
    = Some (Qt.QBoxLayout (map Shape.bc_item rows)) ∧
    ∀ i row r,
      GeometryTab.boundary_rows (SolverGUI.geometry_tab g) !! i = Some row →
      rows !! i = Some r →
      ∃ dir ext,
        path_parts (Qt.text (GeometryTab.edit row)) dir (Qt.text (Shape.r_name r)) ext ∧
        ∀ dir' name' ext',
          path_parts (Qt.text (GeometryTab.edit row)) dir' name' ext' →
          dir' = dir ∧ name' = Qt.text (Shape.r_name r) ∧ ext' = ext.
Proof.
  intros Hg%SessionFacts.reachable_inv.
  unfold Session.refresh_active_boundary_tab.
  rewrite RefreshFacts.refresh_active_boundary_tab_rows by apply Hg.
  rewrite (Inv.gui_ref _ Hg). cbn [SolverGUI.deref mbind Py.Res_bind mret Py.Res_ret].
  set (grows := GeometryTab.boundary_rows (SolverGUI.geometry_tab g)).
  set (name := Qt.tabText _ _).
  eexists _, (map (Shape.refreshed_row false grows name (SolverGUI.next_id g))
                (seq 0 (length grows))).
  split; [reflexivity|].
  cbn [SolverGUI.boundary_tab Session.created Session.with_boundary BoundaryTab.bc_layouts].
  split.
  - apply BoundaryFacts.dict_get_set.
    rewrite (Inv.bt_keys _ (Inv.gui_boundary _ Hg)).
    apply RefreshFacts.open_tab_name, Hg.
  - intros i row r Hi Hr.
    pose proof (lookup_lt_Some _ _ _ Hi) as Hlt.
    change (map ?f ?l) with (f <$> l) in Hr.
    rewrite list_lookup_fmap, lookup_seq_lt in Hr by done.
    cbn in Hr. injection Hr as <-.
    unfold Shape.refreshed_row. cbn [negb andb].
    apply Nat.ltb_lt in Hlt. rewrite Hlt, Hi.
    match goal with
    | |- ∃ dir ext, path_parts ?p dir ?n ext ∧ _ =>
        assert (∃ dir ext, path_parts p dir n ext) as (dir & ext & Hparts)
    end.
    { destruct (String.eqb_spec (Qt.text (GeometryTab.edit row)) "") as [Hempty | _].
      - exists "", "". rewrite Hempty. cbn.
        split; [done|]. split; [by left|]. split; [done|]. left. split; [done|].
        exists "", "". split; [done|]. split; [|done]. by intros [|k] c.
      - apply PathFacts.default_name. }
    exists dir, ext. split; [exact Hparts|].
    intros dir' name' ext' Hparts'.
    exact (PathFacts.path_parts_unique _ _ _ _ _ _ _ Hparts Hparts').
Qed.

(** X16. The Browse button of an output row: a path chosen in the dialog is
    the text of the row's field and a [nodes =] line of the next saved
    file; a cancelled dialog changes nothing. *)
Theorem browsed_output_files_saved g path w i answer :
  Session.reachable g → path ≠ "" → OS.faults w = [] →
  let saved g' := OS.files (Text.save path g' w).2.2 !! path in
  (answer = "" →
   Session.browse_probe_file i answer g = g ∧ Session.browse_surf_file i answer g = g) ∧
  (answer ≠ "" →
   (i < Qt.count (OutputTab.probe_layout (SolverGUI.output_tab g)))%nat →
   ∃ content,
     saved (Session.browse_probe_file i answer g) = Some content ∧
     has_line content ("nodes = " +:+ answer)) ∧
  (answer ≠ "" →
   (i < Qt.count (OutputTab.surf_layout (SolverGUI.output_tab g)))%nat →
   ∃ content,
     saved (Session.browse_surf_file i answer g) = Some content ∧
     has_line content ("nodes = " +:+ answer)).
Proof.
  intros Hg Hpath Hquiet saved.
  pose proof (SessionFacts.reachable_inv g Hg) as Hinv.
  destruct (BrowseFacts.browse_reachable g Hg) as (_ & _ & _ & Hprobe & Hsurf).
  assert (∀ l : Qt.Layout F, Inv.output_list l → (i < Qt.count l)%nat →
                             ∃ r, Shape.output_rows_of l !! i = Some r) as Hrow.
  { intros l [rows ->] Hi. rewrite CollectFacts.output_rows_of_items.
    apply lookup_lt_is_Some. cbn in Hi. by rewrite length_map in Hi. }
  split; [|split].
  - intros ->.
    by rewrite BrowseFacts.browse_probe_file_cases, BrowseFacts.browse_surf_file_cases.
  - intros Hanswer Hi.
    destruct (Hrow _ (Inv.gui_probe _ Hinv) Hi) as [r Hr].
    eexists. split; [apply saved_file; [apply Hprobe | done..]|].
    apply (LineFacts.kv_in_file _
             ("Output time history details",
              Text.output_kvs (OutputTab.probe_layout
                (SolverGUI.output_tab (Session.browse_probe_file i answer g))))
             ("nodes", answer)).
    + unfold Text.sections. cbn [In]. do 8 right. left. reflexivity.
    + apply BrowseFacts.name_in_kvs. eapply BrowseFacts.browsed_name; [apply Hinv | exact Hr | done].
  - intros Hanswer Hi.
    destruct (Hrow _ (Inv.gui_surf _ Hinv) Hi) as [r Hr].
    eexists. split; [apply saved_file; [apply Hsurf | done..]|].
    apply (LineFacts.kv_in_file _
             ("Output integrated surface details",
              Text.output_kvs (OutputTab.surf_layout
                (SolverGUI.output_tab (Session.browse_surf_file i answer g))))
             ("nodes", answer)).
    + unfold Text.sections. cbn [In]. do 9 right. left. reflexivity.
    + apply BrowseFacts.name_in_kvs. eapply BrowseFacts.browsed_name; [apply Hinv | exact Hr | done].
Qed.

(** X17. Building the window raises no exception. The form it opens with
    has one boundary-file row, one prescribed-motion group, one probe row
    and one surface row; the first boundary-condition sub-tab is open and
    holds one row, the six others hold none. *)
Theorem window_opens :
  ∃ g : SolverGUI.t F,
    SolverGUI.init = Py.Ok g ∧
    length (GeometryTab.boundary_rows (SolverGUI.geometry_tab g)) = 1%nat ∧
    length (PrescribedTab.prescribed_tag_rows (SolverGUI.prescribed_tab g)) = 1%nat ∧
    Qt.count (OutputTab.probe_layout (SolverGUI.output_tab g)) = 1%nat ∧
    Qt.count (OutputTab.surf_layout (SolverGUI.output_tab g)) = 1%nat ∧
    Qt.tab_index (BoundaryTab.bc_tabs (SolverGUI.boundary_tab g)) = 0%nat ∧
    map (λ e, (e.1, Qt.count e.2)) (BoundaryTab.bc_layouts (SolverGUI.boundary_tab g))
    = [("X-velocity", 1%nat); ("Y-velocity", 0%nat); ("Z-velocity", 0%nat);
       ("X-disp", 0%nat); ("Y-disp", 0%nat); ("Z-disp", 0%nat);
       ("Acoustic-potential", 0%nat)].
Proof.
  unfold SolverGUI.init, BoundaryTab.init.
  rewrite RefreshFacts.refresh_active_boundary_tab_rows.
  - cbn [mbind Py.Res_bind mret Py.Res_ret]. eexists. split; [reflexivity|].
    repeat split; reflexivity.
  - split; simpl; [done | lia | done |].
    repeat constructor; exists []; simpl; repeat split; constructor.
Qed.

(** X18. The buttons of the boundary-condition tab raise no exception: in
    every form of a session, adding a row to any of the seven sub-tabs,
    deleting a row and refreshing the open sub-tab end normally and lead
    to a form of the session. *)
Theorem boundary_buttons_never_raise g tab :
  Session.reachable g → In tab BoundaryTab.TAB_NAMES →
  (∃ g', Session.add_bc_row tab g = Py.Ok g' ∧ Session.reachable g') ∧
  (∀ row, ∃ g', Session.remove_bc_row tab row g = Py.Ok g' ∧ Session.reachable g') ∧
  (∃ g', Session.refresh_active_boundary_tab g = Py.Ok g' ∧ Session.reachable g').
Proof.
  intros Hg Htab. pose proof (SessionFacts.reachable_inv g Hg) as Hinv.
  split; [|split].
  - destruct (BoundaryFacts.click_add_inv tab (SolverGUI.next_id g) _
                (Inv.gui_boundary _ Hinv) Htab) as (bt' & Hbt' & _).
    assert (Session.add_bc_row tab g
            = Py.Ok (Session.created 1 (Session.with_boundary bt' g))) as Hrun.
    { unfold Session.add_bc_row. by rewrite Hbt'. }
    eexists. split; [exact Hrun|].
    eapply Session.reachable_step; [exact Hg|].
    by eapply Session.step_add_bc_row.
  - intros row.
    destruct (BoundaryFacts.click_delete_inv tab row _
                (Inv.gui_boundary _ Hinv) Htab) as (bt' & Hbt' & _).
    assert (Session.remove_bc_row tab row g = Py.Ok (Session.with_boundary bt' g)) as Hrun.
    { unfold Session.remove_bc_row. by rewrite Hbt'. }
    eexists. split; [exact Hrun|].
    eapply Session.reachable_step; [exact Hg|].
    by eapply Session.step_remove_bc_row.
  - destruct (RefreshFacts.refresh_active_boundary_tab_inv false
                (SolverGUI.deref g
                   (BoundaryTab.geometry_boundary_rows (SolverGUI.boundary_tab g)))
                (SolverGUI.next_id g) _ (Inv.gui_boundary _ Hinv)) as (bt' & Hbt' & _).
    assert (Session.refresh_active_boundary_tab g
            = Py.Ok (Session.created
                       (length (SolverGUI.deref g
                          (BoundaryTab.geometry_boundary_rows (SolverGUI.boundary_tab g))))
                       (Session.with_boundary bt' g))) as Hrun.
    { unfold Session.refresh_active_boundary_tab. by rewrite Hbt'. }
    eexists. split; [exact Hrun|].
    eapply Session.reachable_step; [exact Hg|].
    by eapply Session.step_refresh_active_boundary_tab.
Qed.

(** X19. The boundary tab holds the geometry tab's list of rows itself, not
    a copy: a boundary file added after the window was built is seen by
    the next refresh, which gives the open sub-tab one row more than the
    geometry tab had before the file was added. *)
Theorem refresh_sees_new_boundary_rows g :
  Session.reachable g →
  ∃ g' rows,
    Session.refresh_active_boundary_tab (Session.add_boundary_row g) = Py.Ok g' ∧
    Py.dict_get (BoundaryTab.bc_layouts (SolverGUI.boundary_tab g'))
      (Qt.tabText (BoundaryTab.bc_tabs (SolverGUI.boundary_tab g))
         (Qt.tab_index (BoundaryTab.bc_tabs (SolverGUI.boundary_tab g))))
    = Some (Qt.QBoxLayout (map Shape.bc_item rows)) ∧
    length rows = S (length (GeometryTab.boundary_rows (SolverGUI.geometry_tab g))).
Proof.
  intros Hg.
  assert (Session.reachable (Session.add_boundary_row g)) as Hadded.
  { eapply Session.reachable_step; [exact Hg | constructor]. }
  apply SessionFacts.reachable_inv in Hadded as Hinv.
  unfold Session.refresh_active_boundary_tab.
  rewrite RefreshFacts.refresh_active_boundary_tab_rows by apply Hinv.
  rewrite (Inv.gui_ref _ Hinv). cbn [SolverGUI.deref mbind Py.Res_bind mret Py.Res_ret].
  eexists _, _. split; [reflexivity|].
  cbn [SolverGUI.boundary_tab Session.created Session.with_boundary BoundaryTab.bc_layouts
       Session.add_boundary_row Session.with_geometry SolverGUI.geometry_tab].
  split.
  - apply BoundaryFacts.dict_get_set.
    apply SessionFacts.reachable_inv in Hg.
    rewrite (Inv.bt_keys _ (Inv.gui_boundary _ Hg)).
    apply RefreshFacts.open_tab_name, Hg.
  - rewrite !length_map, length_seq.
    unfold GeometryTab.add_boundary_row.
    rewrite GeometryFacts.refresh_ui_length. cbn [GeometryTab.boundary_rows].
    rewrite length_app. cbn. lia.
Qed.

End MoreProperties.

(* ===================================================================== *)
(** ** The further properties on concrete sessions *)
(* ===================================================================== *)

(** X1 on the second row of the longer session. *)
Lemma boundary_rows_shown_witness :
  Session.reachable Demo.worked ∧
  GeometryTab.boundary_rows (SolverGUI.geometry_tab Demo.worked) !! 1%nat
  = Some Demo.inlet_row ∧
  Qt.placeholderText (GeometryTab.edit Demo.inlet_row) = "Select file for Boundary 2..." ∧
  GeometryTab.btn_del Demo.inlet_row = true.
Proof.
  split; [exact DemoFacts.worked_reachable|]. split; [vm_compute; reflexivity|].
  destruct (boundary_rows_shown Demo.worked 1%nat Demo.inlet_row DemoFacts.worked_reachable)
    as [Hp Hb]; [vm_compute; reflexivity|].
  split; [exact Hp | exact Hb].
Defined.

(** X2: the first of the two rows of the longer session is deleted. *)
Lemma remove_boundary_row_keeps_others_witness :
  Session.reachable Demo.worked ∧
  GeometryTab.boundary_rows (SolverGUI.geometry_tab Demo.worked)
  = [] ++ Demo.wall_row :: [Demo.inlet_row] ∧
  (1 < length ([] ++ Demo.wall_row :: [Demo.inlet_row]))%nat ∧
  map (λ r, (GeometryTab.widget r, Qt.text (GeometryTab.edit r)))
    (GeometryTab.boundary_rows
       (SolverGUI.geometry_tab (Session.remove_boundary_row 0%nat Demo.worked)))
  = [(5%nat, "inlet.txt")] ∧
  GeometryTab.scroll_layout
    (SolverGUI.geometry_tab (Session.remove_boundary_row 0%nat Demo.worked))
  = [5%nat].
Proof.
  split; [exact DemoFacts.worked_reachable|]. split; [vm_compute; reflexivity|].
  split; [cbn; lia|].
  exact (remove_boundary_row_keeps_others Demo.worked [] Demo.wall_row [Demo.inlet_row]
           DemoFacts.worked_reachable ltac:(vm_compute; reflexivity) ltac:(cbn; lia)).
Defined.

(** X3 on the longer session. *)
Lemma add_then_remove_boundary_row_witness :
  Session.reachable Demo.worked ∧
  Session.remove_boundary_row (SolverGUI.next_id Demo.worked)
    (Session.add_boundary_row Demo.worked)
  = Session.created 1 Demo.worked.
Proof.
  split; [exact DemoFacts.worked_reachable|].
  exact (add_then_remove_boundary_row Demo.worked DemoFacts.worked_reachable).
Defined.

(** X5: the second of the three displacement rows of the longer session
    is deleted; the third becomes [B-2] and keeps its tag, and the initial
    conditions are those of before. *)
Lemma remove_bc_row_keeps_others_witness :
  Py.dict_get (BoundaryTab.bc_layouts (SolverGUI.boundary_tab Demo.worked)) "X-disp"
  = Some (Qt.QBoxLayout (map Shape.bc_item
      ([Demo.disp_row 8%nat "B-1" 1%nat 2] ++ Demo.disp_row 9%nat "B-2" 2%nat 0
       :: [Demo.disp_row 10%nat "B-3" 0%nat 3]))) ∧
  Forall (λ x, Shape.r_id x ≠ Shape.r_id (Demo.disp_row 9%nat "B-2" 2%nat 0))
    [Demo.disp_row 8%nat "B-1" 1%nat 2] ∧
  ∃ g',
    Session.remove_bc_row "X-disp" 9%nat Demo.worked = Py.Ok g' ∧
    Py.dict_get (BoundaryTab.bc_layouts (SolverGUI.boundary_tab g')) "X-disp"
    = Some (Qt.QBoxLayout (map Shape.bc_item
        [Demo.disp_row 8%nat "B-1" 1%nat 2; Demo.disp_row 10%nat "B-2" 0%nat 3])) ∧
    BoundaryTab.init_cond_widgets (SolverGUI.boundary_tab g')
    = BoundaryTab.init_cond_widgets (SolverGUI.boundary_tab Demo.worked).
Proof.
  split; [vm_compute; reflexivity|].
  split; [repeat constructor; cbn; lia|].
  destruct (remove_bc_row_keeps_others Demo.worked "X-disp"
              [Demo.disp_row 8%nat "B-1" 1%nat 2] (Demo.disp_row 9%nat "B-2" 2%nat 0)
              [Demo.disp_row 10%nat "B-3" 0%nat 3])
    as (g' & Hrun & Hrows & _ & _ & _ & Hic & _);
    [vm_compute; reflexivity | repeat constructor; cbn; lia |].
  exists g'. split; [exact Hrun|]. split; [exact Hrows | exact Hic].
Defined.

(** X6 on the longer session. *)
Lemma refresh_resets_open_tab_only_witness :
  Session.reachable Demo.worked ∧
  ∃ g',
    Session.refresh_active_boundary_tab Demo.worked = Py.Ok g' ∧
    Py.dict_get (BoundaryTab.bc_layouts (SolverGUI.boundary_tab g')) "X-disp"
    = Py.dict_get (BoundaryTab.bc_layouts (SolverGUI.boundary_tab Demo.worked)) "X-disp" ∧
    ∀ r, In ("xVelocity", r) (Text.tab_rows (SolverGUI.boundary_tab g') "X-velocity" "xVelocity") →
         Qt.currentText (Shape.r_type r) = "None".
Proof.
  split; [exact DemoFacts.worked_reachable|].
  destruct (refresh_resets_open_tab_only Demo.worked DemoFacts.worked_reachable)
    as (g' & Hrun & Hother & Hrows & _).
  exists g'. split; [exact Hrun|]. split.
  - apply Hother. vm_compute. discriminate.
  - intros r Hr. exact (proj1 (Hrows "xVelocity" r Hr)).
Defined.

(** X7: a second group is added to the window as it opens. *)
Lemma prescribed_groups_never_removed_witness :
  Session.reachable Demo.opened ∧
  Session.step Demo.opened (Session.add_prescribed_tag Demo.opened) ∧
  (1 ≤ length (PrescribedTab.prescribed_tag_rows (SolverGUI.prescribed_tab Demo.opened)))%nat ∧
  ∃ added,
    PrescribedTab.prescribed_layout
      (SolverGUI.prescribed_tab (Session.add_prescribed_tag Demo.opened))
    = PrescribedTab.prescribed_layout (SolverGUI.prescribed_tab Demo.opened) ++ added ∧
    (length added ≤ 1)%nat.
Proof.
  split; [exact DemoFacts.opened_reachable|].
  split; [apply Session.step_add_prescribed_tag|].
  destruct (prescribed_groups_never_removed Demo.opened
              (Session.add_prescribed_tag Demo.opened) DemoFacts.opened_reachable
              (Session.step_add_prescribed_tag Demo.opened))
    as (Hone & _ & added & Hlayout & _ & Hadded).
  split; [exact Hone|]. by exists added.
Defined.

(** X8: the earlier version of the file cannot be opened for writing. *)
Lemma save_failed_open_keeps_files_witness :
  Session.reachable Demo.worked ∧ "inputFile.txt" ≠ "" ∧
  head (OS.faults Demo.locked_world) = Some true ∧
  OS.files (Text.save "inputFile.txt" Demo.worked Demo.locked_world).2.2 !! "inputFile.txt"
  = Some "// old".
Proof.
  split; [exact DemoFacts.worked_reachable|]. split; [done|]. split; [reflexivity|].
  destruct (save_failed_open_keeps_files Demo.worked "inputFile.txt" Demo.locked_world
              DemoFacts.worked_reachable ltac:(done) eq_refl) as [-> _].
  vm_compute. reflexivity.
Defined.

(** X9: the third write fails; the file holds the first two pieces. *)
Lemma save_leaves_beginning_witness :
  Session.reachable Demo.worked ∧ "inputFile.txt" ≠ "" ∧
  head (OS.faults Demo.full_world) ≠ Some true ∧
  ∃ content,
    OS.files (Text.save "inputFile.txt" Demo.worked Demo.full_world).2.2 !! "inputFile.txt"
    = Some content ∧
    starts content (Text.text_of Demo.worked).
Proof.
  split; [exact DemoFacts.worked_reachable|]. split; [done|]. split; [done|].
  destruct (save_leaves_beginning Demo.worked "inputFile.txt" Demo.full_world
              DemoFacts.worked_reachable ltac:(done) ltac:(done))
    as (content & Hfile & Hstarts & _).
  by exists content.
Defined.

(** X10: a save to another path leaves the earlier file alone. *)
Lemma save_touches_one_file_witness :
  Session.reachable Demo.worked ∧ "inputFile.txt" ≠ "copy.txt" ∧
  OS.files (Text.save "copy.txt" Demo.worked Demo.used_world).2.2 !! "inputFile.txt"
  = Some "// old".
Proof.
  split; [exact DemoFacts.worked_reachable|]. split; [done|].
  rewrite (save_touches_one_file Demo.worked "copy.txt" Demo.used_world "inputFile.txt"
             DemoFacts.worked_reachable ltac:(done)).
  vm_compute. reflexivity.
Defined.

(** X11 on the longer session. *)
Lemma save_ignores_unwritten_fields_witness :
  Session.reachable Demo.worked ∧ "inputFile.txt" ≠ "" ∧ OS.faults quiet_world = [] ∧
  OS.files (Text.save "inputFile.txt"
              (Session.set_boundary_file 0%nat "other.dat" Demo.worked) quiet_world).2.2
    !! "inputFile.txt"
  = OS.files (Text.save "inputFile.txt" Demo.worked quiet_world).2.2 !! "inputFile.txt" ∧
  OS.files (Text.save "inputFile.txt" (Session.calculate_nondim Demo.worked) quiet_world).2.2
    !! "inputFile.txt"
  = OS.files (Text.save "inputFile.txt" Demo.worked quiet_world).2.2 !! "inputFile.txt".
Proof.
  split; [exact DemoFacts.worked_reachable|]. split; [done|]. split; [reflexivity|].
  destruct (save_ignores_unwritten_fields Demo.worked "inputFile.txt" quiet_world
              DemoFacts.worked_reachable ltac:(done) eq_refl)
    as (Hset & _ & _ & _ & _ & Hcheck & _).
  split; [exact (Hset 0%nat "other.dat") | exact Hcheck].
Defined.

(** X13: a coordinate file is chosen in the dialog. *)
Lemma browsed_mesh_files_saved_witness :
  Session.reachable Demo.worked ∧ "inputFile.txt" ≠ "" ∧ OS.faults quiet_world = [] ∧
  ∃ content,
    OS.files (Text.save "inputFile.txt" (Session.browse_coord "mesh.crd" Demo.worked)
                quiet_world).2.2 !! "inputFile.txt"
    = Some content ∧
    has_line content "crdFile = mesh.crd".
Proof.
  split; [exact DemoFacts.worked_reachable|]. split; [done|]. split; [reflexivity|].
  destruct (browsed_mesh_files_saved Demo.worked "inputFile.txt" quiet_world "mesh.crd"
              DemoFacts.worked_reachable ltac:(done) eq_refl)
    as (_ & (content & Hfile & Hline) & _).
  exists content. split; [exact Hfile | exact Hline].
Defined.

(** X14 on the longer session: one probe file, no surface file. *)
Lemma output_sections_numbered_witness :
  Session.reachable Demo.worked ∧ "inputFile.txt" ≠ "" ∧ OS.faults quiet_world = [] ∧
  has_line (Text.text_of Demo.worked)
    (lines ["// Output time history details"; "numberFiles = 1"]) ∧
  has_line (Text.text_of Demo.worked)
    (lines ["// Output integrated surface details"; "numberFiles = 0"]) ∧
  has_line (Text.text_of Demo.worked) (lines ["tag = 1"; "nodes = probe.dat"]).
Proof.
  split; [exact DemoFacts.worked_reachable|]. split; [done|]. split; [reflexivity|].
  destruct (output_sections_numbered Demo.worked "inputFile.txt" quiet_world
              DemoFacts.worked_reachable ltac:(done) eq_refl)
    as (_ & Hprobes & Hsurfs & Hrows & _).
  split; [evaluated Hprobes|]. split; [evaluated Hsurfs|].
  assert (Text.file_names (OutputTab.probe_layout (SolverGUI.output_tab Demo.worked))
            !! 0%nat = Some "probe.dat") as Hprobe by (vm_compute; reflexivity).
  pose proof (Hrows 0%nat "probe.dat" (or_introl Hprobe)) as Hrow.
  evaluated Hrow.
Defined.

(** X15 on the longer session: [mesh/wall.dat] is the directory part
    [mesh/], the name [wall] and the extension [.dat], so the first
    refreshed row is named [wall]. *)
Lemma refreshed_names_are_file_names_witness :
  Session.reachable Demo.worked ∧
  path_parts "mesh/wall.dat" "mesh/" "wall" ".dat" ∧
  ∃ g' rows r,
    Session.refresh_active_boundary_tab Demo.worked = Py.Ok g' ∧
    Py.dict_get (BoundaryTab.bc_layouts (SolverGUI.boundary_tab g')) "X-velocity"
    = Some (Qt.QBoxLayout (map Shape.bc_item rows)) ∧
    rows !! 0%nat = Some r ∧
    Qt.text (Shape.r_name r) = "wall".
Proof.
  assert (path_parts "mesh/wall.dat" "mesh/" "wall" ".dat") as Hwall.
  { split; [reflexivity|]. split; [right; by exists "mesh"|]. split; [reflexivity|].
    right. exists "dat". split; [reflexivity|]. split; [reflexivity|].
    intros Hdots. by specialize (Hdots 0%nat "w"%char eq_refl). }
  split; [exact DemoFacts.worked_reachable|]. split; [exact Hwall|].
  destruct (refreshed_names_are_file_names Demo.worked DemoFacts.worked_reachable)
    as (g' & rows & Hrun & Hlayout & Hnames).
  assert (∃ r, rows !! 0%nat = Some r) as [r Hr].
  { pose proof Hrun as Hrun'. vm_compute in Hrun'. injection Hrun' as <-.
    pose proof Hlayout as Hitems. vm_compute in Hitems.
    injection Hitems as Hitems. destruct rows as [|r rows]; [discriminate Hitems|].
    by exists r. }
  destruct (Hnames 0%nat Demo.wall_row r ltac:(vm_compute; reflexivity) Hr)
    as (dir & ext & _ & Hunique).
  exists g', rows, r.
  split; [exact Hrun|]. split; [exact Hlayout|]. split; [exact Hr|].
  symmetry. exact (proj1 (proj2 (Hunique "mesh/" "wall" ".dat" Hwall))).
Defined.

(** X16: a surface file is chosen in the dialog. *)
Lemma browsed_output_files_saved_witness :
  Session.reachable Demo.worked ∧ "inputFile.txt" ≠ "" ∧ OS.faults quiet_world = [] ∧
  "wing.srf" ≠ "" ∧
  (0 < Qt.count (OutputTab.surf_layout (SolverGUI.output_tab Demo.worked)))%nat ∧
  ∃ content,
    OS.files (Text.save "inputFile.txt" (Session.browse_surf_file 0%nat "wing.srf" Demo.worked)
                quiet_world).2.2 !! "inputFile.txt"
    = Some content ∧
    has_line content "nodes = wing.srf".
Proof.
  split; [exact DemoFacts.worked_reachable|]. split; [done|]. split; [reflexivity|].
  split; [done|]. split; [vm_compute; lia|].
  destruct (browsed_output_files_saved Demo.worked "inputFile.txt" quiet_world 0%nat "wing.srf"
              DemoFacts.worked_reachable ltac:(done) eq_refl) as (_ & _ & Hsurf).
  exact (Hsurf ltac:(done) ltac:(vm_compute; lia)).
Defined.

(** X18 on the longer session and the sub-tab [Y-disp]. *)
Lemma boundary_buttons_never_raise_witness :
  Session.reachable Demo.worked ∧ In "Y-disp" BoundaryTab.TAB_NAMES ∧
  (∃ g', Session.add_bc_row "Y-disp" Demo.worked = Py.Ok g' ∧ Session.reachable g') ∧
  (∃ g', Session.remove_bc_row "Y-disp" 3%nat Demo.worked = Py.Ok g' ∧ Session.reachable g') ∧
  (∃ g', Session.refresh_active_boundary_tab Demo.worked = Py.Ok g' ∧ Session.reachable g').
Proof.
  split; [exact DemoFacts.worked_reachable|]. split; [listed|].
  destruct (boundary_buttons_never_raise Demo.worked "Y-disp" DemoFacts.worked_reachable
              ltac:(listed)) as (Hadd & Hdel & Hrefresh).
  split; [exact Hadd|]. split; [exact (Hdel 3%nat) | exact Hrefresh].
Defined.

(** X19 on the longer session: three rows after a third file is added. *)
Lemma refresh_sees_new_boundary_rows_witness :
  Session.reachable Demo.worked ∧
  ∃ g' rows,
    Session.refresh_active_boundary_tab (Session.add_boundary_row Demo.worked) = Py.Ok g' ∧
    Py.dict_get (BoundaryTab.bc_layouts (SolverGUI.boundary_tab g')) "X-velocity"
    = Some (Qt.QBoxLayout (map Shape.bc_item rows)) ∧
    length rows = 3%nat.
Proof.
  split; [exact DemoFacts.worked_reachable|].
  exact (refresh_sees_new_boundary_rows Demo.worked DemoFacts.worked_reachable).
Defined.
